(** * VtsComposerClient: resource registry, layer lifecycle, discovery, teardown

    A shallow embedding of
    [interfaces/graphics/composer/aidl/vts/VtsComposerClient.cpp]:
    the display/layer ownership table [mDisplayResources], the batched and
    unbatched layer lifecycle, the version-gated configuration queries, the
    display discovery loop and the teardown sequence, with the properties
    the specification states about them. *)

From Stdlib Require Import ZArith List Bool Lia.
Import ListNotations.
Local Open Scope Z_scope.

(* ===================================================================== *)
(** ** Machine integers *)
(* ===================================================================== *)

Definition INT64_MAX : Z := 2 ^ 63 - 1.
Definition INT64_MIN : Z := - 2 ^ 63.

(** Two's-complement reduction of a mathematical integer to [int64_t]. *)
Definition wrap_int64 (z : Z) : Z := (z + 2 ^ 63) mod 2 ^ 64 - 2 ^ 63.

(* ===================================================================== *)
(** ** Containers

    [std::unordered_set<int64_t>] and [std::unordered_map<int64_t, V>] as
    lists of elements and of key/value entries.  [begin()] is the head of
    the list.  [insert] leaves the container alone and answers [false]
    when the key is already there; [erase] of a key that is not there
    does nothing. *)
(* ===================================================================== *)

Module USet.

Definition t : Type := list Z.

Definition contains (x : Z) (s : t) : bool := existsb (Z.eqb x) s.

(** [s.insert(x)]: the new set and the [.second] of the returned pair. *)
Definition insert (x : Z) (s : t) : t * bool :=
  if contains x s then (s, false) else (s ++ [x], true).

(** [s.erase(x)]. *)
Definition erase (x : Z) (s : t) : t :=
  filter (fun y => negb (y =? x)) s.

(** [*s.begin()], when [!s.empty()]. *)
Definition begin (s : t) : option Z := hd_error s.

End USet.

Module UMap.

Section WithValue.
Context {V : Type}.

Definition t : Type := list (Z * V).

Definition keys (m : t) : list Z := map fst m.

(** [m.find(k)]: the mapped value, [None] for [m.end()]. *)
Fixpoint find (k : Z) (m : t) : option V :=
  match m with
  | [] => None
  | (k', v) :: m' => if k' =? k then Some v else find k m'
  end.

(** [m.insert({k, v})]: the new map and the [.second] of the returned
    pair; an occupied key keeps its old value. *)
Definition insert (k : Z) (v : V) (m : t) : t * bool :=
  match find k m with
  | Some _ => (m, false)
  | None => (m ++ [(k, v)], true)
  end.

(** [m.erase(k)]. *)
Definition erase (k : Z) (m : t) : t :=
  filter (fun e => negb (fst e =? k)) m.

(** A write through an iterator or reference to the value mapped at [k]. *)
Fixpoint update (k : Z) (f : V -> V) (m : t) : t :=
  match m with
  | [] => []
  | (k', v) :: m' =>
      if k' =? k then (k', f v) :: m' else (k', v) :: update k f m'
  end.

End WithValue.

Arguments t : clear implicits.

End UMap.

(* ===================================================================== *)
(** ** Statuses, enums and records of the interface *)
(* ===================================================================== *)

(** [ndk::ScopedAStatus]: success, a service-specific error with its
    code, or any other binder exception with its code. *)
Inductive ScopedAStatus : Type :=
| StatusOk
| ServiceSpecificError (code : Z)
| BinderException (code : Z).

Definition isOk (s : ScopedAStatus) : bool :=
  match s with
  | StatusOk => true
  | _ => false
  end.

Definition fromServiceSpecificError (code : Z) : ScopedAStatus :=
  ServiceSpecificError code.

Inductive Capability : Type :=
| LAYER_LIFECYCLE_BATCH_COMMAND
| OtherCapability (code : Z).

Definition Capability_eqb (a b : Capability) : bool :=
  match a, b with
  | LAYER_LIFECYCLE_BATCH_COMMAND, LAYER_LIFECYCLE_BATCH_COMMAND => true
  | OtherCapability x, OtherCapability y => x =? y
  | _, _ => false
  end.

Inductive DisplayAttribute : Type :=
| WIDTH
| HEIGHT
| VSYNC_PERIOD
| CONFIG_GROUP.

Inductive LayerLifecycleBatchCommandType : Type :=
| CREATE
| DESTROY.

(** Modelled from the spec: the optional variable-refresh configuration of
    a display configuration; the client only copies it. *)
Definition VrrConfig : Type := Z.

(** The [DisplayConfiguration] parcelable, with the fields the client
    reads. *)
Record DisplayConfiguration : Type := mkDisplayConfiguration {
  configId : Z;
  dc_width : Z;
  dc_height : Z;
  dc_configGroup : Z;
  dc_vsyncPeriod : Z;
  dc_vrrConfig : option VrrConfig
}.

Record VirtualDisplay : Type := mkVirtualDisplay {
  vd_display : Z;
  vd_format : Z
}.

(** Modelled from the spec: DisplayConfig is
    { vsyncPeriod, configGroup, optional vrrConfig } (declared in
    VtsComposerClient.h). *)
Record DisplayConfig : Type := mkDisplayConfig {
  vsyncPeriod : Z;
  configGroup : Z;
  vrrConfig : option VrrConfig
}.

(** Modelled from the spec: VtsDisplay is the aggregate of a display id,
    its width and height, and its mapping of config id to DisplayConfig
    (declared in VtsComposerClient.h). *)
Record VtsDisplay : Type := mkVtsDisplay {
  mDisplayId : Z;
  mDisplayWidth : Z;
  mDisplayHeight : Z;
  mDisplayConfigs : UMap.t DisplayConfig
}.

(** Modelled from the spec: a VtsDisplay is created from its id alone, with
    no configuration yet. *)
Definition newVtsDisplay (display : Z) : VtsDisplay :=
  mkVtsDisplay display 0 0 [].

Definition getDisplayId (d : VtsDisplay) : Z := mDisplayId d.

(** Modelled from the spec: the active configuration's width and height are
    copied onto the display. *)
Definition setDimensions (w h : Z) (d : VtsDisplay) : VtsDisplay :=
  mkVtsDisplay (mDisplayId d) w h (mDisplayConfigs d).

(** Modelled from the spec: the mapping is keyed by config id. *)
Definition addDisplayConfig (config : Z) (c : DisplayConfig) (d : VtsDisplay)
  : VtsDisplay :=
  mkVtsDisplay (mDisplayId d) (mDisplayWidth d) (mDisplayHeight d)
               (fst (UMap.insert config c (mDisplayConfigs d))).

(** Modelled from the spec: DisplayResource is
    { isVirtual: bool, layers: set of layer-id } (declared in
    VtsComposerClient.h); a new entry owns no layer. *)
Record DisplayResource : Type := mkDisplayResource {
  isVirtual : bool;
  layers : USet.t
}.

Definition newDisplayResource (isVirtual_ : bool) : DisplayResource :=
  mkDisplayResource isVirtual_ [].

Definition withLayers (ls : USet.t) (r : DisplayResource) : DisplayResource :=
  mkDisplayResource (isVirtual r) ls.

(** Modelled from the spec: the pending command buffer is an ordered
    sequence of lifecycle records keyed by (display, layer); the client
    only appends to it. *)
Inductive WriterCommand : Type :=
| SetLayerLifecycleBatchCommandType
    (display layer : Z) (cmd : LayerLifecycleBatchCommandType)
| SetNewBufferSlotCount (display layer : Z) (bufferSlotCount : Z).

Definition ComposerClientWriter : Type := list WriterCommand.

Definition setLayerLifecycleBatchCommandType
  (display layer : Z) (cmd : LayerLifecycleBatchCommandType)
  (writer : ComposerClientWriter) : ComposerClientWriter :=
  writer ++ [SetLayerLifecycleBatchCommandType display layer cmd].

Definition setNewBufferSlotCount
  (display layer bufferSlotCount : Z) (writer : ComposerClientWriter)
  : ComposerClientWriter :=
  writer ++ [SetNewBufferSlotCount display layer bufferSlotCount].

(** The counters of unexpected notifications kept by
    [GraphicsComposerCallback]. *)
Record GraphicsComposerCallback : Type := mkCallback {
  getInvalidHotplugCount : Z;
  getInvalidRefreshCount : Z;
  getInvalidVsyncCount : Z;
  getInvalidVsyncPeriodChangeCount : Z;
  getInvalidSeamlessPossibleCount : Z;
  getInvalidRefreshRateDebugEnabledCallbackCount : Z
}.

(* ===================================================================== *)
(** ** The remote composer client

    Every call through [mComposerClient] is a transaction.  The service is
    an arbitrary deterministic party: its answer to a call is a function of
    the transactions it has received so far and of the call's arguments. *)
(* ===================================================================== *)

Inductive Transaction : Type :=
| TGetInterfaceVersion
| TCreateVirtualDisplay (width height pixelFormat bufferSlotCount : Z)
| TDestroyVirtualDisplay (display : Z)
| TCreateLayer (display bufferSlotCount : Z)
| TDestroyLayer (display layer : Z)
| TGetActiveConfig (display : Z)
| TGetDisplayAttribute (display config : Z) (attribute : DisplayAttribute)
| TGetDisplayConfigs (display : Z)
| TGetDisplayConfigurations (display maxFrameIntervalNs : Z).

Definition History : Type := list Transaction.

(** The [IComposerClient] interface: its error constants (their values are
    fixed by the interface definition, which the client only names), the
    frame-interval bound [kMaxFrameIntervalNs] the client passes to the
    extended configuration query (a constant of VtsComposerClient.h), and
    its methods.  A method with an out-parameter answers the status and
    the value the out-variable holds after the call; [getInterfaceVersion]
    is handed the value the variable held before. *)
Class IComposerClient : Type := {
  EX_BAD_CONFIG : Z;
  EX_BAD_DISPLAY : Z;
  EX_BAD_LAYER : Z;
  kMaxFrameIntervalNs : Z;
  remote_getInterfaceVersion : History -> Z -> ScopedAStatus * Z;
  remote_createVirtualDisplay :
    History -> Z -> Z -> Z -> Z -> ScopedAStatus * VirtualDisplay;
  remote_destroyVirtualDisplay : History -> Z -> ScopedAStatus;
  remote_createLayer : History -> Z -> Z -> ScopedAStatus * Z;
  remote_destroyLayer : History -> Z -> Z -> ScopedAStatus;
  remote_getActiveConfig : History -> Z -> ScopedAStatus * Z;
  remote_getDisplayAttribute :
    History -> Z -> Z -> DisplayAttribute -> ScopedAStatus * Z;
  remote_getDisplayConfigs : History -> Z -> ScopedAStatus * list Z;
  remote_getDisplayConfigurations :
    History -> Z -> Z -> ScopedAStatus * list DisplayConfiguration
}.

(* ===================================================================== *)
(** ** The client object *)
(* ===================================================================== *)

(** The members of [VtsComposerClient] that the modelled methods read or
    write.  [mComposerClient] is the proxy to the remote client, held as
    the transactions sent through it so far. *)
Record VtsComposerClient : Type := mkClient {
  mComposerClient : History;
  mComposerCallback : option GraphicsComposerCallback;
  mDisplayResources : UMap.t DisplayResource;
  mSupportsBatchedCreateLayer : bool;
  mNextLayerHandle : Z
}.

Definition set_mComposerClient (h : History) (c : VtsComposerClient) :=
  mkClient h (mComposerCallback c) (mDisplayResources c)
           (mSupportsBatchedCreateLayer c) (mNextLayerHandle c).

Definition set_mDisplayResources (r : UMap.t DisplayResource)
  (c : VtsComposerClient) :=
  mkClient (mComposerClient c) (mComposerCallback c) r
           (mSupportsBatchedCreateLayer c) (mNextLayerHandle c).

Definition set_mNextLayerHandle (n : Z) (c : VtsComposerClient) :=
  mkClient (mComposerClient c) (mComposerCallback c) (mDisplayResources c)
           (mSupportsBatchedCreateLayer c) n.

(** Methods are state transformers over the client object. *)
Definition M (A : Type) : Type := VtsComposerClient -> A * VtsComposerClient.

Definition ret {A : Type} (a : A) : M A := fun c => (a, c).

Definition bind {A B : Type} (m : M A) (k : A -> M B) : M B :=
  fun c => let (a, c') := m c in k a c'.

Declare Scope client_scope.
Delimit Scope client_scope with client.
Notation "x <- m ;; k" := (bind m (fun x => k))
  (at level 61, m at next level, right associativity) : client_scope.
Notation "' p <- m ;; k" := (bind m (fun x => let p := x in k))
  (at level 61, p pattern, m at next level, right associativity)
  : client_scope.
Local Open Scope client_scope.

(** The client after transaction [t] has gone out through the proxy. *)
Definition sent (t : Transaction) (c : VtsComposerClient) : VtsComposerClient :=
  set_mComposerClient (mComposerClient c ++ [t]) c.

(** Sending one transaction: the history the service answers from, with
    the transaction recorded behind it. *)
Definition transact (t : Transaction) : M History :=
  fun c => (mComposerClient c, sent t c).

(** The constructor, after the capability query: the batched layer
    lifecycle is supported when the service lists the capability.  The
    first value of the layer-handle counter is the member's initialiser in
    VtsComposerClient.h, taken here as the parameter [firstLayerHandle]. *)
Definition construct (firstLayerHandle : Z) (capabilities : list Capability)
  : VtsComposerClient :=
  mkClient [] None []
           (existsb (fun cap => Capability_eqb cap LAYER_LIFECYCLE_BATCH_COMMAND)
                    capabilities)
           firstLayerHandle.

(* ===================================================================== *)
(** ** Methods of [VtsComposerClient] *)
(* ===================================================================== *)

Section Methods.
Context {svc : IComposerClient}.

(** *** The resource registry *)

Definition addDisplayToDisplayResources (display : Z) (isVirtual_ : bool)
  : M ScopedAStatus :=
  fun c =>
    let (m, inserted) :=
      UMap.insert display (newDisplayResource isVirtual_) (mDisplayResources c) in
    if inserted
    then (StatusOk, set_mDisplayResources m c)
    else (fromServiceSpecificError EX_BAD_DISPLAY, set_mDisplayResources m c).

(** [resource->second.layers.insert(layer)] for the entry [resource] of
    [display] in the registry [m]. *)
Definition insertLayerAt (display layer : Z) (resource : DisplayResource)
  (m : UMap.t DisplayResource) : ScopedAStatus * UMap.t DisplayResource :=
  let (ls, inserted) := USet.insert layer (layers resource) in
  if inserted
  then (StatusOk, UMap.update display (withLayers ls) m)
  else (fromServiceSpecificError EX_BAD_LAYER, m).

Definition addLayerToDisplayResources (display layer : Z) : M ScopedAStatus :=
  fun c =>
    let m := mDisplayResources c in
    let (status, m') :=
      match UMap.find display m with
      | Some resource => insertLayerAt display layer resource m
      | None =>
          insertLayerAt display layer (newDisplayResource false)
            (fst (UMap.insert display (newDisplayResource false) m))
      end in
    (status, set_mDisplayResources m' c).

Definition removeLayerFromDisplayResources (display layer : Z) : M unit :=
  fun c =>
    let m := mDisplayResources c in
    match UMap.find display m with
    | Some _ =>
        (tt, set_mDisplayResources
               (UMap.update display
                  (fun r => withLayers (USet.erase layer (layers r)) r) m) c)
    | None => (tt, c)
    end.

(** [mDisplayResources.erase(display)], as [destroyVirtualDisplay] does
    it: the registry's removeDisplay. *)
Definition eraseDisplayResource (display : Z) : M unit :=
  fun c =>
    (tt, set_mDisplayResources (UMap.erase display (mDisplayResources c)) c).

(** *** Capability queries *)

Definition getInterfaceVersion : M (ScopedAStatus * Z) :=
  h <- transact TGetInterfaceVersion ;;
  ret (remote_getInterfaceVersion h 1).

(** The expectation on the status only records a test failure; the version
    read back decides. *)
Definition getDisplayConfigurationSupported : M bool :=
  r <- getInterfaceVersion ;;
  ret (3 <=? snd r).

(** *** Virtual displays and layers *)

Definition createVirtualDisplay (width height pixelFormat bufferSlotCount : Z)
  : M (ScopedAStatus * VirtualDisplay) :=
  h <- transact (TCreateVirtualDisplay width height pixelFormat bufferSlotCount) ;;
  let (status, outVirtualDisplay) :=
    remote_createVirtualDisplay h width height pixelFormat bufferSlotCount in
  if negb (isOk status)
  then ret (status, outVirtualDisplay)
  else
    s <- addDisplayToDisplayResources (vd_display outVirtualDisplay) true ;;
    ret (s, outVirtualDisplay).

Definition destroyVirtualDisplay (display : Z) : M ScopedAStatus :=
  h <- transact (TDestroyVirtualDisplay display) ;;
  let status := remote_destroyVirtualDisplay h display in
  if negb (isOk status)
  then ret status
  else
    _ <- eraseDisplayResource display ;;
    ret status.

(** [mNextLayerHandle++]: the value before, and the counter moved on by
    one in [int64_t]. *)
Definition nextLayerHandle : M Z :=
  fun c =>
    (mNextLayerHandle c,
     set_mNextLayerHandle (wrap_int64 (mNextLayerHandle c + 1)) c).

Definition createLayer (display bufferSlotCount : Z)
  (writer : ComposerClientWriter)
  : M (ScopedAStatus * Z * ComposerClientWriter) :=
  fun c =>
    if mSupportsBatchedCreateLayer c
    then
      (layer <- nextLayerHandle ;;
       let writer1 := setLayerLifecycleBatchCommandType display layer CREATE writer in
       let writer2 := setNewBufferSlotCount display layer bufferSlotCount writer1 in
       s <- addLayerToDisplayResources display layer ;;
       ret (s, layer, writer2)) c
    else
      (h <- transact (TCreateLayer display bufferSlotCount) ;;
       let (status, outLayer) := remote_createLayer h display bufferSlotCount in
       if negb (isOk status)
       then ret (status, outLayer, writer)
       else
         s <- addLayerToDisplayResources display outLayer ;;
         ret (s, outLayer, writer)) c.

Definition destroyLayer (display layer : Z) (writer : ComposerClientWriter)
  : M (ScopedAStatus * ComposerClientWriter) :=
  fun c =>
    if mSupportsBatchedCreateLayer c
    then
      (let writer1 := setLayerLifecycleBatchCommandType display layer DESTROY writer in
       _ <- removeLayerFromDisplayResources display layer ;;
       ret (StatusOk, writer1)) c
    else
      (h <- transact (TDestroyLayer display layer) ;;
       let status := remote_destroyLayer h display layer in
       if negb (isOk status)
       then ret (status, writer)
       else
         _ <- removeLayerFromDisplayResources display layer ;;
         ret (StatusOk, writer)) c.

(** *** Configuration queries *)

Definition getActiveConfig (display : Z) : M (ScopedAStatus * Z) :=
  h <- transact (TGetActiveConfig display) ;;
  ret (remote_getActiveConfig h display).

Definition getDisplayAttribute (display config : Z)
  (displayAttribute : DisplayAttribute) : M (ScopedAStatus * Z) :=
  h <- transact (TGetDisplayAttribute display config displayAttribute) ;;
  ret (remote_getDisplayAttribute h display config displayAttribute).

Definition getDisplayConfigurations (display : Z)
  : M (ScopedAStatus * list DisplayConfiguration) :=
  h <- transact (TGetDisplayConfigurations display kMaxFrameIntervalNs) ;;
  ret (remote_getDisplayConfigurations h display kMaxFrameIntervalNs).

Definition getDisplayConfigs (display : Z) : M (ScopedAStatus * list Z) :=
  supported <- getDisplayConfigurationSupported ;;
  if negb supported
  then
    h <- transact (TGetDisplayConfigs display) ;;
    ret (remote_getDisplayConfigs h display)
  else
    r <- getDisplayConfigurations display ;;
    if negb (isOk (fst r))
    then ret (fst r, [])
    else ret (fst r, map configId (snd r)).

Definition addDisplayConfigs (vtsDisplay : VtsDisplay)
  (configs : list DisplayConfiguration) : VtsDisplay :=
  fold_left
    (fun d config =>
       addDisplayConfig (configId config)
         (mkDisplayConfig (dc_vsyncPeriod config) (dc_configGroup config)
                          (dc_vrrConfig config)) d)
    configs vtsDisplay.

Definition addDisplayConfigLegacy (vtsDisplay : VtsDisplay) (config : Z)
  : M (ScopedAStatus * VtsDisplay) :=
  vsyncPeriod_ <- getDisplayAttribute (getDisplayId vtsDisplay) config VSYNC_PERIOD ;;
  configGroup_ <- getDisplayAttribute (getDisplayId vtsDisplay) config CONFIG_GROUP ;;
  if isOk (fst vsyncPeriod_) && isOk (fst configGroup_)
  then ret (StatusOk,
            addDisplayConfig config
              (mkDisplayConfig (snd vsyncPeriod_) (snd configGroup_) None)
              vtsDisplay)
  else ret (fromServiceSpecificError EX_BAD_CONFIG, vtsDisplay).

Definition updateDisplayProperties (vtsDisplay : VtsDisplay) (config : Z)
  : M (ScopedAStatus * VtsDisplay) :=
  supported <- getDisplayConfigurationSupported ;;
  if supported
  then
    r <- getDisplayConfigurations (getDisplayId vtsDisplay) ;;
    if isOk (fst r)
    then
      match List.find (fun displayConfig => configId displayConfig =? config)
                      (snd r) with
      | Some displayConfig =>
          ret (StatusOk,
               setDimensions (dc_width displayConfig) (dc_height displayConfig)
                             vtsDisplay)
      | None => ret (fromServiceSpecificError EX_BAD_CONFIG, vtsDisplay)
      end
    else ret (fromServiceSpecificError EX_BAD_CONFIG, vtsDisplay)
  else
    width <- getDisplayAttribute (getDisplayId vtsDisplay) config WIDTH ;;
    height <- getDisplayAttribute (getDisplayId vtsDisplay) config HEIGHT ;;
    if isOk (fst width) && isOk (fst height)
    then ret (StatusOk, setDimensions (snd width) (snd height) vtsDisplay)
    else ret (fromServiceSpecificError EX_BAD_CONFIG, vtsDisplay).

(** *** Display discovery

    In the three definitions below [inl status] is a [return] out of
    [getDisplays] with that status, [inr] the display record carried on. *)

(** The loop [for (int config : configs)] of the legacy path. *)
Fixpoint getDisplays_legacyConfigs (vtsDisplay : VtsDisplay) (configs : list Z)
  : M (ScopedAStatus + VtsDisplay) :=
  match configs with
  | [] => ret (inr vtsDisplay)
  | config :: configs' =>
      r <- addDisplayConfigLegacy vtsDisplay config ;;
      if negb (isOk (fst r))
      then ret (inl (fst r))
      else getDisplays_legacyConfigs (snd r) configs'
  end.

(** The body of the loop [for (int64_t display : displays)]. *)
Definition getDisplays_display (display : Z) : M (ScopedAStatus + VtsDisplay) :=
  let vtsDisplay := newVtsDisplay display in
  supported <- getDisplayConfigurationSupported ;;
  resolved <-
    (if supported
     then
       r <- getDisplayConfigurations display ;;
       if negb (isOk (fst r))
       then ret (inl (fst r))
       else ret (inr (addDisplayConfigs vtsDisplay (snd r)))
     else
       r <- getDisplayConfigs display ;;
       if negb (isOk (fst r))
       then ret (inl (fst r))
       else getDisplays_legacyConfigs vtsDisplay (snd r)) ;;
  match resolved with
  | inl status => ret (inl status)
  | inr vtsDisplay1 =>
      activeConfig <- getActiveConfig display ;;
      if negb (isOk (fst activeConfig))
      then ret (inl (fst activeConfig))
      else
        u <- updateDisplayProperties vtsDisplay1 (snd activeConfig) ;;
        if negb (isOk (fst u))
        then ret (inl (fst u))
        else
          _ <- addDisplayToDisplayResources display false ;;
          ret (inr (snd u))
  end.

(** The loop [for (int64_t display : displays)], with the displays
    resolved so far. *)
Fixpoint getDisplays_displays (displays : list Z) (vtsDisplays : list VtsDisplay)
  : M (ScopedAStatus * list VtsDisplay) :=
  match displays with
  | [] => ret (StatusOk, vtsDisplays)
  | display :: displays' =>
      r <- getDisplays_display display ;;
      match r with
      | inl status => ret (status, vtsDisplays)
      | inr vtsDisplay => getDisplays_displays displays' (vtsDisplays ++ [vtsDisplay])
      end
  end.

(** [getDisplays]: the polling loop.  Hotplug notifications arrive on
    another thread, so what the loop reads from the callback is given from
    outside: [polls] holds the display vector each successive poll finds.
    The loop has no bound of its own; [None] says that the given polls
    ran out while every one of them was empty. *)
Fixpoint getDisplays (polls : list (list Z))
  : M (option (ScopedAStatus * list VtsDisplay)) :=
  match polls with
  | [] => ret None
  | displays :: polls' =>
      match displays with
      | [] => getDisplays polls'
      | _ :: _ =>
          r <- getDisplays_displays displays [] ;;
          ret (Some r)
      end
  end.

(** *** Teardown *)

Definition verifyComposerCallbackParams : M bool :=
  fun c =>
    let isValid := true in
    match mComposerCallback c with
    | Some callback =>
        let isValid :=
          if negb (getInvalidHotplugCount callback =? 0) then false else isValid in
        let isValid :=
          if negb (getInvalidRefreshCount callback =? 0) then false else isValid in
        let isValid :=
          if negb (getInvalidVsyncCount callback =? 0) then false else isValid in
        let isValid :=
          if negb (getInvalidVsyncPeriodChangeCount callback =? 0)
          then false else isValid in
        let isValid :=
          if negb (getInvalidSeamlessPossibleCount callback =? 0)
          then false else isValid in
        let isValid :=
          if negb (getInvalidRefreshRateDebugEnabledCallbackCount callback =? 0)
          then false else isValid in
        (isValid, c)
    | None => (isValid, c)
    end.

(** The entry [resource] bound by [const auto& [display, resource] = *it],
    read through the registry: layer removal writes to it in place. *)
Definition resourceOf (display : Z) (c : VtsComposerClient) : DisplayResource :=
  match UMap.find display (mDisplayResources c) with
  | Some r => r
  | None => newDisplayResource false
  end.

(** The loop [while (!resource.layers.empty())] of [destroyAllLayers];
    [Some (false, _)] is its [return false], [None] is fuel run out. *)
Fixpoint destroyAllLayers_layers (fuel : nat) (display : Z)
  (writer : ComposerClientWriter) : M (option (bool * ComposerClientWriter)) :=
  match fuel with
  | O => ret None
  | S fuel' =>
      fun c =>
        match USet.begin (layers (resourceOf display c)) with
        | None => (Some (true, writer), c)
        | Some layer =>
            let (r, c') := destroyLayer display layer writer c in
            if negb (isOk (fst r))
            then (Some (false, snd r), c')
            else destroyAllLayers_layers fuel' display (snd r) c'
        end
  end.

(** The loop [while (!mDisplayResources.empty())], with the local map
    [physicalDisplays]; [layerFuel] bounds each run of the loop inside. *)
Fixpoint destroyAllLayers_displays (fuel layerFuel : nat)
  (physicalDisplays : UMap.t DisplayResource) (writer : ComposerClientWriter)
  : M (option (bool * UMap.t DisplayResource * ComposerClientWriter)) :=
  match fuel with
  | O => ret None
  | S fuel' =>
      fun c =>
        match mDisplayResources c with
        | [] => (Some (true, physicalDisplays, writer), c)
        | (display, _) :: _ =>
            match destroyAllLayers_layers layerFuel display writer c with
            | (None, c1) => (None, c1)
            | (Some (false, writer1), c1) =>
                (Some (false, physicalDisplays, writer1), c1)
            | (Some (true, writer1), c1) =>
                let resource := resourceOf display c1 in
                if isVirtual resource
                then
                  let (status, c2) := destroyVirtualDisplay display c1 in
                  if negb (isOk status)
                  then (Some (false, physicalDisplays, writer1), c2)
                  else destroyAllLayers_displays fuel' layerFuel
                         physicalDisplays writer1 c2
                else
                  (* extract(it), then physicalDisplays.insert(node) *)
                  let c2 :=
                    set_mDisplayResources
                      (UMap.erase display (mDisplayResources c1)) c1 in
                  destroyAllLayers_displays fuel' layerFuel
                    (fst (UMap.insert display resource physicalDisplays))
                    writer1 c2
            end
        end
  end.

Definition destroyAllLayers (fuel : nat) (writer : ComposerClientWriter)
  : M (option (bool * ComposerClientWriter)) :=
  fun c =>
    match destroyAllLayers_displays fuel fuel [] writer c with
    | (None, c1) => (None, c1)
    | (Some (false, _, writer1), c1) => (Some (false, writer1), c1)
    | (Some (true, physicalDisplays, writer1), c1) =>
        (* mDisplayResources.swap(physicalDisplays) *)
        let swapped := (physicalDisplays, mDisplayResources c1) in
        let c2 := set_mDisplayResources (fst swapped) c1 in
        (* mDisplayResources.clear() *)
        let c3 := set_mDisplayResources [] c2 in
        (Some (true, writer1), c3)
    end.

(** [verifyComposerCallbackParams() && destroyAllLayers(writer)]: the
    right operand runs only when the left one is true. *)
Definition tearDown (fuel : nat) (writer : ComposerClientWriter)
  : M (option (bool * ComposerClientWriter)) :=
  valid <- verifyComposerCallbackParams ;;
  if valid
  then destroyAllLayers fuel writer
  else ret (Some (false, writer)).

End Methods.

(* ===================================================================== *)
(** ** Sequences of registry operations *)
(* ===================================================================== *)

(** The four ways the client changes [mDisplayResources]. *)
Inductive RegistryOp : Type :=
| AddDisplay (display : Z) (isVirtual_ : bool)
| RemoveDisplay (display : Z)
| AddLayer (display layer : Z)
| RemoveLayer (display layer : Z).

Definition runOp {svc : IComposerClient} (op : RegistryOp)
  (c : VtsComposerClient) : VtsComposerClient :=
  match op with
  | AddDisplay display isVirtual_ =>
      snd (addDisplayToDisplayResources display isVirtual_ c)
  | RemoveDisplay display => snd (eraseDisplayResource display c)
  | AddLayer display layer => snd (addLayerToDisplayResources display layer c)
  | RemoveLayer display layer =>
      snd (removeLayerFromDisplayResources display layer c)
  end.

Definition runOps {svc : IComposerClient} (ops : list RegistryOp)
  (c : VtsComposerClient) : VtsComposerClient :=
  fold_left (fun c' op => runOp op c') ops c.

(** No display id keys two entries of the registry. *)
Definition uniqueDisplays (m : UMap.t DisplayResource) : Prop :=
  NoDup (UMap.keys m).

(** No entry of the registry lists a layer id twice. *)
Definition uniqueLayers (m : UMap.t DisplayResource) : Prop :=
  Forall (fun e => NoDup (layers (snd e))) m.

(** The layers the registry holds under [display]. *)
Definition layersOf (display : Z) (m : UMap.t DisplayResource) : USet.t :=
  match UMap.find display m with
  | Some r => layers r
  | None => []
  end.

(* ===================================================================== *)
(** ** Predicates the properties are stated with *)
(* ===================================================================== *)

(** Some counter of unexpected notifications is not zero. *)
Definition anomalous (callback : GraphicsComposerCallback) : Prop :=
  getInvalidHotplugCount callback <> 0 \/
  getInvalidRefreshCount callback <> 0 \/
  getInvalidVsyncCount callback <> 0 \/
  getInvalidVsyncPeriodChangeCount callback <> 0 \/
  getInvalidSeamlessPossibleCount callback <> 0 \/
  getInvalidRefreshRateDebugEnabledCallbackCount callback <> 0.

(** The attribute queries of the legacy configuration path: vsync period
    and config group. *)
Definition isTimingAttributeQuery (t : Transaction) : bool :=
  match t with
  | TGetDisplayAttribute _ _ VSYNC_PERIOD => true
  | TGetDisplayAttribute _ _ CONFIG_GROUP => true
  | _ => false
  end.

(** [c'] is a later state of the session of [c]: the batched-lifecycle
    flag is the same and the history of transactions has only grown. *)
Definition evolves (c c' : VtsComposerClient) : Prop :=
  mSupportsBatchedCreateLayer c' = mSupportsBatchedCreateLayer c /\
  exists rest, mComposerClient c' = mComposerClient c ++ rest.

Definition advances {A : Type} (m : M A) : Prop :=
  forall c, evolves c (snd (m c)).

(** The first thing method [m] does is to ask the service for its
    interface version. *)
Definition queriesVersionFirst {A : Type} (m : M A) : Prop :=
  forall c, exists rest,
    mComposerClient (snd (m c)) = mComposerClient c ++ TGetInterfaceVersion :: rest.

(** The service accepts every destroy call. *)
Definition destroysAccepted {svc : IComposerClient} : Prop :=
  (forall h display layer, isOk (remote_destroyLayer h display layer) = true) /\
  (forall h display, isOk (remote_destroyVirtualDisplay h display) = true).

(* ===================================================================== *)
(** ** Further methods *)
(* ===================================================================== *)

(** The loop [while (id > 0)] of [getInvalidDisplayId], over the display
    vector read from the callback: [Some id] is the value returned, by
    the [return] inside the loop or by the one after it; [None] is fuel
    run out. *)
Fixpoint getInvalidDisplayId_loop (fuel : nat) (displays : list Z) (id : Z)
  : option Z :=
  match fuel with
  | O => None
  | S fuel' =>
      if 0 <? id
      then
        if negb (existsb (fun display => id =? display) displays)
        then Some id
        else getInvalidDisplayId_loop fuel' displays (id - 1)
      else Some id
  end.

Definition getInvalidDisplayId (fuel : nat) (displays : list Z) : option Z :=
  getInvalidDisplayId_loop fuel displays INT64_MAX.

(** The loop [for (const auto [config, displayConfig] : displayConfigs)]
    of [setPeakRefreshRateConfig], from the pair
    ([peakDisplayConfig], [peakConfig]) it starts with to the one it ends
    with. *)
Definition setPeakRefreshRateConfig_select
  (displayConfigs : UMap.t DisplayConfig)
  (peakDisplayConfig : DisplayConfig) (peakConfig : Z) : DisplayConfig * Z :=
  fold_left
    (fun peak entry =>
       if (configGroup (snd entry) =? configGroup (fst peak)) &&
          (vsyncPeriod (snd entry) <? vsyncPeriod (fst peak))
       then (snd entry, fst entry)
       else peak)
    displayConfigs (peakDisplayConfig, peakConfig).

(* ===================================================================== *)
(** ** Further predicates *)
(* ===================================================================== *)

(** What a drain of registry [m] sends to the service, in order: per
    display its layers' destroy calls (in unbatched mode only), then the
    display's own destroy call if it is virtual. *)
Definition drainTransactions (batched : bool) (m : UMap.t DisplayResource)
  : list Transaction :=
  flat_map
    (fun e =>
       (if batched then [] else map (TDestroyLayer (fst e)) (layers (snd e))) ++
       (if isVirtual (snd e) then [TDestroyVirtualDisplay (fst e)] else []))
    m.

(** What a drain of registry [m] appends to the writer, in order: in
    batched mode one destroy record per layer. *)
Definition drainRecords (batched : bool) (m : UMap.t DisplayResource)
  : list WriterCommand :=
  flat_map
    (fun e =>
       if batched
       then map (fun layer =>
                   SetLayerLifecycleBatchCommandType (fst e) layer DESTROY)
                (layers (snd e))
       else [])
    m.

(** Every layer id in the registry is below the handle counter. *)
Definition layersBelowCounter (c : VtsComposerClient) : Prop :=
  Forall (fun e => Forall (fun layer => layer < mNextLayerHandle c)
                          (layers (snd e)))
         (mDisplayResources c).

(** Method [m] leaves the registry as it is, and what it returns
    satisfies [Q]. *)
Definition queries {A : Type} (m : M A) (Q : A -> Prop) : Prop :=
  forall c, Q (fst (m c)) /\ mDisplayResources (snd (m c)) = mDisplayResources c.

(** The registry [m] after discovery has registered [displays], in order:
    each one that was absent gains a non-virtual entry without layers. *)
Definition registerDiscovered (displays : list Z) (m : UMap.t DisplayResource)
  : UMap.t DisplayResource :=
  fold_left (fun m' display => fst (UMap.insert display (newDisplayResource false) m'))
            displays m.

(** The outcome of resolving one display: a failed status, or the record
    of that display. *)
Definition resolvedAs (display : Z) (r : ScopedAStatus + VtsDisplay) : Prop :=
  match r with
  | inl status => isOk status = false
  | inr vtsDisplay => mDisplayId vtsDisplay = display
  end.

(* ===================================================================== *)
(** ** Services used in the worked examples *)
(* ===================================================================== *)

(** A service in the shape the examples need: it reports the interface
    version [version h] after history [h], answers every destroy call with
    [destroyStatus] and every attribute query with [attrStatus] and the
    value [attr config attribute], lists the configs [0] and [1] for
    every display, and makes config [0] the active one. *)
Definition exampleService (version : History -> Z)
  (destroyStatus attrStatus : ScopedAStatus)
  (attr : Z -> DisplayAttribute -> Z) : IComposerClient :=
  {| EX_BAD_CONFIG := 1;
     EX_BAD_DISPLAY := 2;
     EX_BAD_LAYER := 3;
     kMaxFrameIntervalNs := 50000000;
     remote_getInterfaceVersion := fun h _ => (StatusOk, version h);
     remote_createVirtualDisplay :=
       fun h _ _ pixelFormat _ =>
         (StatusOk, mkVirtualDisplay (100 + Z.of_nat (length h)) pixelFormat);
     remote_destroyVirtualDisplay := fun _ _ => destroyStatus;
     remote_createLayer := fun h _ _ => (StatusOk, 1000 + Z.of_nat (length h));
     remote_destroyLayer := fun _ _ _ => destroyStatus;
     remote_getActiveConfig := fun _ _ => (StatusOk, 0);
     remote_getDisplayAttribute :=
       fun _ _ config attribute => (attrStatus, attr config attribute);
     remote_getDisplayConfigs := fun _ _ => (StatusOk, [0; 1]);
     remote_getDisplayConfigurations :=
       fun _ _ _ =>
         (StatusOk,
          [mkDisplayConfiguration 0 1080 1920 0 16666666 None;
           mkDisplayConfiguration 1 1080 1920 0 8333333 None]) |}.

Definition exampleAttr (config : Z) (attribute : DisplayAttribute) : Z :=
  match attribute with
  | WIDTH => 1080
  | HEIGHT => 1920
  | VSYNC_PERIOD => if config =? 0 then 16666666 else 8333333
  | CONFIG_GROUP => 7
  end.

(** Interface version 2 throughout, every call succeeds. *)
Definition legacyService : IComposerClient :=
  exampleService (fun _ => 2) StatusOk StatusOk exampleAttr.

(** As [legacyService], but destroy calls fail with a binder exception. *)
Definition failingDestroyService : IComposerClient :=
  exampleService (fun _ => 2) (BinderException (-129)) StatusOk exampleAttr.

(** As [legacyService], but attribute queries fail with a binder
    exception. *)
Definition failingAttributeService : IComposerClient :=
  exampleService (fun _ => 2) StatusOk (BinderException (-129)) exampleAttr.

(** As [legacyService], but attribute queries are rejected with the
    service-specific error 2 (bad display). *)
Definition rejectingAttributeService : IComposerClient :=
  exampleService (fun _ => 2) StatusOk (ServiceSpecificError 2) exampleAttr.

(** A service that reports version 2 to the first version query and
    version 3 to every later one. *)
Definition upgradingService : IComposerClient :=
  exampleService
    (fun h => if existsb (fun t => match t with
                                  | TGetInterfaceVersion => true
                                  | _ => false
                                  end) h
              then 3 else 2)
    StatusOk StatusOk exampleAttr.

(** A client after [createClient], with no unexpected notification. *)
Definition quietCallback : GraphicsComposerCallback := mkCallback 0 0 0 0 0 0.

Definition exampleClient (batched : bool) (m : UMap.t DisplayResource)
  : VtsComposerClient :=
  mkClient [] (Some quietCallback) m batched 1.

(** A registry with the physical display 5, owning layers 50 and 51, and
    the virtual display 9, owning layer 90. *)
Definition exampleRegistry : UMap.t DisplayResource :=
  [(5, mkDisplayResource false [50; 51]); (9, mkDisplayResource true [90])].

(* ===================================================================== *)
(** ** Facts about the containers *)
(* ===================================================================== *)

Lemma USet_contains_In (x : Z) (s : USet.t) :
  USet.contains x s = true <-> In x s.
Proof.
  unfold USet.contains. rewrite existsb_exists. split.
  - intros [y [Hy Heq]]. apply Z.eqb_eq in Heq. now subst.
  - intros H. exists x. split; [assumption | apply Z.eqb_refl].
Qed.

Lemma USet_insert_present (x : Z) (s : USet.t) :
  In x s -> USet.insert x s = (s, false).
Proof.
  intros H. unfold USet.insert.
  apply USet_contains_In in H. now rewrite H.
Qed.

Lemma USet_insert_absent (x : Z) (s : USet.t) :
  ~ In x s -> USet.insert x s = (s ++ [x], true).
Proof.
  intros H. unfold USet.insert.
  destruct (USet.contains x s) eqn:E; [|reflexivity].
  apply USet_contains_In in E. contradiction.
Qed.

Lemma NoDup_snoc {A : Type} (x : A) (l : list A) :
  NoDup l -> ~ In x l -> NoDup (l ++ [x]).
Proof.
  induction l as [|a l IH]; simpl; intros Hnd Hin.
  - constructor; [intros [] | constructor].
  - inversion Hnd as [|? ? Ha Hl]; subst. constructor.
    + rewrite in_app_iff. simpl. intros [H | [H | []]].
      * contradiction.
      * subst. apply Hin. now left.
    + apply IH; [assumption | tauto].
Qed.

Lemma USet_insert_NoDup (x : Z) (s : USet.t) :
  NoDup s -> NoDup (fst (USet.insert x s)).
Proof.
  intros H. unfold USet.insert.
  destruct (USet.contains x s) eqn:E; simpl; [assumption|].
  apply NoDup_snoc; [assumption|].
  intros Hin. apply USet_contains_In in Hin. congruence.
Qed.

Lemma USet_erase_NoDup (x : Z) (s : USet.t) :
  NoDup s -> NoDup (USet.erase x s).
Proof. intros H. unfold USet.erase. now apply NoDup_filter. Qed.

Lemma USet_erase_absent (x : Z) (s : USet.t) :
  ~ In x s -> USet.erase x s = s.
Proof.
  unfold USet.erase. induction s as [|y s IH]; simpl; intros H; [reflexivity|].
  destruct (Z.eqb_spec y x) as [->|Hne]; simpl.
  - exfalso. apply H. now left.
  - f_equal. apply IH. tauto.
Qed.

Lemma USet_erase_not_In (x : Z) (s : USet.t) : ~ In x (USet.erase x s).
Proof.
  unfold USet.erase. rewrite filter_In. intros [_ H].
  rewrite Z.eqb_refl in H. discriminate.
Qed.

Lemma USet_erase_head_shorter (x : Z) (s : USet.t) :
  (length (USet.erase x (x :: s)) <= length s)%nat.
Proof.
  unfold USet.erase. simpl. rewrite Z.eqb_refl. simpl. apply filter_length_le.
Qed.

Section UMapFacts.
Context {V : Type}.
Implicit Types (m : UMap.t V) (k : Z).

Lemma UMap_find_In_keys k m :
  (exists v, UMap.find k m = Some v) <-> In k (UMap.keys m).
Proof.
  induction m as [|[k' v'] m IH]; simpl.
  - split; [intros [? H]; discriminate | intros []].
  - destruct (Z.eqb_spec k' k) as [->|Hne].
    + split; [now left | intros _; now exists v'].
    + rewrite IH. split; [now right | intros [H | H]; [contradiction | assumption]].
Qed.

Lemma UMap_find_None k m :
  UMap.find k m = None <-> ~ In k (UMap.keys m).
Proof.
  rewrite <- UMap_find_In_keys. split.
  - intros H [v Hv]. congruence.
  - intros H. destruct (UMap.find k m) eqn:E; [|reflexivity].
    exfalso. apply H. now exists v.
Qed.

Lemma UMap_find_Some_In k v m :
  UMap.find k m = Some v -> In (k, v) m.
Proof.
  induction m as [|[k' v'] m IH]; simpl; [discriminate|].
  destruct (Z.eqb_spec k' k) as [->|Hne].
  - intros [= ->]. now left.
  - intros H. right. now apply IH.
Qed.

Lemma UMap_keys_app m1 m2 :
  UMap.keys (m1 ++ m2) = UMap.keys m1 ++ UMap.keys m2.
Proof. unfold UMap.keys. apply map_app. Qed.

Lemma UMap_insert_present k v v0 m :
  UMap.find k m = Some v0 -> UMap.insert k v m = (m, false).
Proof. intros H. unfold UMap.insert. now rewrite H. Qed.

Lemma UMap_insert_absent k v m :
  UMap.find k m = None -> UMap.insert k v m = (m ++ [(k, v)], true).
Proof. intros H. unfold UMap.insert. now rewrite H. Qed.

Lemma UMap_insert_keys_NoDup k v m :
  NoDup (UMap.keys m) -> NoDup (UMap.keys (fst (UMap.insert k v m))).
Proof.
  intros H. unfold UMap.insert.
  destruct (UMap.find k m) eqn:E; simpl; [assumption|].
  rewrite UMap_keys_app. simpl.
  apply NoDup_snoc; [assumption | now apply UMap_find_None].
Qed.

Lemma UMap_erase_keys k m :
  UMap.keys (UMap.erase k m) = filter (fun k' => negb (k' =? k)) (UMap.keys m).
Proof.
  unfold UMap.erase, UMap.keys.
  induction m as [|[k' v'] m IH]; simpl; [reflexivity|].
  destruct (k' =? k); simpl; now rewrite IH.
Qed.

Lemma UMap_erase_keys_NoDup k m :
  NoDup (UMap.keys m) -> NoDup (UMap.keys (UMap.erase k m)).
Proof. intros H. rewrite UMap_erase_keys. now apply NoDup_filter. Qed.

Lemma UMap_erase_absent k m :
  UMap.find k m = None -> UMap.erase k m = m.
Proof.
  unfold UMap.erase.
  induction m as [|[k' v'] m IH]; simpl; [reflexivity|].
  destruct (Z.eqb_spec k' k) as [->|Hne]; simpl; [discriminate|].
  intros H. f_equal. now apply IH.
Qed.

Lemma UMap_erase_find k m : UMap.find k (UMap.erase k m) = None.
Proof.
  apply UMap_find_None. rewrite UMap_erase_keys, filter_In.
  intros [_ H]. rewrite Z.eqb_refl in H. discriminate.
Qed.

Lemma UMap_erase_head_shorter k v m :
  (length (UMap.erase k ((k, v) :: m)) <= length m)%nat.
Proof.
  unfold UMap.erase. simpl. rewrite Z.eqb_refl. simpl. apply filter_length_le.
Qed.

Lemma UMap_update_keys k (f : V -> V) m :
  UMap.keys (UMap.update k f m) = UMap.keys m.
Proof.
  unfold UMap.keys.
  induction m as [|[k' v'] m IH]; simpl; [reflexivity|].
  destruct (k' =? k); simpl; [reflexivity | now rewrite IH].
Qed.

Lemma UMap_update_length k (f : V -> V) m :
  length (UMap.update k f m) = length m.
Proof.
  induction m as [|[k' v'] m IH]; simpl; [reflexivity|].
  destruct (k' =? k); simpl; [reflexivity | now rewrite IH].
Qed.

Lemma UMap_update_absent k (f : V -> V) m :
  UMap.find k m = None -> UMap.update k f m = m.
Proof.
  induction m as [|[k' v'] m IH]; simpl; [reflexivity|].
  destruct (k' =? k); [discriminate|].
  intros H. now rewrite IH.
Qed.

Lemma UMap_update_fixed k (f : V -> V) v m :
  UMap.find k m = Some v -> f v = v -> UMap.update k f m = m.
Proof.
  induction m as [|[k' v'] m IH]; simpl; [discriminate|].
  destruct (k' =? k).
  - intros [= ->] ->. reflexivity.
  - intros H Hf. now rewrite IH.
Qed.

Lemma UMap_update_find k (f : V -> V) m :
  UMap.find k (UMap.update k f m) = option_map f (UMap.find k m).
Proof.
  induction m as [|[k' v'] m IH]; simpl; [reflexivity|].
  destruct (k' =? k) eqn:E; simpl; rewrite E; [reflexivity | assumption].
Qed.

Lemma UMap_update_find_other k k' (f : V -> V) m :
  k' <> k -> UMap.find k' (UMap.update k f m) = UMap.find k' m.
Proof.
  intros Hne.
  induction m as [|[k0 v0] m IH]; simpl; [reflexivity|].
  destruct (Z.eqb_spec k0 k) as [->|Hk]; simpl.
  - destruct (Z.eqb_spec k k') as [->|]; [contradiction | reflexivity].
  - destruct (k0 =? k'); [reflexivity | assumption].
Qed.

Lemma UMap_update_Forall (P : Z * V -> Prop) k (f : V -> V) m :
  Forall P m ->
  (forall v, UMap.find k m = Some v -> P (k, f v)) ->
  Forall P (UMap.update k f m).
Proof.
  induction m as [|[k' v'] m IH]; simpl; intros HP Hf; [constructor|].
  inversion HP as [|? ? Hhd Htl]; subst.
  destruct (Z.eqb_spec k' k) as [->|Hne].
  - constructor; [now apply Hf | assumption].
  - constructor; [assumption | now apply IH].
Qed.

End UMapFacts.

(* ===================================================================== *)
(** ** The resource registry *)
(* ===================================================================== *)

Section RegistryFacts.
Context {svc : IComposerClient}.

Lemma addDisplay_registry display isVirtual_ c :
  mDisplayResources (snd (addDisplayToDisplayResources display isVirtual_ c)) =
  fst (UMap.insert display (newDisplayResource isVirtual_) (mDisplayResources c)).
Proof.
  unfold addDisplayToDisplayResources.
  destruct (UMap.insert _ _ _) as [m [|]]; reflexivity.
Qed.

Lemma insertLayerAt_keys display layer resource m :
  UMap.keys (snd (insertLayerAt display layer resource m)) = UMap.keys m.
Proof.
  unfold insertLayerAt.
  destruct (USet.insert layer (layers resource)) as [ls [|]]; simpl;
    [apply UMap_update_keys | reflexivity].
Qed.

Lemma insertLayerAt_uniqueLayers display layer resource m :
  UMap.find display m = Some resource ->
  uniqueLayers m ->
  uniqueLayers (snd (insertLayerAt display layer resource m)).
Proof.
  intros Hfind Hwf. unfold insertLayerAt.
  pose proof (USet_insert_NoDup layer (layers resource)) as Hins.
  destruct (USet.insert layer (layers resource)) as [ls [|]]; simpl in *;
    [|assumption].
  apply UMap_update_Forall; [assumption|].
  intros v Hv. simpl. rewrite Hfind in Hv. injection Hv as <-.
  apply Hins.
  apply UMap_find_Some_In in Hfind.
  unfold uniqueLayers in Hwf. rewrite Forall_forall in Hwf.
  exact (Hwf _ Hfind).
Qed.

Lemma addLayer_registry display layer c :
  mDisplayResources (snd (addLayerToDisplayResources display layer c)) =
  match UMap.find display (mDisplayResources c) with
  | Some resource =>
      snd (insertLayerAt display layer resource (mDisplayResources c))
  | None =>
      snd (insertLayerAt display layer (newDisplayResource false)
             (mDisplayResources c ++ [(display, newDisplayResource false)]))
  end.
Proof.
  unfold addLayerToDisplayResources, UMap.insert.
  destruct (UMap.find display (mDisplayResources c)) eqn:E; cbn [fst];
    match goal with |- context [insertLayerAt ?a ?b ?r ?m] =>
      destruct (insertLayerAt a b r m) end; reflexivity.
Qed.

Lemma removeLayer_registry display layer c :
  mDisplayResources (snd (removeLayerFromDisplayResources display layer c)) =
  UMap.update display (fun r => withLayers (USet.erase layer (layers r)) r)
              (mDisplayResources c).
Proof.
  unfold removeLayerFromDisplayResources.
  destruct (UMap.find display (mDisplayResources c)) eqn:E; simpl;
    [reflexivity|].
  symmetry. now apply UMap_update_absent.
Qed.

Lemma find_app_fresh display (r : DisplayResource) m :
  UMap.find display m = None ->
  UMap.find display (m ++ [(display, r)]) = Some r.
Proof.
  induction m as [|[k v] m IH]; simpl.
  - now rewrite Z.eqb_refl.
  - destruct (k =? display); [discriminate | assumption].
Qed.

(** Each registry operation keeps display ids and layer ids unique. *)
Lemma runOp_unique op c :
  uniqueDisplays (mDisplayResources c) /\ uniqueLayers (mDisplayResources c) ->
  uniqueDisplays (mDisplayResources (runOp op c)) /\
  uniqueLayers (mDisplayResources (runOp op c)).
Proof.
  intros [Hd Hl]. unfold uniqueDisplays, uniqueLayers in *.
  destruct op as [display v | display | display layer | display layer]; simpl.
  - rewrite addDisplay_registry. split.
    + now apply UMap_insert_keys_NoDup.
    + unfold UMap.insert.
      destruct (UMap.find display (mDisplayResources c)); simpl; [assumption|].
      apply Forall_app. split; [assumption|].
      constructor; [simpl; constructor | constructor].
  - split.
    + now apply UMap_erase_keys_NoDup.
    + unfold UMap.erase. rewrite Forall_forall in *.
      intros e He. apply filter_In in He. now apply Hl.
  - rewrite addLayer_registry.
    destruct (UMap.find display (mDisplayResources c)) as [resource|] eqn:E.
    + split.
      * now rewrite insertLayerAt_keys.
      * now apply insertLayerAt_uniqueLayers.
    + split.
      * rewrite insertLayerAt_keys, UMap_keys_app. simpl.
        apply NoDup_snoc; [assumption | now apply UMap_find_None].
      * apply insertLayerAt_uniqueLayers.
        -- now apply find_app_fresh.
        -- apply Forall_app. split; [assumption|].
           constructor; [simpl; constructor | constructor].
  - rewrite removeLayer_registry. split.
    + now rewrite UMap_update_keys.
    + apply UMap_update_Forall; [assumption|].
      intros r Hr. simpl. apply USet_erase_NoDup.
      apply UMap_find_Some_In in Hr. rewrite Forall_forall in Hl.
      exact (Hl _ Hr).
Qed.

Lemma runOps_unique ops : forall c,
  uniqueDisplays (mDisplayResources c) /\ uniqueLayers (mDisplayResources c) ->
  uniqueDisplays (mDisplayResources (runOps ops c)) /\
  uniqueLayers (mDisplayResources (runOps ops c)).
Proof.
  induction ops as [|op ops IH]; intros c H; simpl; [assumption|].
  apply IH. now apply runOp_unique.
Qed.

Lemma construct_unique firstLayerHandle capabilities :
  uniqueDisplays (mDisplayResources (construct firstLayerHandle capabilities)) /\
  uniqueLayers (mDisplayResources (construct firstLayerHandle capabilities)).
Proof. split; constructor. Qed.

(** C6. Whatever sequence of registry operations a freshly constructed
    client has gone through, no display id keys two entries of the
    registry.  In any state, adding a display id that is present answers
    the service-specific error [EX_BAD_DISPLAY] (the duplicate-display
    error) and leaves the registry as it was, and adding an id that is
    absent succeeds and inserts an entry that owns no layer. *)
Theorem registry_display_ids_unique
  (ops : list RegistryOp) (firstLayerHandle : Z) (capabilities : list Capability)
  (c : VtsComposerClient) (display : Z) (isVirtual_ : bool) :
  NoDup (UMap.keys (mDisplayResources
                      (runOps ops (construct firstLayerHandle capabilities)))) /\
  (In display (UMap.keys (mDisplayResources c)) ->
   fst (addDisplayToDisplayResources display isVirtual_ c) =
     ServiceSpecificError EX_BAD_DISPLAY /\
   mDisplayResources (snd (addDisplayToDisplayResources display isVirtual_ c)) =
     mDisplayResources c) /\
  (~ In display (UMap.keys (mDisplayResources c)) ->
   fst (addDisplayToDisplayResources display isVirtual_ c) = StatusOk /\
   mDisplayResources (snd (addDisplayToDisplayResources display isVirtual_ c)) =
     mDisplayResources c ++ [(display, mkDisplayResource isVirtual_ [])]).
Proof.
  split; [|split].
  - apply (runOps_unique ops _ (construct_unique firstLayerHandle capabilities)).
  - intros Hin. apply UMap_find_In_keys in Hin as [r Hr].
    unfold addDisplayToDisplayResources.
    rewrite (UMap_insert_present _ _ _ _ Hr). split; reflexivity.
  - intros Hnin. apply UMap_find_None in Hnin.
    unfold addDisplayToDisplayResources.
    rewrite (UMap_insert_absent _ _ _ Hnin). split; reflexivity.
Qed.

(** C7. Whatever sequence of registry operations a freshly constructed
    client has gone through, no display's layer list holds a layer id
    twice.  In any state, adding a layer id that its display already owns
    answers the service-specific error [EX_BAD_LAYER] (the duplicate-layer
    error) and leaves the registry as it was; removing a layer under a
    display that is absent leaves the whole client as it was, and removing
    a layer id that the display does not own leaves the registry as it
    was. *)
Theorem registry_layer_ids_unique
  (ops : list RegistryOp) (firstLayerHandle : Z) (capabilities : list Capability)
  (c : VtsComposerClient) (display layer : Z) :
  (forall d r,
     UMap.find d (mDisplayResources
                    (runOps ops (construct firstLayerHandle capabilities))) = Some r ->
     NoDup (layers r)) /\
  (In layer (layersOf display (mDisplayResources c)) ->
   fst (addLayerToDisplayResources display layer c) =
     ServiceSpecificError EX_BAD_LAYER /\
   mDisplayResources (snd (addLayerToDisplayResources display layer c)) =
     mDisplayResources c) /\
  (~ In display (UMap.keys (mDisplayResources c)) ->
   removeLayerFromDisplayResources display layer c = (tt, c)) /\
  (~ In layer (layersOf display (mDisplayResources c)) ->
   mDisplayResources (snd (removeLayerFromDisplayResources display layer c)) =
     mDisplayResources c).
Proof.
  split; [|split; [|split]].
  - intros d r Hfind.
    destruct (runOps_unique ops _ (construct_unique firstLayerHandle capabilities))
      as [_ Hl].
    unfold uniqueLayers in Hl. rewrite Forall_forall in Hl.
    exact (Hl _ (UMap_find_Some_In _ _ _ Hfind)).
  - unfold layersOf, addLayerToDisplayResources.
    destruct (UMap.find display (mDisplayResources c)) as [r|] eqn:E;
      [|intros []].
    intros Hin. unfold insertLayerAt.
    rewrite (USet_insert_present _ _ Hin). split; reflexivity.
  - intros Hnin. apply UMap_find_None in Hnin.
    unfold removeLayerFromDisplayResources. now rewrite Hnin.
  - intros Hnin. rewrite removeLayer_registry. unfold layersOf in Hnin.
    destruct (UMap.find display (mDisplayResources c)) as [r|] eqn:E.
    + apply (UMap_update_fixed _ _ r); [assumption|].
      rewrite (USet_erase_absent _ _ Hnin). now destruct r.
    + now apply UMap_update_absent.
Qed.

End RegistryFacts.

(* ===================================================================== *)
(** ** Layer lifecycle *)
(* ===================================================================== *)

Lemma wrap_int64_in_range (z : Z) :
  INT64_MIN <= z <= INT64_MAX -> wrap_int64 z = z.
Proof.
  unfold INT64_MIN, INT64_MAX, wrap_int64. intros H.
  rewrite Z.mod_small; lia.
Qed.

Section LayerLifecycle.
Context {svc : IComposerClient}.

Lemma layersOf_insertLayerAt display layer resource m :
  UMap.find display m = Some resource ->
  In layer (layersOf display (snd (insertLayerAt display layer resource m))) /\
  (forall l, In l (layers resource) ->
             In l (layersOf display (snd (insertLayerAt display layer resource m)))).
Proof.
  intros Hfind. unfold insertLayerAt, USet.insert.
  destruct (USet.contains layer (layers resource)) eqn:E; simpl.
  - unfold layersOf. rewrite Hfind. split; [|auto].
    now apply USet_contains_In.
  - unfold layersOf. rewrite UMap_update_find, Hfind. simpl.
    split; [|intros l Hl]; apply in_or_app; [right; now left | now left].
Qed.

(** After [addLayerToDisplayResources] the display owns the layer, and
    still owns what it owned before. *)
Lemma addLayer_owned display layer c :
  In layer (layersOf display
              (mDisplayResources (snd (addLayerToDisplayResources display layer c)))) /\
  (forall l, In l (layersOf display (mDisplayResources c)) ->
             In l (layersOf display
                     (mDisplayResources
                        (snd (addLayerToDisplayResources display layer c))))).
Proof.
  rewrite addLayer_registry. unfold layersOf at 2.
  destruct (UMap.find display (mDisplayResources c)) as [r|] eqn:E.
  - now apply layersOf_insertLayerAt.
  - destruct (layersOf_insertLayerAt display layer (newDisplayResource false)
                (mDisplayResources c ++ [(display, newDisplayResource false)])
                (find_app_fresh _ _ _ E)) as [H _].
    split; [assumption | intros l []].
Qed.

Lemma addLayer_frame display layer c :
  mComposerClient (snd (addLayerToDisplayResources display layer c)) =
    mComposerClient c /\
  mNextLayerHandle (snd (addLayerToDisplayResources display layer c)) =
    mNextLayerHandle c /\
  mSupportsBatchedCreateLayer (snd (addLayerToDisplayResources display layer c)) =
    mSupportsBatchedCreateLayer c.
Proof.
  unfold addLayerToDisplayResources.
  destruct (UMap.find display (mDisplayResources c));
    match goal with |- context [insertLayerAt ?a ?b ?r ?m] =>
      destruct (insertLayerAt a b r m) end; simpl; auto.
Qed.

Lemma layersOf_removeLayer display layer c :
  layersOf display
    (mDisplayResources (snd (removeLayerFromDisplayResources display layer c))) =
  USet.erase layer (layersOf display (mDisplayResources c)).
Proof.
  rewrite removeLayer_registry. unfold layersOf.
  rewrite UMap_update_find.
  destruct (UMap.find display (mDisplayResources c)); reflexivity.
Qed.

(** Batched [createLayer], step by step. *)
Lemma createLayer_batched display bufferSlotCount writer c :
  mSupportsBatchedCreateLayer c = true ->
  createLayer display bufferSlotCount writer c =
  (fst (addLayerToDisplayResources display (mNextLayerHandle c)
          (set_mNextLayerHandle (wrap_int64 (mNextLayerHandle c + 1)) c)),
   mNextLayerHandle c,
   writer ++ [SetLayerLifecycleBatchCommandType display (mNextLayerHandle c) CREATE;
              SetNewBufferSlotCount display (mNextLayerHandle c) bufferSlotCount],
   snd (addLayerToDisplayResources display (mNextLayerHandle c)
          (set_mNextLayerHandle (wrap_int64 (mNextLayerHandle c + 1)) c))).
Proof.
  intros Hb. unfold createLayer. rewrite Hb.
  unfold bind, ret, nextLayerHandle,
    setNewBufferSlotCount, setLayerLifecycleBatchCommandType.
  destruct (addLayerToDisplayResources _ _ _) as [s c'].
  rewrite <- app_assoc. reflexivity.
Qed.

(** C8. With the batched layer lifecycle supported and the handle counter
    above zero and short of the largest [int64_t], two calls of
    [createLayer] in a row on one display hand out the counter's value and
    its successor: two distinct, strictly increasing layer ids above
    zero.  After the two calls the display owns both ids, no transaction
    has been sent to the service, and the writer has gained exactly the
    create and buffer-slot-count records of the two layers, in order. *)
Theorem createLayer_batched_twice
  (c : VtsComposerClient) (display slots1 slots2 : Z)
  (writer : ComposerClientWriter) :
  mSupportsBatchedCreateLayer c = true ->
  0 < mNextLayerHandle c < INT64_MAX ->
  let r1 := createLayer display slots1 writer c in
  let layer1 := snd (fst (fst r1)) in
  let r2 := createLayer display slots2 (snd (fst r1)) (snd r1) in
  let layer2 := snd (fst (fst r2)) in
  layer1 = mNextLayerHandle c /\
  layer2 = mNextLayerHandle c + 1 /\
  0 < layer1 < layer2 /\
  layer1 <> layer2 /\
  In layer1 (layersOf display (mDisplayResources (snd r2))) /\
  In layer2 (layersOf display (mDisplayResources (snd r2))) /\
  mComposerClient (snd r2) = mComposerClient c /\
  snd (fst r2) =
    writer ++ [SetLayerLifecycleBatchCommandType display layer1 CREATE;
               SetNewBufferSlotCount display layer1 slots1;
               SetLayerLifecycleBatchCommandType display layer2 CREATE;
               SetNewBufferSlotCount display layer2 slots2].
Proof.
  intros Hb Hn r1 layer1 r2 layer2.
  assert (Hwrap : wrap_int64 (mNextLayerHandle c + 1) = mNextLayerHandle c + 1).
  { apply wrap_int64_in_range. unfold INT64_MIN, INT64_MAX in *. lia. }
  set (c0 := set_mNextLayerHandle (mNextLayerHandle c + 1) c).
  assert (Hr1 : r1 = (fst (addLayerToDisplayResources display (mNextLayerHandle c) c0),
                      mNextLayerHandle c,
                      writer ++ [SetLayerLifecycleBatchCommandType display (mNextLayerHandle c) CREATE;
                                 SetNewBufferSlotCount display (mNextLayerHandle c) slots1],
                      snd (addLayerToDisplayResources display (mNextLayerHandle c) c0))).
  { subst r1 c0. rewrite (createLayer_batched _ _ _ _ Hb), Hwrap. reflexivity. }
  destruct (addLayer_frame display (mNextLayerHandle c) c0) as [Hlog1 [Hnext1 Hb1]].
  destruct (addLayer_owned display (mNextLayerHandle c) c0) as [Hown1 _].
  set (c1 := snd (addLayerToDisplayResources display (mNextLayerHandle c) c0)) in *.
  assert (Hb1' : mSupportsBatchedCreateLayer (snd r1) = true).
  { rewrite Hr1. simpl. fold c1. now rewrite Hb1. }
  assert (Hn1 : mNextLayerHandle (snd r1) = mNextLayerHandle c + 1).
  { rewrite Hr1. simpl. fold c1. now rewrite Hnext1. }
  assert (Hl1 : layer1 = mNextLayerHandle c) by (subst layer1; now rewrite Hr1).
  pose proof (createLayer_batched display slots2 (snd (fst r1)) (snd r1) Hb1') as Hr2.
  fold r2 in Hr2. rewrite Hn1 in Hr2.
  set (c2 := set_mNextLayerHandle (wrap_int64 (mNextLayerHandle c + 1 + 1)) (snd r1)) in *.
  destruct (addLayer_frame display (mNextLayerHandle c + 1) c2) as [Hlog2 _].
  destruct (addLayer_owned display (mNextLayerHandle c + 1) c2) as [Hown2 Hkeep2].
  assert (Hl2 : layer2 = mNextLayerHandle c + 1) by (subst layer2; now rewrite Hr2).
  rewrite Hl1, Hl2.
  repeat split; try lia.
  - rewrite Hr2. simpl. apply Hkeep2. subst c2. simpl. rewrite Hr1. simpl. exact Hown1.
  - rewrite Hr2. simpl. exact Hown2.
  - rewrite Hr2. simpl. rewrite Hlog2. subst c2. simpl. rewrite Hr1. simpl.
    fold c1. rewrite Hlog1. reflexivity.
  - rewrite Hr2. simpl. rewrite Hr1. simpl. rewrite <- app_assoc. reflexivity.
Qed.

(** C5. Without the batched layer lifecycle, [destroyLayer] sends the
    destroy call.  If the call fails, [destroyLayer] returns the call's
    status, and the client is as before but for the transaction sent: the
    registry and the writer are untouched.  If the call succeeds, the
    layer is then removed from the registry and the result is success. *)
Theorem destroyLayer_unbatched
  (c : VtsComposerClient) (display layer : Z) (writer : ComposerClientWriter) :
  mSupportsBatchedCreateLayer c = false ->
  let status := remote_destroyLayer (mComposerClient c) display layer in
  let c1 := sent (TDestroyLayer display layer) c in
  (isOk status = false ->
   destroyLayer display layer writer c = ((status, writer), c1) /\
   mDisplayResources (snd (destroyLayer display layer writer c)) =
     mDisplayResources c) /\
  (isOk status = true ->
   destroyLayer display layer writer c =
     ((StatusOk, writer),
      snd (removeLayerFromDisplayResources display layer c1))).
Proof.
  intros Hb status c1. unfold destroyLayer. rewrite Hb.
  unfold bind, ret, transact. fold status. fold c1.
  split; intros Hs; rewrite Hs; simpl.
  - split; reflexivity.
  - destruct (removeLayerFromDisplayResources display layer c1). reflexivity.
Qed.

(** Batched [destroyLayer], step by step. *)
Lemma destroyLayer_batched_eq display layer writer c :
  mSupportsBatchedCreateLayer c = true ->
  destroyLayer display layer writer c =
    ((StatusOk,
      writer ++ [SetLayerLifecycleBatchCommandType display layer DESTROY]),
     snd (removeLayerFromDisplayResources display layer c)).
Proof.
  intros Hb. unfold destroyLayer. rewrite Hb.
  unfold bind, ret, setLayerLifecycleBatchCommandType.
  destruct (removeLayerFromDisplayResources display layer c) as [[] c'].
  reflexivity.
Qed.

Lemma removeLayer_history display layer c :
  mComposerClient (snd (removeLayerFromDisplayResources display layer c)) =
  mComposerClient c.
Proof.
  unfold removeLayerFromDisplayResources.
  destruct (UMap.find display (mDisplayResources c)); reflexivity.
Qed.

(** C10. With the batched layer lifecycle supported, [destroyLayer]
    returns success for every display id and layer id: it appends the
    destroy record to the writer, sends no transaction, and leaves a
    registry in which the display does not own the layer; when the
    display did not own the layer before, the registry is as it was. *)
Theorem destroyLayer_batched
  (c : VtsComposerClient) (display layer : Z) (writer : ComposerClientWriter) :
  mSupportsBatchedCreateLayer c = true ->
  destroyLayer display layer writer c =
    ((StatusOk,
      writer ++ [SetLayerLifecycleBatchCommandType display layer DESTROY]),
     snd (removeLayerFromDisplayResources display layer c)) /\
  mComposerClient (snd (destroyLayer display layer writer c)) =
    mComposerClient c /\
  ~ In layer (layersOf display
                (mDisplayResources (snd (destroyLayer display layer writer c)))) /\
  (~ In layer (layersOf display (mDisplayResources c)) ->
   mDisplayResources (snd (destroyLayer display layer writer c)) =
     mDisplayResources c).
Proof.
  intros Hb. rewrite (destroyLayer_batched_eq _ _ _ _ Hb). simpl.
  split; [reflexivity|]. split; [|split].
  - apply removeLayer_history.
  - rewrite layersOf_removeLayer. apply USet_erase_not_In.
  - intros Hnin. rewrite removeLayer_registry. unfold layersOf in Hnin.
    destruct (UMap.find display (mDisplayResources c)) as [r|] eqn:E.
    + apply (UMap_update_fixed _ _ r); [assumption|].
      rewrite (USet_erase_absent _ _ Hnin). now destruct r.
    + now apply UMap_update_absent.
Qed.

(** X2. In batched mode a layer created and destroyed at once, with no flush
    in between, is owned by no one afterwards: the optimistic insert and
    the optimistic removal cancel out, and the service has heard of
    neither. *)
Lemma createLayer_then_destroyLayer_batched
  (c : VtsComposerClient) (display slots : Z) (writer : ComposerClientWriter) :
  mSupportsBatchedCreateLayer c = true ->
  let r1 := createLayer display slots writer c in
  let layer := snd (fst (fst r1)) in
  let r2 := destroyLayer display layer (snd (fst r1)) (snd r1) in
  fst (fst r2) = StatusOk /\
  ~ In layer (layersOf display (mDisplayResources (snd r2))) /\
  mComposerClient (snd r2) = mComposerClient c /\
  snd (fst r2) =
    writer ++ [SetLayerLifecycleBatchCommandType display layer CREATE;
               SetNewBufferSlotCount display layer slots;
               SetLayerLifecycleBatchCommandType display layer DESTROY].
Proof.
  intros Hb r1 layer r2.
  pose proof (createLayer_batched display slots writer c Hb) as Hr1.
  fold r1 in Hr1.
  set (c0 := set_mNextLayerHandle (wrap_int64 (mNextLayerHandle c + 1)) c) in *.
  destruct (addLayer_frame display (mNextLayerHandle c) c0) as [Hlog1 [_ Hb1]].
  assert (Hb1' : mSupportsBatchedCreateLayer (snd r1) = true)
    by (rewrite Hr1; simpl; now rewrite Hb1).
  subst r2. rewrite (destroyLayer_batched_eq _ _ _ _ Hb1'). simpl.
  split; [reflexivity|]. split; [|split].
  - rewrite layersOf_removeLayer. apply USet_erase_not_In.
  - rewrite removeLayer_history, Hr1. simpl. now rewrite Hlog1.
  - subst layer. rewrite Hr1. simpl. rewrite <- app_assoc. reflexivity.
Qed.

End LayerLifecycle.

(* ===================================================================== *)
(** ** Teardown *)
(* ===================================================================== *)


Section Teardown.
Context {svc : IComposerClient}.

Lemma verify_anomalous c callback :
  mComposerCallback c = Some callback ->
  anomalous callback ->
  verifyComposerCallbackParams c = (false, c).
Proof.
  intros Hcb Han. unfold verifyComposerCallbackParams. rewrite Hcb.
  unfold anomalous in Han.
  repeat match goal with
         | |- context [?x =? 0] => destruct (Z.eqb_spec x 0)
         end; simpl; try reflexivity.
  exfalso. tauto.
Qed.

Lemma verify_quiet c :
  match mComposerCallback c with
  | Some callback => ~ anomalous callback
  | None => True
  end ->
  verifyComposerCallbackParams c = (true, c).
Proof.
  unfold verifyComposerCallbackParams, anomalous.
  destruct (mComposerCallback c) as [callback|]; [|reflexivity].
  intros Hq.
  repeat match goal with
         | |- context [?x =? 0] => destruct (Z.eqb_spec x 0)
         end; simpl; try reflexivity; exfalso; tauto.
Qed.

(** What [destroyLayer] does to the registry: nothing when it fails, the
    layer's removal when it succeeds. *)
Lemma destroyLayer_registry display layer writer c :
  mDisplayResources (snd (destroyLayer display layer writer c)) =
  if isOk (fst (fst (destroyLayer display layer writer c)))
  then UMap.update display
         (fun r => withLayers (USet.erase layer (layers r)) r)
         (mDisplayResources c)
  else mDisplayResources c.
Proof.
  unfold destroyLayer.
  destruct (mSupportsBatchedCreateLayer c); unfold bind, ret, transact.
  - pose proof (removeLayer_registry display layer c) as H.
    destruct (removeLayerFromDisplayResources display layer c) as [[] c'].
    exact H.
  - destruct (isOk (remote_destroyLayer (mComposerClient c) display layer)) eqn:E;
      simpl.
    + match goal with |- context [removeLayerFromDisplayResources ?d ?l ?x] =>
        pose proof (removeLayer_registry d l x) as H;
        destruct (removeLayerFromDisplayResources d l x) as [[] c'] end.
      exact H.
    + rewrite E. reflexivity.
Qed.

(** The loop over one display's layers ends within [fuel] rounds when the
    display owns fewer than [fuel] layers; it touches no entry but the
    display's own, and leaves that one without layers when it answers
    [true]. *)
Lemma destroyAllLayers_layers_total fuel : forall display r m writer c,
  mDisplayResources c = (display, r) :: m ->
  (length (layers r) < fuel)%nat ->
  exists b writer' c' r',
    destroyAllLayers_layers fuel display writer c = (Some (b, writer'), c') /\
    mDisplayResources c' = (display, r') :: m /\
    isVirtual r' = isVirtual r /\
    (b = true -> layers r' = []).
Proof.
  induction fuel as [|fuel IH]; intros display r m writer c Hreg Hlen; [lia|].
  simpl. unfold resourceOf. rewrite Hreg. simpl. rewrite Z.eqb_refl.
  destruct (layers r) as [|layer ls] eqn:El; simpl.
  - exists true, writer, c, r. repeat split; auto.
  - pose proof (destroyLayer_registry display layer writer c) as Hdl.
    destruct (destroyLayer display layer writer c) as [[status w1] c1].
    simpl in *.
    destruct (isOk status); simpl.
    + rewrite Hreg in Hdl. simpl in Hdl. rewrite Z.eqb_refl in Hdl.
      destruct (IH display _ m w1 c1 Hdl) as (b & w' & c' & r' & H1 & H2 & H3 & H4).
      { simpl. rewrite El.
        pose proof (USet_erase_head_shorter layer ls). simpl in Hlen. lia. }
      exists b, w', c', r'. repeat split; auto.
    + exists false, w1, c1, r. repeat split; auto.
      * now rewrite Hdl.
      * discriminate.
Qed.

Lemma destroyVirtualDisplay_eq display c :
  destroyVirtualDisplay display c =
  let status := remote_destroyVirtualDisplay (mComposerClient c) display in
  let c1 := sent (TDestroyVirtualDisplay display) c in
  if isOk status
  then (status,
        set_mDisplayResources (UMap.erase display (mDisplayResources c)) c1)
  else (status, c1).
Proof.
  unfold destroyVirtualDisplay, bind, ret, transact, eraseDisplayResource.
  simpl. destruct (isOk (remote_destroyVirtualDisplay _ _)); reflexivity.
Qed.

Lemma Forall_erase (P : Z * DisplayResource -> Prop) display m :
  Forall P m -> Forall P (UMap.erase display m).
Proof.
  intros H. unfold UMap.erase. rewrite Forall_forall in *.
  intros e He. apply filter_In in He. now apply H.
Qed.

(** The loop over the registry ends within [fuel] rounds when the registry
    has fewer than [fuel] entries, each owning fewer than [layerFuel]
    layers; when it answers [true] it has emptied the registry. *)
Lemma destroyAllLayers_displays_total fuel layerFuel :
  forall physicalDisplays writer c,
  (length (mDisplayResources c) < fuel)%nat ->
  Forall (fun e => (length (layers (snd e)) < layerFuel)%nat) (mDisplayResources c) ->
  exists b physicalDisplays' writer' c',
    destroyAllLayers_displays fuel layerFuel physicalDisplays writer c =
      (Some (b, physicalDisplays', writer'), c') /\
    (b = true -> mDisplayResources c' = []).
Proof.
  induction fuel as [|fuel IH]; intros phys writer c Hlen Hall; [lia|].
  simpl.
  destruct (mDisplayResources c) as [|[display r] m] eqn:Hreg.
  - exists true, phys, writer, c. split; auto.
  - inversion Hall as [|? ? Hr Hm]; subst. simpl in Hr, Hlen.
    destruct (destroyAllLayers_layers_total layerFuel display r m writer c Hreg Hr)
      as (b & w1 & c1 & r' & H1 & H2 & H3 & H4).
    rewrite H1. destruct b.
    + assert (Hfind : UMap.find display (mDisplayResources c1) = Some r')
        by (rewrite H2; simpl; now rewrite Z.eqb_refl).
      unfold resourceOf. rewrite Hfind.
      destruct (isVirtual r').
      * rewrite destroyVirtualDisplay_eq. simpl.
        destruct (isOk (remote_destroyVirtualDisplay (mComposerClient c1) display))
          eqn:E; simpl; rewrite E; simpl.
        -- apply IH;
             cbn [mDisplayResources set_mDisplayResources set_mComposerClient];
             rewrite ?H2.
           ++ pose proof (UMap_erase_head_shorter display r' m). lia.
           ++ apply Forall_erase. constructor; [|assumption].
              simpl. rewrite (H4 eq_refl). simpl. lia.
        -- eexists false, phys, w1, _. split; [reflexivity | discriminate].
      * apply IH;
          cbn [mDisplayResources set_mDisplayResources set_mComposerClient];
          rewrite ?H2.
        -- pose proof (UMap_erase_head_shorter display r' m). lia.
        -- apply Forall_erase. constructor; [|assumption].
           simpl. rewrite (H4 eq_refl). simpl. lia.
    + eexists false, phys, w1, c1. split; [reflexivity | discriminate].
Qed.

(** X1. The drain terminates: [destroyAllLayers] answers, given fuel
    beyond the number of displays and beyond every display's number of
    layers, whatever the service replies to the destroy calls. *)
Lemma destroyAllLayers_total fuel writer c :
  (length (mDisplayResources c) < fuel)%nat ->
  Forall (fun e => (length (layers (snd e)) < fuel)%nat) (mDisplayResources c) ->
  exists b writer' c',
    destroyAllLayers fuel writer c = (Some (b, writer'), c').
Proof.
  intros Hlen Hall. unfold destroyAllLayers.
  destruct (destroyAllLayers_displays_total fuel fuel [] writer c Hlen Hall)
    as (b & phys & w' & c' & H & _).
  rewrite H. destruct b; eexists _, _, _; reflexivity.
Qed.

Lemma destroyAllLayers_success_empties fuel writer c writer' c' :
  destroyAllLayers fuel writer c = (Some (true, writer'), c') ->
  mDisplayResources c' = [].
Proof.
  unfold destroyAllLayers.
  destruct (destroyAllLayers_displays fuel fuel [] writer c)
    as [[[[[|] phys] w1]|] c1]; intros [= <- <-]; reflexivity.
Qed.

(** C2, as the code has it.  [tearDown] is
    [verifyComposerCallbackParams() && destroyAllLayers(writer)].  When a
    callback is registered and any of its counters of unexpected
    notifications is not zero, [tearDown] reports failure and the drain
    does not run: the client, its registry included, and the writer are
    exactly as before, and no transaction is sent.  When no counter is
    set (or no callback is registered), [tearDown] is the drain. *)
Theorem tearDown_anomaly_skips_drain
  (c : VtsComposerClient) (fuel : nat) (writer : ComposerClientWriter) :
  (forall callback,
     mComposerCallback c = Some callback ->
     anomalous callback ->
     tearDown fuel writer c = (Some (false, writer), c)) /\
  (match mComposerCallback c with
   | Some callback => ~ anomalous callback
   | None => True
   end ->
   tearDown fuel writer c = destroyAllLayers fuel writer c).
Proof.
  split.
  - intros callback Hcb Han. unfold tearDown, bind.
    rewrite (verify_anomalous _ _ Hcb Han). reflexivity.
  - intros Hq. unfold tearDown, bind.
    rewrite (verify_quiet _ Hq). reflexivity.
Qed.

End Teardown.

Section TeardownSucceeds.
Context {svc : IComposerClient}.
Hypothesis accepted : destroysAccepted.

Lemma destroyLayer_accepted display layer writer c :
  isOk (fst (fst (destroyLayer display layer writer c))) = true.
Proof.
  unfold destroyLayer.
  destruct (mSupportsBatchedCreateLayer c); unfold bind, ret, transact.
  - destruct (removeLayerFromDisplayResources display layer c). reflexivity.
  - rewrite (proj1 accepted). simpl.
    destruct (removeLayerFromDisplayResources _ _ _). reflexivity.
Qed.

Lemma destroyAllLayers_layers_accepted fuel : forall display writer c b writer' c',
  destroyAllLayers_layers fuel display writer c = (Some (b, writer'), c') ->
  b = true.
Proof.
  induction fuel as [|fuel IH]; intros display writer c b writer' c'; simpl.
  - unfold ret. discriminate.
  - destruct (USet.begin (layers (resourceOf display c))) as [layer|].
    + pose proof (destroyLayer_accepted display layer writer c) as Hok.
      destruct (destroyLayer display layer writer c) as [r c1]. simpl in Hok.
      rewrite Hok. simpl. apply IH.
    + now intros [= <- _ _].
Qed.

Lemma destroyAllLayers_displays_accepted fuel layerFuel :
  forall physicalDisplays writer c b physicalDisplays' writer' c',
  destroyAllLayers_displays fuel layerFuel physicalDisplays writer c =
    (Some (b, physicalDisplays', writer'), c') ->
  b = true.
Proof.
  induction fuel as [|fuel IH]; intros phys writer c b phys' writer' c'; simpl.
  - unfold ret. discriminate.
  - destruct (mDisplayResources c) as [|[display r] m].
    + now intros [= <- _ _ _].
    + pose proof (destroyAllLayers_layers_accepted layerFuel display writer c) as Hl.
      destruct (destroyAllLayers_layers layerFuel display writer c)
        as [[[b1 w1]|] c1]; [|discriminate].
      specialize (Hl b1 w1 c1 eq_refl). subst b1.
      destruct (isVirtual (resourceOf display c1)).
      * rewrite destroyVirtualDisplay_eq. cbv zeta.
        rewrite (proj2 accepted). simpl. rewrite (proj2 accepted). simpl.
        apply IH.
      * apply IH.
Qed.

(** When the service accepts every destroy call and no unexpected
    notification was counted, teardown answers [true], given fuel beyond
    the number of displays and beyond every display's number of layers,
    and the registry it leaves is empty: every physical display has been
    dropped with the virtual ones. *)
Lemma tearDown_accepted_empties_registry fuel writer c :
  match mComposerCallback c with
  | Some callback => ~ anomalous callback
  | None => True
  end ->
  (length (mDisplayResources c) < fuel)%nat ->
  Forall (fun e => (length (layers (snd e)) < fuel)%nat) (mDisplayResources c) ->
  exists writer' c',
    tearDown fuel writer c = (Some (true, writer'), c') /\
    mDisplayResources c' = [].
Proof.
  intros Hq Hlen Hall.
  unfold tearDown, bind. rewrite (verify_quiet _ Hq).
  unfold destroyAllLayers.
  destruct (destroyAllLayers_displays_total fuel fuel [] writer c Hlen Hall)
    as (b & phys & w' & c' & H & _).
  rewrite H.
  rewrite (destroyAllLayers_displays_accepted _ _ _ _ _ _ _ _ _ H).
  eexists _, _. split; reflexivity.
Qed.

End TeardownSucceeds.

(* ===================================================================== *)
(** ** Version-gated queries and discovery *)
(* ===================================================================== *)


Section Discovery.
Context {svc : IComposerClient}.

Lemma getDisplayConfigurationSupported_eq c :
  getDisplayConfigurationSupported c =
  (3 <=? snd (remote_getInterfaceVersion (mComposerClient c) 1),
   sent TGetInterfaceVersion c).
Proof. reflexivity. Qed.

Lemma getDisplayAttribute_eq display config attribute c :
  getDisplayAttribute display config attribute c =
  (remote_getDisplayAttribute (mComposerClient c) display config attribute,
   sent (TGetDisplayAttribute display config attribute) c).
Proof. reflexivity. Qed.

Lemma getDisplayConfigs_eq display c :
  getDisplayConfigs display c =
  let c1 := sent TGetInterfaceVersion c in
  if 3 <=? snd (remote_getInterfaceVersion (mComposerClient c) 1)
  then
    let r := remote_getDisplayConfigurations (mComposerClient c1) display
               kMaxFrameIntervalNs in
    ((fst r, if isOk (fst r) then map configId (snd r) else []),
     sent (TGetDisplayConfigurations display kMaxFrameIntervalNs) c1)
  else
    (remote_getDisplayConfigs (mComposerClient c1) display,
     sent (TGetDisplayConfigs display) c1).
Proof.
  unfold getDisplayConfigs, bind. rewrite getDisplayConfigurationSupported_eq.
  destruct (3 <=? _); simpl; [|reflexivity].
  unfold getDisplayConfigurations, bind, ret, transact.
  destruct (isOk (fst (remote_getDisplayConfigurations _ _ _))); reflexivity.
Qed.

Lemma addDisplayConfigLegacy_eq vtsDisplay config c :
  addDisplayConfigLegacy vtsDisplay config c =
  let display := getDisplayId vtsDisplay in
  let c1 := sent (TGetDisplayAttribute display config VSYNC_PERIOD) c in
  let c2 := sent (TGetDisplayAttribute display config CONFIG_GROUP) c1 in
  let vsyncPeriod_ :=
    remote_getDisplayAttribute (mComposerClient c) display config VSYNC_PERIOD in
  let configGroup_ :=
    remote_getDisplayAttribute (mComposerClient c1) display config CONFIG_GROUP in
  (if isOk (fst vsyncPeriod_) && isOk (fst configGroup_)
   then (StatusOk,
         addDisplayConfig config
           (mkDisplayConfig (snd vsyncPeriod_) (snd configGroup_) None) vtsDisplay)
   else (ServiceSpecificError EX_BAD_CONFIG, vtsDisplay),
   c2).
Proof.
  unfold addDisplayConfigLegacy, bind. rewrite !getDisplayAttribute_eq. simpl.
  destruct (isOk _ && isOk _); reflexivity.
Qed.

Lemma updateDisplayProperties_eq vtsDisplay config c :
  updateDisplayProperties vtsDisplay config c =
  let display := getDisplayId vtsDisplay in
  let c1 := sent TGetInterfaceVersion c in
  if 3 <=? snd (remote_getInterfaceVersion (mComposerClient c) 1)
  then
    let r := remote_getDisplayConfigurations (mComposerClient c1) display
               kMaxFrameIntervalNs in
    (if isOk (fst r)
     then
       match List.find (fun displayConfig => configId displayConfig =? config)
                       (snd r) with
       | Some displayConfig =>
           (StatusOk,
            setDimensions (dc_width displayConfig) (dc_height displayConfig)
                          vtsDisplay)
       | None => (ServiceSpecificError EX_BAD_CONFIG, vtsDisplay)
       end
     else (ServiceSpecificError EX_BAD_CONFIG, vtsDisplay),
     sent (TGetDisplayConfigurations display kMaxFrameIntervalNs) c1)
  else
    let c2 := sent (TGetDisplayAttribute display config WIDTH) c1 in
    let width := remote_getDisplayAttribute (mComposerClient c1) display config WIDTH in
    let height := remote_getDisplayAttribute (mComposerClient c2) display config HEIGHT in
    (if isOk (fst width) && isOk (fst height)
     then (StatusOk, setDimensions (snd width) (snd height) vtsDisplay)
     else (ServiceSpecificError EX_BAD_CONFIG, vtsDisplay),
     sent (TGetDisplayAttribute display config HEIGHT) c2).
Proof.
  unfold updateDisplayProperties, bind.
  rewrite getDisplayConfigurationSupported_eq.
  destruct (3 <=? _); simpl.
  - unfold getDisplayConfigurations, bind, ret, transact.
    destruct (isOk (fst (remote_getDisplayConfigurations _ _ _))); [|reflexivity].
    destruct (List.find _ _); reflexivity.
  - unfold getDisplayAttribute, bind, ret, transact. simpl.
    destruct (isOk _ && isOk _); reflexivity.
Qed.

Lemma sent_history t c :
  mComposerClient (sent t c) = mComposerClient c ++ [t].
Proof. reflexivity. Qed.

Lemma filter_snoc {A : Type} (f : A -> bool) (l : list A) (x : A) :
  filter f (l ++ [x]) = filter f l ++ (if f x then [x] else []).
Proof. rewrite filter_app. reflexivity. Qed.

(** [updateDisplayProperties] sends no vsync-period or config-group
    query. *)
Lemma updateDisplayProperties_no_timing_query vtsDisplay config c :
  filter isTimingAttributeQuery
    (mComposerClient (snd (updateDisplayProperties vtsDisplay config c))) =
  filter isTimingAttributeQuery (mComposerClient c).
Proof.
  rewrite updateDisplayProperties_eq. simpl.
  destruct (3 <=? _); simpl; rewrite !filter_snoc; simpl;
    now rewrite !app_nil_r.
Qed.

(** The legacy loop returns out of discovery with no status but
    [EX_BAD_CONFIG]. *)
Lemma getDisplays_legacyConfigs_error configs : forall vtsDisplay c s c',
  getDisplays_legacyConfigs vtsDisplay configs c = (inl s, c') ->
  s = ServiceSpecificError EX_BAD_CONFIG.
Proof.
  induction configs as [|config configs IH]; intros vd c s c'; simpl.
  - unfold ret. discriminate.
  - unfold bind. rewrite addDisplayConfigLegacy_eq. simpl.
    destruct (isOk _ && isOk _); simpl.
    + apply IH.
    + unfold ret. now intros [= <- _].
Qed.

End Discovery.

Section LegacyDiscovery.
Context {svc : IComposerClient}.

Lemma updateDisplayProperties_keeps_configs vtsDisplay config c :
  mDisplayId (snd (fst (updateDisplayProperties vtsDisplay config c))) =
    mDisplayId vtsDisplay /\
  mDisplayConfigs (snd (fst (updateDisplayProperties vtsDisplay config c))) =
    mDisplayConfigs vtsDisplay.
Proof.
  rewrite updateDisplayProperties_eq. simpl.
  destruct (3 <=? _); simpl.
  - destruct (isOk _); [destruct (List.find _ _)|]; split; reflexivity.
  - destruct (isOk _ && isOk _); split; reflexivity.
Qed.

Lemma addDisplay_history display isVirtual_ c :
  mComposerClient (snd (addDisplayToDisplayResources display isVirtual_ c)) =
  mComposerClient c.
Proof.
  unfold addDisplayToDisplayResources.
  destruct (UMap.insert _ _ _) as [m [|]]; reflexivity.
Qed.

Variables (display config0 config1 : Z).
Hypothesis version_below_3 :
  forall h v0, snd (remote_getInterfaceVersion h v0) < 3.
Hypothesis two_configs :
  forall h, remote_getDisplayConfigs h display = (StatusOk, [config0; config1]).
Hypothesis vsync_ok :
  forall h config,
    isOk (fst (remote_getDisplayAttribute h display config VSYNC_PERIOD)) = true.
Hypothesis group_ok :
  forall h config,
    isOk (fst (remote_getDisplayAttribute h display config CONFIG_GROUP)) = true.
Hypothesis configs_differ : config0 <> config1.

Lemma legacy_version_test h v0 :
  (3 <=? snd (remote_getInterfaceVersion h v0)) = false.
Proof. apply Z.leb_gt. apply version_below_3. Qed.

Lemma getDisplays_display_legacy c :
  let h := mComposerClient c ++
           [TGetInterfaceVersion; TGetInterfaceVersion; TGetDisplayConfigs display] in
  let q00 := TGetDisplayAttribute display config0 VSYNC_PERIOD in
  let q01 := TGetDisplayAttribute display config0 CONFIG_GROUP in
  let q10 := TGetDisplayAttribute display config1 VSYNC_PERIOD in
  let q11 := TGetDisplayAttribute display config1 CONFIG_GROUP in
  let vsync0 := snd (remote_getDisplayAttribute h display config0 VSYNC_PERIOD) in
  let group0 :=
    snd (remote_getDisplayAttribute (h ++ [q00]) display config0 CONFIG_GROUP) in
  let vsync1 :=
    snd (remote_getDisplayAttribute (h ++ [q00; q01]) display config1 VSYNC_PERIOD) in
  let group1 :=
    snd (remote_getDisplayAttribute (h ++ [q00; q01; q10]) display config1
           CONFIG_GROUP) in
  exists r c',
    getDisplays_display display c = (r, c') /\
    filter isTimingAttributeQuery (mComposerClient c') =
      filter isTimingAttributeQuery (mComposerClient c) ++ [q00; q01; q10; q11] /\
    (forall s, r = inl s -> isOk s = false) /\
    (forall vtsDisplay, r = inr vtsDisplay ->
       mDisplayId vtsDisplay = display /\
       mDisplayConfigs vtsDisplay =
         [(config0, mkDisplayConfig vsync0 group0 None);
          (config1, mkDisplayConfig vsync1 group1 None)]).
Proof.
  intros h q00 q01 q10 q11 vsync0 group0 vsync1 group1.
  unfold getDisplays_display, bind.
  rewrite getDisplayConfigurationSupported_eq, legacy_version_test.
  rewrite getDisplayConfigs_eq. cbv zeta.
  rewrite legacy_version_test, two_configs.
  cbn [fst snd isOk negb getDisplays_legacyConfigs]. unfold bind.
  rewrite addDisplayConfigLegacy_eq. cbv zeta.
  rewrite vsync_ok, group_ok. cbn [fst snd isOk negb andb].
  rewrite addDisplayConfigLegacy_eq. cbv zeta.
  rewrite vsync_ok, group_ok. cbn [fst snd isOk negb andb]. unfold ret.
  unfold getActiveConfig, bind, ret, transact.
  cbn [getDisplayId addDisplayConfig newVtsDisplay mDisplayId].
  rewrite !sent_history. rewrite <- !app_assoc. cbn [app].
  fold q00 q01 q10 q11.
  set (c5 := sent q11 _).
  assert (Hc5 : filter isTimingAttributeQuery (mComposerClient c5) =
                filter isTimingAttributeQuery (mComposerClient c) ++ [q00; q01; q10; q11]).
  { subst c5. rewrite !sent_history, <- !app_assoc. cbn [app].
    rewrite filter_app. reflexivity. }
  set (vd := addDisplayConfig config1 _ _).
  assert (Hvd : mDisplayId vd = display /\
                mDisplayConfigs vd =
                  [(config0, mkDisplayConfig vsync0 group0 None);
                   (config1, mkDisplayConfig vsync1 group1 None)]).
  { subst vd. unfold addDisplayConfig, newVtsDisplay, UMap.insert.
    cbn [mDisplayId mDisplayConfigs mDisplayWidth mDisplayHeight UMap.find fst app].
    apply Z.eqb_neq in configs_differ. rewrite configs_differ.
    cbn [UMap.find fst app]. split; [reflexivity|].
    subst vsync0 group0 vsync1 group1 h.
    rewrite <- !app_assoc. reflexivity. }
  clearbody vd c5.
  match goal with |- context [remote_getActiveConfig ?hh display] =>
    set (active := remote_getActiveConfig hh display) end.
  clearbody active.
  destruct (isOk (fst active)) eqn:Eactive; cbn [negb]; cbv beta.
  - pose proof (updateDisplayProperties_no_timing_query vd (snd active)
                  (sent (TGetActiveConfig display) c5)) as Hlog.
    pose proof (updateDisplayProperties_keeps_configs vd (snd active)
                  (sent (TGetActiveConfig display) c5)) as [Hid Hcfg].
    destruct (updateDisplayProperties _ _ _) as [[s vd2] c6].
    cbn [fst snd] in *.
    rewrite sent_history, filter_snoc in Hlog. cbn in Hlog.
    rewrite app_nil_r in Hlog.
    destruct (isOk s) eqn:Es; cbn [negb]; cbv beta.
    + pose proof (addDisplay_history display false c6) as Hh.
      destruct (addDisplayToDisplayResources display false c6) as [s' c7].
      cbn [snd] in Hh.
      eexists _, _. split; [reflexivity|]. split; [|split].
      * rewrite Hh, Hlog. exact Hc5.
      * intros s0. discriminate.
      * intros v [= <-]. rewrite Hid, Hcfg. exact Hvd.
    + eexists _, _. split; [reflexivity|]. split; [|split].
      * rewrite Hlog. exact Hc5.
      * now intros s0 [= <-].
      * intros v. discriminate.
  - eexists _, _. split; [reflexivity|]. split; [|split].
    + rewrite sent_history, filter_snoc. cbn. rewrite app_nil_r. exact Hc5.
    + now intros s0 [= <-].
    + intros v. discriminate.
Qed.

(** C9. Let the service report an interface version below 3 whenever
    asked, list exactly the two distinct config ids [config0] and
    [config1] for [display], and answer the vsync-period and config-group
    queries of that display with success.  Then discovery, once a poll
    finds [display], returns, and the vsync-period and config-group
    queries it has sent are exactly four, one per config and attribute:
    [config0] then [config1], vsync period before config group.  When it
    returns success, the display record it returns holds both configs,
    each with the vsync period and config group those queries fetched. *)
Theorem legacy_discovery_queries_each_config
  (c : VtsComposerClient) (empties : nat) (later : list (list Z)) :
  let h := mComposerClient c ++
           [TGetInterfaceVersion; TGetInterfaceVersion; TGetDisplayConfigs display] in
  let q00 := TGetDisplayAttribute display config0 VSYNC_PERIOD in
  let q01 := TGetDisplayAttribute display config0 CONFIG_GROUP in
  let q10 := TGetDisplayAttribute display config1 VSYNC_PERIOD in
  let q11 := TGetDisplayAttribute display config1 CONFIG_GROUP in
  let vsync0 := snd (remote_getDisplayAttribute h display config0 VSYNC_PERIOD) in
  let group0 :=
    snd (remote_getDisplayAttribute (h ++ [q00]) display config0 CONFIG_GROUP) in
  let vsync1 :=
    snd (remote_getDisplayAttribute (h ++ [q00; q01]) display config1 VSYNC_PERIOD) in
  let group1 :=
    snd (remote_getDisplayAttribute (h ++ [q00; q01; q10]) display config1
           CONFIG_GROUP) in
  exists status vtsDisplays c',
    getDisplays (repeat [] empties ++ [display] :: later) c =
      (Some (status, vtsDisplays), c') /\
    filter isTimingAttributeQuery (mComposerClient c') =
      filter isTimingAttributeQuery (mComposerClient c) ++ [q00; q01; q10; q11] /\
    (status = StatusOk ->
     exists vtsDisplay,
       vtsDisplays = [vtsDisplay] /\
       mDisplayId vtsDisplay = display /\
       mDisplayConfigs vtsDisplay =
         [(config0, mkDisplayConfig vsync0 group0 None);
          (config1, mkDisplayConfig vsync1 group1 None)]).
Proof.
  intros h q00 q01 q10 q11 vsync0 group0 vsync1 group1.
  induction empties as [|n IH]; [|exact IH].
  cbn [repeat app getDisplays getDisplays_displays]. unfold bind.
  destruct (getDisplays_display_legacy c) as (r & c' & Hrun & Hlog & Herr & Hok).
  rewrite Hrun. destruct r as [s|vtsDisplay]; unfold ret.
  - eexists _, _, _. split; [reflexivity|]. split; [exact Hlog|].
    intros ->. specialize (Herr _ eq_refl). discriminate.
  - eexists _, _, _. split; [reflexivity|]. split; [exact Hlog|].
    intros _. exists vtsDisplay. split; [reflexivity|]. now apply Hok.
Qed.

End LegacyDiscovery.

(* ===================================================================== *)
(** ** What a method may change: the capability flag and the history *)
(* ===================================================================== *)


Lemma evolves_refl c : evolves c c.
Proof. split; [reflexivity | exists []; now rewrite app_nil_r]. Qed.

Lemma evolves_trans c1 c2 c3 : evolves c1 c2 -> evolves c2 c3 -> evolves c1 c3.
Proof.
  intros [Hf1 [r1 Hr1]] [Hf2 [r2 Hr2]]. split; [congruence|].
  exists (r1 ++ r2). now rewrite Hr2, Hr1, app_assoc.
Qed.

Lemma advances_ret {A : Type} (a : A) : advances (ret a).
Proof. intros c. apply evolves_refl. Qed.

Lemma advances_bind {A B : Type} (m : M A) (k : A -> M B) :
  advances m -> (forall a, advances (k a)) -> advances (bind m k).
Proof.
  intros Hm Hk c. unfold bind. specialize (Hm c).
  destruct (m c) as [a c1]. simpl in Hm.
  exact (evolves_trans _ _ _ Hm (Hk a c1)).
Qed.

Lemma advances_transact t : advances (transact t).
Proof. intros c. split; [reflexivity | now exists [t]]. Qed.

Lemma evolves_set_registry m c : evolves c (set_mDisplayResources m c).
Proof. split; [reflexivity | exists []; simpl; now rewrite app_nil_r]. Qed.

Create HintDb advances.

#[local] Hint Resolve advances_ret advances_transact : advances.

(** Splits a method along its [bind]s, branches and pairs, closing each
    piece with the facts collected in the [advances] database. *)
Ltac advances_step :=
  match goal with
  | |- advances (bind _ _) => apply advances_bind; [|intros ?]
  | |- advances (if ?b then _ else _) => destruct b
  | |- advances (match ?x with inl _ => _ | inr _ => _ end) => destruct x
  | |- advances (match ?x with Some _ => _ | None => _ end) => destruct x
  | |- advances (let (_, _) := ?x in _) => destruct x
  | |- advances _ => solve [auto with advances]
  end.

Ltac advances_tac := repeat advances_step.

Section Advances.
Context {svc : IComposerClient}.

Lemma advances_addDisplay display isVirtual_ :
  advances (addDisplayToDisplayResources display isVirtual_).
Proof.
  intros c. unfold addDisplayToDisplayResources.
  destruct (UMap.insert _ _ _) as [m [|]]; apply evolves_set_registry.
Qed.

Lemma advances_addLayer display layer :
  advances (addLayerToDisplayResources display layer).
Proof.
  intros c. unfold addLayerToDisplayResources.
  destruct (UMap.find display (mDisplayResources c));
    match goal with |- context [insertLayerAt ?a ?b ?r ?m] =>
      destruct (insertLayerAt a b r m) end; apply evolves_set_registry.
Qed.

Lemma advances_removeLayer display layer :
  advances (removeLayerFromDisplayResources display layer).
Proof.
  intros c. unfold removeLayerFromDisplayResources.
  destruct (UMap.find display (mDisplayResources c));
    [apply evolves_set_registry | apply evolves_refl].
Qed.

Lemma advances_eraseDisplay display : advances (eraseDisplayResource display).
Proof. intros c. apply evolves_set_registry. Qed.

Lemma advances_nextLayerHandle : advances nextLayerHandle.
Proof.
  intros c. split; [reflexivity | exists []; simpl; now rewrite app_nil_r].
Qed.

#[local] Hint Resolve advances_addDisplay advances_addLayer
  advances_removeLayer advances_eraseDisplay advances_nextLayerHandle
  : advances.

Lemma advances_getDisplayConfigurationSupported :
  advances getDisplayConfigurationSupported.
Proof. unfold getDisplayConfigurationSupported, getInterfaceVersion. advances_tac. Qed.

Lemma advances_getDisplayAttribute display config attribute :
  advances (getDisplayAttribute display config attribute).
Proof. unfold getDisplayAttribute. advances_tac. Qed.

Lemma advances_getActiveConfig display : advances (getActiveConfig display).
Proof. unfold getActiveConfig. advances_tac. Qed.

Lemma advances_getDisplayConfigurations display :
  advances (getDisplayConfigurations display).
Proof. unfold getDisplayConfigurations. advances_tac. Qed.

#[local] Hint Resolve advances_getDisplayConfigurationSupported
  advances_getDisplayAttribute advances_getActiveConfig
  advances_getDisplayConfigurations : advances.

Lemma advances_getDisplayConfigs display : advances (getDisplayConfigs display).
Proof. unfold getDisplayConfigs. advances_tac. Qed.

Lemma advances_addDisplayConfigLegacy vtsDisplay config :
  advances (addDisplayConfigLegacy vtsDisplay config).
Proof. unfold addDisplayConfigLegacy. advances_tac. Qed.

Lemma advances_updateDisplayProperties vtsDisplay config :
  advances (updateDisplayProperties vtsDisplay config).
Proof. unfold updateDisplayProperties. advances_tac. Qed.

#[local] Hint Resolve advances_getDisplayConfigs advances_addDisplayConfigLegacy
  advances_updateDisplayProperties : advances.

Lemma advances_legacyConfigs configs : forall vtsDisplay,
  advances (getDisplays_legacyConfigs vtsDisplay configs).
Proof.
  induction configs as [|config configs IH]; intros vtsDisplay; simpl;
    advances_tac.
Qed.

#[local] Hint Resolve advances_legacyConfigs : advances.

Lemma advances_getDisplays_display display :
  advances (getDisplays_display display).
Proof. unfold getDisplays_display. advances_tac. Qed.

#[local] Hint Resolve advances_getDisplays_display : advances.

Lemma advances_getDisplays_displays displays : forall vtsDisplays,
  advances (getDisplays_displays displays vtsDisplays).
Proof.
  induction displays as [|display displays IH]; intros vtsDisplays; simpl;
    advances_tac.
Qed.

#[local] Hint Resolve advances_getDisplays_displays : advances.

Lemma advances_getDisplays polls : advances (getDisplays polls).
Proof.
  induction polls as [|displays polls IH]; simpl; [advances_tac|].
  destruct displays; [assumption | advances_tac].
Qed.

Lemma advances_createLayer display bufferSlotCount writer :
  advances (createLayer display bufferSlotCount writer).
Proof.
  intros c. unfold createLayer.
  destruct (mSupportsBatchedCreateLayer c);
    match goal with |- evolves c (snd (?m c)) =>
      revert c; change (advances m) end; advances_tac.
Qed.

Lemma advances_destroyLayer display layer writer :
  advances (destroyLayer display layer writer).
Proof.
  intros c. unfold destroyLayer.
  destruct (mSupportsBatchedCreateLayer c);
    match goal with |- evolves c (snd (?m c)) =>
      revert c; change (advances m) end; advances_tac.
Qed.

End Advances.

(* ===================================================================== *)
(** ** Capability negotiation and error statuses *)
(* ===================================================================== *)


Lemma queriesVersionFirst_bind {A B : Type} (m : M A) (k : A -> M B) :
  queriesVersionFirst m -> (forall a, advances (k a)) ->
  queriesVersionFirst (bind m k).
Proof.
  intros Hm Hk c. unfold bind. destruct (Hm c) as [rest Hrest].
  destruct (m c) as [a c1]. simpl in Hrest.
  destruct (Hk a c1) as [_ [rest' Hrest']].
  exists (rest ++ rest'). rewrite Hrest', Hrest, <- app_assoc. reflexivity.
Qed.

Section Negotiation.
Context {svc : IComposerClient}.

#[local] Hint Resolve advances_addDisplay advances_addLayer
  advances_removeLayer advances_eraseDisplay advances_nextLayerHandle
  advances_getDisplayConfigurationSupported
  advances_getDisplayAttribute advances_getActiveConfig
  advances_getDisplayConfigurations
  advances_getDisplayConfigs advances_addDisplayConfigLegacy
  advances_updateDisplayProperties advances_legacyConfigs
  advances_getDisplays_display advances_getDisplays_displays : advances.

Lemma construct_flag firstLayerHandle capabilities :
  mSupportsBatchedCreateLayer (construct firstLayerHandle capabilities) = true <->
  In LAYER_LIFECYCLE_BATCH_COMMAND capabilities.
Proof.
  unfold construct. simpl. rewrite existsb_exists. split.
  - intros [cap [Hin Heq]]. destruct cap; [assumption | discriminate].
  - intros Hin. now exists LAYER_LIFECYCLE_BATCH_COMMAND.
Qed.

Lemma queriesVersionFirst_supported :
  queriesVersionFirst getDisplayConfigurationSupported.
Proof. intros c. now exists []. Qed.

Lemma queriesVersionFirst_display display :
  queriesVersionFirst (getDisplays_display display).
Proof.
  unfold getDisplays_display.
  apply queriesVersionFirst_bind; [apply queriesVersionFirst_supported|].
  intros b. advances_tac.
Qed.

Lemma getDisplays_queries_version polls : forall c r c',
  getDisplays polls c = (Some r, c') ->
  exists rest,
    mComposerClient c' = mComposerClient c ++ TGetInterfaceVersion :: rest.
Proof.
  induction polls as [|displays polls IH]; intros c r c'; simpl.
  - unfold ret. discriminate.
  - destruct displays as [|display displays]; [apply IH|].
    intros Hrun.
    assert (Hq : queriesVersionFirst
                   (bind (getDisplays_displays (display :: displays) [])
                         (fun r => ret (Some r)))).
    { cbn [getDisplays_displays].
      apply queriesVersionFirst_bind; [|intros ?; advances_tac].
      apply queriesVersionFirst_bind; [apply queriesVersionFirst_display|].
      intros ?; advances_tac. }
    specialize (Hq c). rewrite Hrun in Hq. exact Hq.
Qed.

(** C3, as the code has it.  The batched-lifecycle flag is computed once,
    by the constructor, from the capability list, and [createLayer],
    [destroyLayer], [getDisplayConfigs], [updateDisplayProperties] and
    [getDisplays] leave it as it is.  The interface version is not kept
    at all: [getDisplayConfigs] and [updateDisplayProperties] each start
    by sending a version query and take the extended path exactly when
    that query's answer is at least 3, and [getDisplays], when it
    returns, has sent a version query before anything else. *)
Theorem interface_version_queried_per_call
  (c : VtsComposerClient) (firstLayerHandle : Z) (capabilities : list Capability)
  (display layer config slots : Z) (vtsDisplay : VtsDisplay)
  (writer : ComposerClientWriter) (polls : list (list Z)) :
  (mSupportsBatchedCreateLayer (construct firstLayerHandle capabilities) = true <->
   In LAYER_LIFECYCLE_BATCH_COMMAND capabilities) /\
  mSupportsBatchedCreateLayer (snd (createLayer display slots writer c)) =
    mSupportsBatchedCreateLayer c /\
  mSupportsBatchedCreateLayer (snd (destroyLayer display layer writer c)) =
    mSupportsBatchedCreateLayer c /\
  mSupportsBatchedCreateLayer (snd (getDisplayConfigs display c)) =
    mSupportsBatchedCreateLayer c /\
  mSupportsBatchedCreateLayer (snd (updateDisplayProperties vtsDisplay config c)) =
    mSupportsBatchedCreateLayer c /\
  mSupportsBatchedCreateLayer (snd (getDisplays polls c)) =
    mSupportsBatchedCreateLayer c /\
  (let version := snd (remote_getInterfaceVersion (mComposerClient c) 1) in
   mComposerClient (snd (getDisplayConfigs display c)) =
     mComposerClient c ++
     TGetInterfaceVersion ::
     (if 3 <=? version
      then [TGetDisplayConfigurations display kMaxFrameIntervalNs]
      else [TGetDisplayConfigs display]) /\
   mComposerClient (snd (updateDisplayProperties vtsDisplay config c)) =
     mComposerClient c ++
     TGetInterfaceVersion ::
     (if 3 <=? version
      then [TGetDisplayConfigurations (getDisplayId vtsDisplay) kMaxFrameIntervalNs]
      else [TGetDisplayAttribute (getDisplayId vtsDisplay) config WIDTH;
            TGetDisplayAttribute (getDisplayId vtsDisplay) config HEIGHT])) /\
  (forall r c',
     getDisplays polls c = (Some r, c') ->
     exists rest,
       mComposerClient c' = mComposerClient c ++ TGetInterfaceVersion :: rest).
Proof.
  repeat split.
  - apply construct_flag.
  - apply construct_flag.
  - apply advances_createLayer.
  - apply advances_destroyLayer.
  - apply advances_getDisplayConfigs.
  - apply advances_updateDisplayProperties.
  - apply advances_getDisplays.
  - rewrite getDisplayConfigs_eq. cbv zeta.
    destruct (3 <=? _); simpl; rewrite <- app_assoc; reflexivity.
  - rewrite updateDisplayProperties_eq. cbv zeta.
    destruct (3 <=? _); simpl; rewrite <- !app_assoc; reflexivity.
  - apply getDisplays_queries_version.
Qed.

(** C4, as the code has it.  A failed legacy attribute query is not
    reported with its own status: when the vsync-period or the
    config-group query fails, [addDisplayConfigLegacy] answers the
    service-specific error [EX_BAD_CONFIG] and leaves the display record
    alone, and so does [updateDisplayProperties] when the width or the
    height query fails, or when the extended configuration query fails;
    discovery's legacy loop returns with no other status than
    [EX_BAD_CONFIG].  A failed remote status is passed on as it is by
    unbatched [createLayer] and [destroyLayer], by [destroyVirtualDisplay]
    and [createVirtualDisplay], and by [getDisplayConfigs], whose status is
    the status of the configuration-list call it makes. *)
Theorem attribute_failure_reported_as_EX_BAD_CONFIG
  (c : VtsComposerClient) (vtsDisplay : VtsDisplay)
  (display layer config slots width height pixelFormat : Z)
  (writer : ComposerClientWriter) :
  let d := getDisplayId vtsDisplay in
  let h := mComposerClient c in
  let version := snd (remote_getInterfaceVersion h 1) in
  let hv := h ++ [TGetInterfaceVersion] in
  (* legacy attribute queries *)
  (isOk (fst (remote_getDisplayAttribute h d config VSYNC_PERIOD)) &&
   isOk (fst (remote_getDisplayAttribute
                (h ++ [TGetDisplayAttribute d config VSYNC_PERIOD])
                d config CONFIG_GROUP)) = false ->
   fst (addDisplayConfigLegacy vtsDisplay config c) =
     (ServiceSpecificError EX_BAD_CONFIG, vtsDisplay)) /\
  (version < 3 ->
   isOk (fst (remote_getDisplayAttribute hv d config WIDTH)) &&
   isOk (fst (remote_getDisplayAttribute
                (hv ++ [TGetDisplayAttribute d config WIDTH]) d config HEIGHT))
     = false ->
   fst (updateDisplayProperties vtsDisplay config c) =
     (ServiceSpecificError EX_BAD_CONFIG, vtsDisplay)) /\
  (3 <= version ->
   isOk (fst (remote_getDisplayConfigurations hv d kMaxFrameIntervalNs)) = false ->
   fst (updateDisplayProperties vtsDisplay config c) =
     (ServiceSpecificError EX_BAD_CONFIG, vtsDisplay)) /\
  (forall configs s c',
     getDisplays_legacyConfigs vtsDisplay configs c = (inl s, c') ->
     s = ServiceSpecificError EX_BAD_CONFIG) /\
  (* statuses passed on as they are *)
  (mSupportsBatchedCreateLayer c = false ->
   isOk (fst (remote_createLayer h display slots)) = false ->
   fst (fst (fst (createLayer display slots writer c))) =
     fst (remote_createLayer h display slots)) /\
  (mSupportsBatchedCreateLayer c = false ->
   isOk (remote_destroyLayer h display layer) = false ->
   fst (fst (destroyLayer display layer writer c)) =
     remote_destroyLayer h display layer) /\
  (isOk (remote_destroyVirtualDisplay h display) = false ->
   fst (destroyVirtualDisplay display c) = remote_destroyVirtualDisplay h display) /\
  (isOk (fst (remote_createVirtualDisplay h width height pixelFormat slots)) = false ->
   fst (fst (createVirtualDisplay width height pixelFormat slots c)) =
     fst (remote_createVirtualDisplay h width height pixelFormat slots)) /\
  fst (fst (getDisplayConfigs display c)) =
    (if 3 <=? version
     then fst (remote_getDisplayConfigurations hv display kMaxFrameIntervalNs)
     else fst (remote_getDisplayConfigs hv display)).
Proof.
  intros d h version hv.
  split; [|split; [|split; [|split; [|split; [|split; [|split; [|split]]]]]]].
  - intros Hfail. rewrite addDisplayConfigLegacy_eq. cbv zeta.
    fold d. fold h. rewrite sent_history. fold h. rewrite Hfail. reflexivity.
  - intros Hv Hfail. rewrite updateDisplayProperties_eq. cbv zeta.
    fold h. fold version. apply Z.leb_gt in Hv. rewrite Hv.
    fold d. rewrite !sent_history. fold h. fold hv. rewrite Hfail. reflexivity.
  - intros Hv Hfail. rewrite updateDisplayProperties_eq. cbv zeta.
    fold h. fold version. apply Z.leb_le in Hv. rewrite Hv.
    fold d. rewrite !sent_history. fold h. fold hv. rewrite Hfail. reflexivity.
  - intros configs. apply getDisplays_legacyConfigs_error.
  - intros Hb Hfail. unfold createLayer. rewrite Hb.
    unfold bind, ret, transact. fold h.
    destruct (remote_createLayer h display slots) as [s l]. simpl in *.
    rewrite Hfail. reflexivity.
  - intros Hb Hfail. unfold destroyLayer. rewrite Hb.
    unfold bind, ret, transact. fold h. rewrite Hfail. reflexivity.
  - intros Hfail. rewrite destroyVirtualDisplay_eq. cbv zeta. fold h.
    rewrite Hfail. reflexivity.
  - intros Hfail. unfold createVirtualDisplay, bind, ret, transact. fold h.
    destruct (remote_createVirtualDisplay h width height pixelFormat slots)
      as [s v]. simpl in *. rewrite Hfail. reflexivity.
  - rewrite getDisplayConfigs_eq. cbv zeta. fold h. fold version.
    rewrite sent_history. fold h. fold hv.
    destruct (3 <=? version); reflexivity.
Qed.

End Negotiation.

(* ===================================================================== *)
(** ** Worked examples *)
(* ===================================================================== *)


(** C1 on a run.  The registry holds the physical display 5 and the
    virtual display 9; every destroy call succeeds.  [tearDown] answers
    [true], and the registry it leaves is empty: the physical display 5,
    set aside in [physicalDisplays] and swapped back, is wiped by the
    [clear()] that follows the [swap]. *)
Lemma tearDown_drops_physical_displays :
  let c := exampleClient false exampleRegistry in
  UMap.find 5 (mDisplayResources c) = Some (mkDisplayResource false [50; 51]) /\
  fst (tearDown (svc := legacyService) 4 [] c) = Some (true, []) /\
  mDisplayResources (snd (tearDown (svc := legacyService) 4 [] c)) = [] /\
  UMap.find 5 (mDisplayResources (snd (tearDown (svc := legacyService) 4 [] c))) =
    None.
Proof. vm_compute. repeat split; reflexivity. Qed.

(** However teardown succeeds, it leaves no entry in the registry. *)
Lemma tearDown_success_empties_registry {svc : IComposerClient}
  fuel writer c writer' c' :
  tearDown fuel writer c = (Some (true, writer'), c') ->
  mDisplayResources c' = [].
Proof.
  unfold tearDown, bind.
  destruct (verifyComposerCallbackParams c) as [[|] c1].
  - apply destroyAllLayers_success_empties.
  - unfold ret. discriminate.
Qed.

(** C2 refuted on a run.  One unexpected vsync has been counted.
    [tearDown] answers [false] and leaves the client as it was, registry
    included; the drain, run on the same client, would have sent four
    destroy calls and answered [true]. *)
Lemma tearDown_anomaly_blocks_drain_example :
  let c := mkClient [] (Some (mkCallback 0 0 1 0 0 0)) exampleRegistry false 1 in
  tearDown (svc := legacyService) 4 [] c = (Some (false, []), c) /\
  mDisplayResources (snd (tearDown (svc := legacyService) 4 [] c)) =
    exampleRegistry /\
  mComposerClient (snd (tearDown (svc := legacyService) 4 [] c)) = [] /\
  fst (destroyAllLayers (svc := legacyService) 4 [] c) = Some (true, []) /\
  mComposerClient (snd (destroyAllLayers (svc := legacyService) 4 [] c)) =
    [TDestroyLayer 5 50; TDestroyLayer 5 51; TDestroyLayer 9 90;
     TDestroyVirtualDisplay 9].
Proof. vm_compute. repeat split; reflexivity. Qed.

Lemma tearDown_anomaly_skips_drain_witness :
  (let c := mkClient [] (Some (mkCallback 0 0 1 0 0 0)) exampleRegistry false 1 in
   tearDown (svc := legacyService) 4 [] c = (Some (false, []), c)) /\
  (let c := exampleClient false exampleRegistry in
   tearDown (svc := legacyService) 4 [] c =
   destroyAllLayers (svc := legacyService) 4 [] c).
Proof.
  split.
  - apply (proj1 (tearDown_anomaly_skips_drain (svc := legacyService)
                    (mkClient [] (Some (mkCallback 0 0 1 0 0 0))
                              exampleRegistry false 1) 4 [])
             (mkCallback 0 0 1 0 0 0) eq_refl).
    right. right. left. simpl. discriminate.
  - apply (proj2 (tearDown_anomaly_skips_drain (svc := legacyService)
                    (exampleClient false exampleRegistry) 4 [])).
    simpl. unfold anomalous. simpl. intuition congruence.
Defined.

(** C3 refuted on a run.  The service reports version 2 to the first
    version query and 3 afterwards.  Two calls of
    [updateDisplayProperties] in one session each send a version query of
    their own; the first then takes the legacy path and the second the
    extended one. *)
Lemma version_requeried_example :
  let c := exampleClient false [] in
  let r1 := updateDisplayProperties (svc := upgradingService) (newVtsDisplay 5) 0 c in
  let r2 := updateDisplayProperties (svc := upgradingService)
              (snd (fst r1)) 0 (snd r1) in
  mComposerClient (snd r1) =
    [TGetInterfaceVersion;
     TGetDisplayAttribute 5 0 WIDTH; TGetDisplayAttribute 5 0 HEIGHT] /\
  mComposerClient (snd r2) =
    mComposerClient (snd r1) ++
    [TGetInterfaceVersion; TGetDisplayConfigurations 5 50000000].
Proof. vm_compute. split; reflexivity. Qed.

Lemma interface_version_queried_per_call_witness :
  (mSupportsBatchedCreateLayer (construct 1 [LAYER_LIFECYCLE_BATCH_COMMAND]) = true) /\
  (exists rest,
     mComposerClient
       (snd (getDisplays (svc := upgradingService) [[]; [5]]
               (exampleClient false []))) =
     TGetInterfaceVersion :: rest).
Proof.
  pose proof (interface_version_queried_per_call (svc := upgradingService)
                (exampleClient false []) 1 [LAYER_LIFECYCLE_BATCH_COMMAND]
                5 50 0 2 (newVtsDisplay 5) [] [[]; [5]]) as H.
  split.
  - apply (proj1 H). now left.
  - destruct H as (_ & _ & _ & _ & _ & _ & _ & H).
    apply (H (fst (getDisplays_displays (svc := upgradingService) [5] []
                     (exampleClient false [])))
             (snd (getDisplays (svc := upgradingService) [[]; [5]]
                     (exampleClient false [])))).
    reflexivity.
Defined.

(** C4 refuted on a run.  One service fails every attribute query with a
    binder exception, another rejects it with the service-specific error
    2.  Against either, [addDisplayConfigLegacy],
    [updateDisplayProperties] and discovery answer the service-specific
    error [EX_BAD_CONFIG] (code 1 here), not the failing call's status. *)
Lemma attribute_failure_status_replaced_example :
  let c := exampleClient false [] in
  fst (remote_getDisplayAttribute (IComposerClient := failingAttributeService)
         [] 5 0 VSYNC_PERIOD) = BinderException (-129) /\
  fst (fst (addDisplayConfigLegacy (svc := failingAttributeService)
              (newVtsDisplay 5) 0 c)) = ServiceSpecificError 1 /\
  fst (fst (updateDisplayProperties (svc := failingAttributeService)
              (newVtsDisplay 5) 0 c)) = ServiceSpecificError 1 /\
  fst (getDisplays (svc := failingAttributeService) [[5]] c) =
    Some (ServiceSpecificError 1, []) /\
  fst (remote_getDisplayAttribute (IComposerClient := rejectingAttributeService)
         [] 5 0 VSYNC_PERIOD) = ServiceSpecificError 2 /\
  fst (fst (addDisplayConfigLegacy (svc := rejectingAttributeService)
              (newVtsDisplay 5) 0 c)) = ServiceSpecificError 1 /\
  fst (getDisplays (svc := rejectingAttributeService) [[5]] c) =
    Some (ServiceSpecificError 1, []).
Proof. vm_compute. repeat split; reflexivity. Qed.

Lemma attribute_failure_reported_as_EX_BAD_CONFIG_witness :
  fst (addDisplayConfigLegacy (svc := failingAttributeService)
         (newVtsDisplay 5) 0 (exampleClient false [])) =
    (ServiceSpecificError 1, newVtsDisplay 5) /\
  fst (updateDisplayProperties (svc := failingAttributeService)
         (newVtsDisplay 5) 0 (exampleClient false [])) =
    (ServiceSpecificError 1, newVtsDisplay 5) /\
  fst (fst (destroyLayer (svc := failingDestroyService) 5 50 []
              (exampleClient false exampleRegistry))) = BinderException (-129).
Proof.
  pose proof (attribute_failure_reported_as_EX_BAD_CONFIG
                (svc := failingAttributeService)
                (exampleClient false []) (newVtsDisplay 5) 5 50 0 2 0 0 0 [])
    as (H1 & H2 & _).
  pose proof (attribute_failure_reported_as_EX_BAD_CONFIG
                (svc := failingDestroyService)
                (exampleClient false exampleRegistry) (newVtsDisplay 5)
                5 50 0 2 0 0 0 [])
    as (_ & _ & _ & _ & _ & H6 & _).
  split; [|split].
  - apply H1. reflexivity.
  - apply H2; reflexivity.
  - apply H6; reflexivity.
Defined.

Lemma destroyLayer_unbatched_witness :
  (let c := exampleClient false exampleRegistry in
   destroyLayer (svc := failingDestroyService) 5 50 [] c =
     ((BinderException (-129), []), sent (TDestroyLayer 5 50) c) /\
   mDisplayResources (snd (destroyLayer (svc := failingDestroyService) 5 50 [] c)) =
     exampleRegistry) /\
  (let c := exampleClient false exampleRegistry in
   destroyLayer (svc := legacyService) 5 50 [] c =
     ((StatusOk, []),
      snd (removeLayerFromDisplayResources 5 50
             (sent (TDestroyLayer 5 50) c)))).
Proof.
  split.
  - exact (proj1 (destroyLayer_unbatched (svc := failingDestroyService)
                    (exampleClient false exampleRegistry) 5 50 [] eq_refl)
                 eq_refl).
  - exact (proj2 (destroyLayer_unbatched (svc := legacyService)
                    (exampleClient false exampleRegistry) 5 50 [] eq_refl)
                 eq_refl).
Defined.

Lemma destroyLayer_batched_witness :
  let c := exampleClient true exampleRegistry in
  fst (destroyLayer (svc := failingDestroyService) 5 77 [] c) =
    (StatusOk, [SetLayerLifecycleBatchCommandType 5 77 DESTROY]) /\
  mDisplayResources (snd (destroyLayer (svc := failingDestroyService) 5 77 [] c)) =
    exampleRegistry.
Proof.
  pose proof (destroyLayer_batched (svc := failingDestroyService)
                (exampleClient true exampleRegistry) 5 77 [] eq_refl)
    as (H1 & _ & _ & H4).
  split.
  - rewrite H1. reflexivity.
  - apply H4. simpl. intros [H | [H | []]]; discriminate H.
Defined.

Lemma createLayer_batched_twice_witness :
  let c := exampleClient true [] in
  let r1 := createLayer (svc := legacyService) 5 2 [] c in
  let layer1 := snd (fst (fst r1)) in
  let r2 := createLayer (svc := legacyService) 5 2 (snd (fst r1)) (snd r1) in
  let layer2 := snd (fst (fst r2)) in
  (fst (fst (fst r1)) = StatusOk /\ fst (fst (fst r2)) = StatusOk) /\
  layer1 = 1 /\
  layer2 = 1 + 1 /\
  0 < layer1 < layer2 /\
  layer1 <> layer2 /\
  In layer1 (layersOf 5 (mDisplayResources (snd r2))) /\
  In layer2 (layersOf 5 (mDisplayResources (snd r2))) /\
  mComposerClient (snd r2) = [] /\
  snd (fst r2) =
    [SetLayerLifecycleBatchCommandType 5 layer1 CREATE;
     SetNewBufferSlotCount 5 layer1 2;
     SetLayerLifecycleBatchCommandType 5 layer2 CREATE;
     SetNewBufferSlotCount 5 layer2 2].
Proof.
  split; [split; reflexivity|].
  exact (createLayer_batched_twice (svc := legacyService)
           (exampleClient true []) 5 2 2 [] eq_refl (conj eq_refl eq_refl)).
Defined.

Lemma registry_display_ids_unique_witness :
  NoDup (UMap.keys
           (mDisplayResources
              (runOps (svc := legacyService)
                 [AddDisplay 5 false; AddDisplay 5 true; AddLayer 6 60;
                  RemoveDisplay 7; AddDisplay 7 true; RemoveDisplay 5]
                 (construct 1 [])))) /\
  (fst (addDisplayToDisplayResources (svc := legacyService) 5 true
          (exampleClient false exampleRegistry)) = ServiceSpecificError 2 /\
   mDisplayResources
     (snd (addDisplayToDisplayResources (svc := legacyService) 5 true
             (exampleClient false exampleRegistry))) = exampleRegistry) /\
  (fst (addDisplayToDisplayResources (svc := legacyService) 6 true
          (exampleClient false exampleRegistry)) = StatusOk /\
   mDisplayResources
     (snd (addDisplayToDisplayResources (svc := legacyService) 6 true
             (exampleClient false exampleRegistry))) =
     exampleRegistry ++ [(6, mkDisplayResource true [])]).
Proof.
  split; [|split].
  - exact (proj1 (registry_display_ids_unique (svc := legacyService)
                    [AddDisplay 5 false; AddDisplay 5 true; AddLayer 6 60;
                     RemoveDisplay 7; AddDisplay 7 true; RemoveDisplay 5]
                    1 [] (exampleClient false exampleRegistry) 5 true)).
  - apply (proj1 (proj2 (registry_display_ids_unique (svc := legacyService)
                           [] 1 [] (exampleClient false exampleRegistry) 5 true))).
    simpl. now left.
  - apply (proj2 (proj2 (registry_display_ids_unique (svc := legacyService)
                           [] 1 [] (exampleClient false exampleRegistry) 6 true))).
    simpl. intros [H | [H | []]]; discriminate H.
Defined.

Lemma registry_layer_ids_unique_witness :
  NoDup (layersOf 5
           (mDisplayResources
              (runOps (svc := legacyService)
                 [AddLayer 5 50; AddLayer 5 50; AddLayer 5 51; RemoveLayer 5 50;
                  AddLayer 5 50; RemoveLayer 5 99]
                 (construct 1 [])))) /\
  (fst (addLayerToDisplayResources (svc := legacyService) 5 50
          (exampleClient false exampleRegistry)) = ServiceSpecificError 3 /\
   mDisplayResources
     (snd (addLayerToDisplayResources (svc := legacyService) 5 50
             (exampleClient false exampleRegistry))) = exampleRegistry) /\
  removeLayerFromDisplayResources 7 50
    (exampleClient false exampleRegistry) =
    (tt, exampleClient false exampleRegistry) /\
  mDisplayResources
    (snd (removeLayerFromDisplayResources 5 99
            (exampleClient false exampleRegistry))) = exampleRegistry.
Proof.
  split; [|split; [|split]].
  - exact (proj1 (registry_layer_ids_unique (svc := legacyService)
                    [AddLayer 5 50; AddLayer 5 50; AddLayer 5 51; RemoveLayer 5 50;
                     AddLayer 5 50; RemoveLayer 5 99]
                    1 [] (exampleClient false exampleRegistry) 5 50)
                 5 (mkDisplayResource false [51; 50]) eq_refl).
  - apply (proj1 (proj2 (registry_layer_ids_unique (svc := legacyService)
                           [] 1 [] (exampleClient false exampleRegistry) 5 50))).
    simpl. now left.
  - apply (proj1 (proj2 (proj2 (registry_layer_ids_unique (svc := legacyService)
                           [] 1 [] (exampleClient false exampleRegistry) 7 50)))).
    simpl. intros [H | [H | []]]; discriminate H.
  - apply (proj2 (proj2 (proj2 (registry_layer_ids_unique (svc := legacyService)
                           [] 1 [] (exampleClient false exampleRegistry) 5 99)))).
    simpl. intros [H | [H | []]]; discriminate H.
Defined.

Lemma legacy_discovery_queries_each_config_witness :
  exists status vtsDisplays c',
    getDisplays (svc := legacyService) [[]; []; [5]] (exampleClient false []) =
      (Some (status, vtsDisplays), c') /\
    filter isTimingAttributeQuery (mComposerClient c') =
      [TGetDisplayAttribute 5 0 VSYNC_PERIOD; TGetDisplayAttribute 5 0 CONFIG_GROUP;
       TGetDisplayAttribute 5 1 VSYNC_PERIOD; TGetDisplayAttribute 5 1 CONFIG_GROUP] /\
    (status = StatusOk ->
     exists vtsDisplay,
       vtsDisplays = [vtsDisplay] /\
       mDisplayId vtsDisplay = 5 /\
       mDisplayConfigs vtsDisplay =
         [(0, mkDisplayConfig 16666666 7 None);
          (1, mkDisplayConfig 8333333 7 None)]).
Proof.
  refine (legacy_discovery_queries_each_config (svc := legacyService) 5 0 1
            _ _ _ _ _ (exampleClient false []) 2 []);
    try (intros; reflexivity).
  discriminate.
Defined.

Lemma destroyAllLayers_total_witness :
  exists b writer' c',
    destroyAllLayers (svc := failingDestroyService) 4 []
      (exampleClient false exampleRegistry) = (Some (b, writer'), c').
Proof.
  apply (destroyAllLayers_total (svc := failingDestroyService) 4 []
           (exampleClient false exampleRegistry)).
  - simpl. lia.
  - repeat constructor; simpl; lia.
Defined.

Lemma createLayer_then_destroyLayer_batched_witness :
  let c := exampleClient true exampleRegistry in
  let r1 := createLayer (svc := legacyService) 5 2 [] c in
  let layer := snd (fst (fst r1)) in
  let r2 := destroyLayer (svc := legacyService) 5 layer (snd (fst r1)) (snd r1) in
  (layer = 1 /\ mDisplayResources (snd r2) = exampleRegistry) /\
  fst (fst r2) = StatusOk /\
  ~ In layer (layersOf 5 (mDisplayResources (snd r2))) /\
  mComposerClient (snd r2) = [] /\
  snd (fst r2) =
    [SetLayerLifecycleBatchCommandType 5 layer CREATE;
     SetNewBufferSlotCount 5 layer 2;
     SetLayerLifecycleBatchCommandType 5 layer DESTROY].
Proof.
  split; [split; reflexivity|].
  exact (createLayer_then_destroyLayer_batched (svc := legacyService)
           (exampleClient true exampleRegistry) 5 2 [] eq_refl).
Defined.

(* ===================================================================== *)
(** ** Layers and virtual displays, one call at a time *)
(* ===================================================================== *)

Section Lifecycle.
Context {svc : IComposerClient}.

(** X3. Without the batched layer lifecycle, [createLayer] sends the
    create call and never touches the handle counter.  If the call fails,
    the call's status is returned and nothing is registered: the client
    is as before but for the transaction sent.  If the call succeeds, the
    id the service assigned is returned and registered under the display
    with the status of that registration, and the display then owns
    it. *)
Theorem createLayer_unbatched
  (c : VtsComposerClient) (display slots : Z) (writer : ComposerClientWriter) :
  mSupportsBatchedCreateLayer c = false ->
  let answer := remote_createLayer (mComposerClient c) display slots in
  let c1 := sent (TCreateLayer display slots) c in
  mNextLayerHandle (snd (createLayer display slots writer c)) =
    mNextLayerHandle c /\
  (isOk (fst answer) = false ->
   createLayer display slots writer c = ((fst answer, snd answer, writer), c1)) /\
  (isOk (fst answer) = true ->
   createLayer display slots writer c =
     ((fst (addLayerToDisplayResources display (snd answer) c1),
       snd answer, writer),
      snd (addLayerToDisplayResources display (snd answer) c1)) /\
   In (snd answer)
      (layersOf display
         (mDisplayResources (snd (createLayer display slots writer c))))).
Proof.
  intros Hb answer c1.
  assert (Heq : createLayer display slots writer c =
                if isOk (fst answer)
                then ((fst (addLayerToDisplayResources display (snd answer) c1),
                       snd answer, writer),
                      snd (addLayerToDisplayResources display (snd answer) c1))
                else ((fst answer, snd answer, writer), c1)).
  { unfold createLayer. rewrite Hb. unfold bind, ret, transact.
    fold answer. fold c1. destruct answer as [status outLayer]. simpl.
    destruct (isOk status); simpl; [|reflexivity].
    destruct (addLayerToDisplayResources display outLayer c1). reflexivity. }
  rewrite Heq. split; [|split].
  - destruct (isOk (fst answer)); simpl; [|reflexivity].
    now rewrite (proj1 (proj2 (addLayer_frame display (snd answer) c1))).
  - intros ->. reflexivity.
  - intros ->. split; [reflexivity|]. simpl.
    apply (proj1 (addLayer_owned display (snd answer) c1)).
Qed.

(** X8. A layer registered under a display the registry does not know
    makes a placeholder entry for it: the registration succeeds and the
    registry gains, behind its other entries, a non-virtual entry of that
    display owning just this layer. *)
Theorem addLayer_unknown_display
  (c : VtsComposerClient) (display layer : Z) :
  ~ In display (UMap.keys (mDisplayResources c)) ->
  fst (addLayerToDisplayResources display layer c) = StatusOk /\
  mDisplayResources (snd (addLayerToDisplayResources display layer c)) =
    mDisplayResources c ++ [(display, mkDisplayResource false [layer])].
Proof.
  intros Hnin. apply UMap_find_None in Hnin.
  assert (Hup : UMap.update display (withLayers [layer])
                  (mDisplayResources c ++ [(display, newDisplayResource false)]) =
                mDisplayResources c ++ [(display, mkDisplayResource false [layer])]).
  { revert Hnin. generalize (mDisplayResources c) as m.
    induction m as [|[k v] m IH]; simpl.
    - now rewrite Z.eqb_refl.
    - destruct (k =? display); [discriminate|]. intros H. now rewrite IH. }
  unfold addLayerToDisplayResources. rewrite Hnin.
  unfold UMap.insert. rewrite Hnin. cbn [fst].
  unfold insertLayerAt. cbn. rewrite Hup. split; reflexivity.
Qed.

Lemma erase_app_fresh display (r : DisplayResource) m :
  UMap.find display m = None ->
  UMap.erase display (m ++ [(display, r)]) = m.
Proof.
  intros Hnone. unfold UMap.erase. rewrite filter_app. simpl.
  rewrite Z.eqb_refl. simpl. rewrite app_nil_r.
  now apply UMap_erase_absent.
Qed.

Lemma update_withLayers_id display (r : DisplayResource) m :
  UMap.find display m = Some r ->
  UMap.update display (withLayers (layers r)) m = m.
Proof.
  intros H. apply (UMap_update_fixed _ _ r _ H). now destruct r.
Qed.

Lemma update_update display (f g : DisplayResource -> DisplayResource) m :
  UMap.update display g (UMap.update display f m) =
  UMap.update display (fun r => g (f r)) m.
Proof.
  induction m as [|[k v] m IH]; simpl; [reflexivity|].
  destruct (k =? display) eqn:E; simpl; rewrite E; [reflexivity|].
  now rewrite IH.
Qed.

Lemma erase_snoc layer ls :
  ~ In layer ls -> USet.erase layer (ls ++ [layer]) = ls.
Proof.
  intros Hnin. unfold USet.erase. rewrite filter_app. simpl.
  rewrite Z.eqb_refl. simpl. rewrite app_nil_r.
  now apply USet_erase_absent.
Qed.

(** X7. Insert and remove undo each other in the registry.  Adding a
    display id that is absent and erasing it again gives back the
    registry as it was; so does adding a layer id that a registered
    display does not own and removing it again. *)
Theorem registry_round_trips
  (c : VtsComposerClient) (display layer : Z) (isVirtual_ : bool) :
  (~ In display (UMap.keys (mDisplayResources c)) ->
   mDisplayResources
     (snd (eraseDisplayResource display
             (snd (addDisplayToDisplayResources display isVirtual_ c)))) =
   mDisplayResources c) /\
  (In display (UMap.keys (mDisplayResources c)) ->
   ~ In layer (layersOf display (mDisplayResources c)) ->
   fst (addLayerToDisplayResources display layer c) = StatusOk /\
   mDisplayResources
     (snd (removeLayerFromDisplayResources display layer
             (snd (addLayerToDisplayResources display layer c)))) =
   mDisplayResources c).
Proof.
  split.
  - intros Hnin. apply UMap_find_None in Hnin.
    unfold eraseDisplayResource. cbn [snd mDisplayResources set_mDisplayResources].
    rewrite addDisplay_registry, (UMap_insert_absent _ _ _ Hnin). cbn [fst].
    now apply erase_app_fresh.
  - intros Hin Hnin. apply UMap_find_In_keys in Hin as [r Hr].
    unfold layersOf in Hnin. rewrite Hr in Hnin.
    assert (Hadd : addLayerToDisplayResources display layer c =
                   (StatusOk,
                    set_mDisplayResources
                      (UMap.update display (withLayers (layers r ++ [layer]))
                                   (mDisplayResources c)) c)).
    { unfold addLayerToDisplayResources. rewrite Hr. unfold insertLayerAt.
      now rewrite (USet_insert_absent _ _ Hnin). }
    rewrite Hadd. split; [reflexivity|].
    rewrite removeLayer_registry.
    cbn [snd mDisplayResources set_mDisplayResources].
    rewrite update_update.
    apply (UMap_update_fixed _ _ r _ Hr).
    unfold withLayers. cbn [layers isVirtual].
    rewrite (erase_snoc _ _ Hnin). now destruct r.
Qed.

Lemma createVirtualDisplay_eq width height pixelFormat slots c :
  createVirtualDisplay width height pixelFormat slots c =
  let answer :=
    remote_createVirtualDisplay (mComposerClient c) width height pixelFormat slots in
  let c1 := sent (TCreateVirtualDisplay width height pixelFormat slots) c in
  if isOk (fst answer)
  then ((fst (addDisplayToDisplayResources (vd_display (snd answer)) true c1),
         snd answer),
        snd (addDisplayToDisplayResources (vd_display (snd answer)) true c1))
  else (answer, c1).
Proof.
  unfold createVirtualDisplay, bind, ret, transact.
  destruct (remote_createVirtualDisplay _ _ _ _ _) as [status out]. simpl.
  destruct (isOk status); simpl; [|reflexivity].
  destruct (addDisplayToDisplayResources (vd_display out) true _). reflexivity.
Qed.

(** X4. [createVirtualDisplay] has three outcomes.  If the remote call
    fails, its status is returned and the registry is untouched.  If it
    succeeds with a display id the registry does not hold, the result is
    success and the registry gains a virtual entry without layers for
    that id.  If it succeeds with an id the registry already holds, the
    result is the duplicate-display error [EX_BAD_DISPLAY] and the
    registry is untouched, although the service has created the
    display. *)
Theorem createVirtualDisplay_outcomes
  (c : VtsComposerClient) (width height pixelFormat slots : Z) :
  let answer :=
    remote_createVirtualDisplay (mComposerClient c) width height pixelFormat slots in
  let id := vd_display (snd answer) in
  let result := createVirtualDisplay width height pixelFormat slots c in
  snd (fst result) = snd answer /\
  (isOk (fst answer) = false ->
   fst (fst result) = fst answer /\
   mDisplayResources (snd result) = mDisplayResources c) /\
  (isOk (fst answer) = true ->
   ~ In id (UMap.keys (mDisplayResources c)) ->
   fst (fst result) = StatusOk /\
   mDisplayResources (snd result) =
     mDisplayResources c ++ [(id, mkDisplayResource true [])]) /\
  (isOk (fst answer) = true ->
   In id (UMap.keys (mDisplayResources c)) ->
   fst (fst result) = ServiceSpecificError EX_BAD_DISPLAY /\
   mDisplayResources (snd result) = mDisplayResources c).
Proof.
  intros answer id result. subst result.
  rewrite createVirtualDisplay_eq. cbv zeta. fold answer.
  split; [|split; [|split]].
  - destruct (isOk (fst answer)); [reflexivity | now destruct answer].
  - intros ->. split; reflexivity.
  - intros -> Hnin. apply UMap_find_None in Hnin. fold id.
    unfold addDisplayToDisplayResources.
    cbn [sent mDisplayResources set_mComposerClient].
    rewrite (UMap_insert_absent _ _ _ Hnin). split; reflexivity.
  - intros -> Hin. apply UMap_find_In_keys in Hin as [r Hr]. fold id.
    unfold addDisplayToDisplayResources.
    cbn [sent mDisplayResources set_mComposerClient].
    rewrite (UMap_insert_present _ _ _ _ Hr). split; reflexivity.
Qed.

Lemma erase_find_other display display' (m : UMap.t DisplayResource) :
  display' <> display ->
  UMap.find display' (UMap.erase display m) = UMap.find display' m.
Proof.
  intros Hne. unfold UMap.erase.
  induction m as [|[k v] m IH]; simpl; [reflexivity|].
  destruct (Z.eqb_spec k display) as [->|Hk]; simpl.
  - destruct (Z.eqb_spec display display') as [<-|]; [contradiction | assumption].
  - destruct (k =? display'); [reflexivity | assumption].
Qed.

(** X5. [destroyVirtualDisplay] returns the remote call's status.  If the
    call fails the registry is untouched.  If it succeeds the display is
    gone from the registry, with whatever layers it still owned, and
    every other display's entry is as it was. *)
Theorem destroyVirtualDisplay_outcomes
  (c : VtsComposerClient) (display : Z) :
  let status := remote_destroyVirtualDisplay (mComposerClient c) display in
  let result := destroyVirtualDisplay display c in
  fst result = status /\
  (isOk status = false -> mDisplayResources (snd result) = mDisplayResources c) /\
  (isOk status = true ->
   UMap.find display (mDisplayResources (snd result)) = None /\
   forall display',
     display' <> display ->
     UMap.find display' (mDisplayResources (snd result)) =
       UMap.find display' (mDisplayResources c)).
Proof.
  intros status result. subst result.
  rewrite destroyVirtualDisplay_eq. cbv zeta. fold status.
  split; [|split].
  - destruct (isOk status); reflexivity.
  - intros ->. reflexivity.
  - intros ->. cbn [snd mDisplayResources set_mDisplayResources].
    split; [apply UMap_erase_find|].
    intros display' Hne. now apply erase_find_other.
Qed.

(** X6. A virtual display created and destroyed again leaves the registry
    as it was: when both remote calls succeed and the id the service
    assigned was not registered before, the registry after
    [destroyVirtualDisplay] equals the registry before
    [createVirtualDisplay]. *)
Theorem virtual_display_round_trip
  (c : VtsComposerClient) (width height pixelFormat slots : Z) :
  let created := createVirtualDisplay width height pixelFormat slots c in
  let id := vd_display (snd (fst created)) in
  let destroyed := destroyVirtualDisplay id (snd created) in
  ~ In id (UMap.keys (mDisplayResources c)) ->
  isOk (fst (fst created)) = true ->
  isOk (fst destroyed) = true ->
  mDisplayResources (snd destroyed) = mDisplayResources c.
Proof.
  intros created id destroyed Hnin Hc Hd.
  revert Hd. subst destroyed. rewrite destroyVirtualDisplay_eq. cbv zeta.
  destruct (isOk (remote_destroyVirtualDisplay (mComposerClient (snd created)) id))
    eqn:Edestroy; [intros _ | cbn [fst]; congruence].
  cbn [snd mDisplayResources set_mDisplayResources sent set_mComposerClient].
  subst id. revert Hnin Hc. subst created.
  rewrite createVirtualDisplay_eq. cbv zeta.
  destruct (remote_createVirtualDisplay (mComposerClient c) width height
              pixelFormat slots) as [status out].
  cbn [fst snd]. destruct (isOk status) eqn:Estatus; cbn [fst snd].
  - intros Hnin _. apply UMap_find_None in Hnin.
    rewrite addDisplay_registry.
    cbn [sent mDisplayResources set_mComposerClient].
    rewrite (UMap_insert_absent _ _ _ Hnin). cbn [fst].
    now apply erase_app_fresh.
  - intros _ Hc. congruence.
Qed.

End Lifecycle.

(* ===================================================================== *)
(** ** An unused display id, and the peak refresh rate *)
(* ===================================================================== *)

Lemma existsb_eqb_In (id : Z) (displays : list Z) :
  existsb (fun display => id =? display) displays = true <-> In id displays.
Proof.
  rewrite existsb_exists. split.
  - intros [d [Hin Heq]]. apply Z.eqb_eq in Heq. now subst.
  - intros Hin. exists id. split; [assumption | apply Z.eqb_refl].
Qed.

Lemma NoDup_consecutive (a : Z) (n : nat) : forall s,
  NoDup (map (fun k => a + Z.of_nat k) (seq s n)).
Proof.
  induction n as [|n IH]; intros s; simpl; constructor.
  - intros Hin. apply in_map_iff in Hin as [k [Heq Hk]].
    apply in_seq in Hk. lia.
  - apply IH.
Qed.

(** A list that holds [n] consecutive integers has at least [n]
    elements. *)
Lemma consecutive_ids_length (displays : list Z) (a : Z) (n : nat) :
  (forall j, a <= j < a + Z.of_nat n -> In j displays) ->
  (n <= length displays)%nat.
Proof.
  intros Hall.
  set (ids := map (fun k => a + Z.of_nat k) (seq 0 n)).
  assert (Hlen : length ids = n) by (subst ids; now rewrite length_map, length_seq).
  rewrite <- Hlen. apply NoDup_incl_length.
  - subst ids. apply NoDup_consecutive.
  - intros j Hj. subst ids. apply in_map_iff in Hj as [k [<- Hk]].
    apply in_seq in Hk. apply Hall. lia.
Qed.

Lemma getInvalidDisplayId_loop_spec (displays : list Z) (fuel : nat) :
  forall id,
  0 <= id <= INT64_MAX ->
  (forall j, id < j <= INT64_MAX -> In j displays) ->
  (length displays < fuel + Z.to_nat (INT64_MAX - id))%nat ->
  exists r,
    getInvalidDisplayId_loop fuel displays id = Some r /\
    0 <= r <= id /\
    (0 < r -> ~ In r displays) /\
    (forall j, r < j <= INT64_MAX -> In j displays).
Proof.
  induction fuel as [|fuel IH]; intros id Hid Habove Hfuel.
  - exfalso.
    pose proof (consecutive_ids_length displays (id + 1)
                  (Z.to_nat (INT64_MAX - id))) as Hp.
    assert (length displays >= Z.to_nat (INT64_MAX - id))%nat; [|lia].
    apply Hp. intros j Hj. apply Habove. lia.
  - simpl. destruct (Z.ltb_spec 0 id) as [Hpos|Hzero].
    + destruct (existsb (fun display => id =? display) displays) eqn:E; simpl.
      * apply existsb_eqb_In in E.
        destruct (IH (id - 1)) as (r & Hr & Hrange & Hfree & Hused).
        -- lia.
        -- intros j Hj. destruct (Z.eq_dec j id) as [->|]; [assumption|].
           apply Habove. lia.
        -- replace (INT64_MAX - (id - 1)) with (Z.succ (INT64_MAX - id)) by lia.
           rewrite Z2Nat.inj_succ by lia. lia.
        -- exists r. repeat split; try assumption; lia.
      * exists id. repeat split; try lia; try assumption.
        intros _ Hin. apply existsb_eqb_In in Hin. congruence.
    + exists id. repeat split; try lia. assumption.
Qed.

(** X9. [getInvalidDisplayId] ends within as many rounds as there are
    displays, plus one.  The id it returns is the largest [int64_t]
    that is not a known display: every id above it up to the largest
    [int64_t] is a known display, and the id itself, when positive, is
    not.  It is positive whenever there are fewer known displays than
    positive [int64_t] values. *)
Theorem getInvalidDisplayId_largest_free (fuel : nat) (displays : list Z) :
  (length displays < fuel)%nat ->
  exists id,
    getInvalidDisplayId fuel displays = Some id /\
    0 <= id <= INT64_MAX /\
    (0 < id -> ~ In id displays) /\
    (forall j, id < j <= INT64_MAX -> In j displays) /\
    (Z.of_nat (length displays) < INT64_MAX -> 0 < id).
Proof.
  intros Hfuel. unfold getInvalidDisplayId.
  destruct (getInvalidDisplayId_loop_spec displays fuel INT64_MAX)
    as (r & Hr & Hrange & Hfree & Hused).
  - unfold INT64_MAX. lia.
  - intros j Hj. lia.
  - lia.
  - exists r. repeat split; try assumption; try lia.
    intros Hfew.
    destruct (Z.eq_dec r 0) as [->|]; [|lia]. exfalso.
    pose proof (consecutive_ids_length displays 1 (Z.to_nat INT64_MAX)) as Hp.
    assert (Z.to_nat INT64_MAX <= length displays)%nat.
    { apply Hp. intros j Hj. apply Hused.
      rewrite Z2Nat.id in Hj by (unfold INT64_MAX; lia). lia. }
    unfold INT64_MAX in *. lia.
Qed.

(** X10. The config [setPeakRefreshRateConfig] settles on, starting from
    the active config, is in the active config's group and has the
    shortest vsync period of that group: no config of the display in the
    same group has a shorter one.  It is the active config itself or a
    config of the display; and when no config of the group is faster
    than the active one, the active config is kept. *)
Theorem setPeakRefreshRateConfig_select_fastest
  (displayConfigs : UMap.t DisplayConfig) :
  forall (activeDisplayConfig : DisplayConfig) (activeConfig : Z),
  let peak :=
    setPeakRefreshRateConfig_select displayConfigs activeDisplayConfig
                                    activeConfig in
  configGroup (fst peak) = configGroup activeDisplayConfig /\
  vsyncPeriod (fst peak) <= vsyncPeriod activeDisplayConfig /\
  (forall config displayConfig,
     In (config, displayConfig) displayConfigs ->
     configGroup displayConfig = configGroup activeDisplayConfig ->
     vsyncPeriod (fst peak) <= vsyncPeriod displayConfig) /\
  (peak = (activeDisplayConfig, activeConfig) \/
   In (snd peak, fst peak) displayConfigs) /\
  ((forall config displayConfig,
      In (config, displayConfig) displayConfigs ->
      configGroup displayConfig = configGroup activeDisplayConfig ->
      vsyncPeriod activeDisplayConfig <= vsyncPeriod displayConfig) ->
   peak = (activeDisplayConfig, activeConfig)).
Proof.
  unfold setPeakRefreshRateConfig_select.
  induction displayConfigs as [|[k dc] rest IH]; intros p pc; cbn [fold_left].
  - cbn. repeat split; try lia; auto; try (intros ? ? []).
  - cbn [fst snd].
    destruct ((configGroup dc =? configGroup p) && (vsyncPeriod dc <? vsyncPeriod p))
      eqn:E.
    + apply andb_true_iff in E as [Eg Ev].
      apply Z.eqb_eq in Eg. apply Z.ltb_lt in Ev.
      destruct (IH dc k) as (Hg & Hv & Hmin & Hfrom & Hkeep).
      split; [congruence|]. split; [lia|]. split; [|split].
      * intros config displayConfig [[= <- <-] | Hin] Hsame.
        -- exact Hv.
        -- apply (Hmin config displayConfig Hin). congruence.
      * right. destruct Hfrom as [-> | Hin]; [now left | now right].
      * intros Hle. exfalso.
        specialize (Hle k dc (or_introl eq_refl) Eg). lia.
    + destruct (IH p pc) as (Hg & Hv & Hmin & Hfrom & Hkeep).
      split; [assumption|]. split; [assumption|]. split; [|split].
      * intros config displayConfig [[= <- <-] | Hin] Hsame.
        -- apply andb_false_iff in E as [E | E].
           ++ apply Z.eqb_neq in E. congruence.
           ++ apply Z.ltb_ge in E. lia.
        -- now apply (Hmin config displayConfig Hin).
      * destruct Hfrom as [-> | Hin]; [now left | right; now right].
      * intros Hle. apply Hkeep. intros config displayConfig Hin Hsame.
        apply (Hle config displayConfig); [now right | assumption].
Qed.


(* ===================================================================== *)
(** ** What the drain sends *)
(* ===================================================================== *)

Section Drain.
Context {svc : IComposerClient}.

Lemma erase_head_NoDup layer ls :
  NoDup (layer :: ls) -> USet.erase layer (layer :: ls) = ls.
Proof.
  intros Hnd. inversion Hnd as [|? ? Hnin _]; subst.
  unfold USet.erase. simpl. rewrite Z.eqb_refl. simpl.
  now apply USet_erase_absent.
Qed.

(** One accepted [destroyLayer] on the head entry of the registry. *)
Lemma destroyLayer_head display layer ls r m writer c :
  destroysAccepted ->
  mDisplayResources c = (display, r) :: m ->
  layers r = layer :: ls ->
  NoDup (layer :: ls) ->
  exists c',
    destroyLayer display layer writer c =
      ((StatusOk,
        writer ++
        (if mSupportsBatchedCreateLayer c
         then [SetLayerLifecycleBatchCommandType display layer DESTROY]
         else [])), c') /\
    mDisplayResources c' = (display, withLayers ls r) :: m /\
    mComposerClient c' =
      mComposerClient c ++
      (if mSupportsBatchedCreateLayer c then [] else [TDestroyLayer display layer]) /\
    mSupportsBatchedCreateLayer c' = mSupportsBatchedCreateLayer c.
Proof.
  intros [Hacc _] Hreg Hl Hnd.
  assert (Hrm : forall c0,
             mDisplayResources c0 = (display, r) :: m ->
             removeLayerFromDisplayResources display layer c0 =
             (tt, set_mDisplayResources ((display, withLayers ls r) :: m) c0)).
  { intros c0 H0. unfold removeLayerFromDisplayResources. rewrite H0.
    simpl. rewrite Z.eqb_refl. rewrite Hl, (erase_head_NoDup _ _ Hnd).
    reflexivity. }
  unfold destroyLayer. destruct (mSupportsBatchedCreateLayer c) eqn:Hb.
  - unfold bind, ret, setLayerLifecycleBatchCommandType.
    rewrite (Hrm c Hreg). eexists. split; [reflexivity|].
    simpl. rewrite app_nil_r. auto.
  - unfold bind, ret, transact. rewrite Hacc. simpl.
    rewrite (Hrm (sent (TDestroyLayer display layer) c) Hreg).
    eexists. split; [now rewrite app_nil_r|]. simpl. auto.
Qed.

Lemma destroyAllLayers_layers_plan ls : forall fuel display r m writer c,
  destroysAccepted ->
  mDisplayResources c = (display, r) :: m ->
  layers r = ls ->
  NoDup ls ->
  (length ls < fuel)%nat ->
  exists c',
    destroyAllLayers_layers fuel display writer c =
      (Some (true,
             writer ++
             (if mSupportsBatchedCreateLayer c
              then map (fun layer =>
                          SetLayerLifecycleBatchCommandType display layer DESTROY) ls
              else [])), c') /\
    mDisplayResources c' = (display, withLayers [] r) :: m /\
    mComposerClient c' =
      mComposerClient c ++
      (if mSupportsBatchedCreateLayer c then [] else map (TDestroyLayer display) ls) /\
    mSupportsBatchedCreateLayer c' = mSupportsBatchedCreateLayer c.
Proof.
  induction ls as [|layer ls IH]; intros fuel display r m writer c Hacc Hreg Hl Hnd Hfuel;
    (destruct fuel as [|fuel]; [simpl in Hfuel; lia|]).
  - simpl. unfold resourceOf. rewrite Hreg. simpl. rewrite Z.eqb_refl, Hl. simpl.
    exists c. repeat split.
    + destruct (mSupportsBatchedCreateLayer c); now rewrite app_nil_r.
    + rewrite Hreg. f_equal. f_equal. destruct r. simpl in Hl. now subst.
    + destruct (mSupportsBatchedCreateLayer c); now rewrite app_nil_r.
  - simpl. unfold resourceOf. rewrite Hreg. simpl. rewrite Z.eqb_refl, Hl. simpl.
    destruct (destroyLayer_head display layer ls r m writer c Hacc Hreg Hl Hnd)
      as (c1 & Hrun & Hreg1 & Hlog1 & Hflag1).
    rewrite Hrun. simpl.
    inversion Hnd as [|? ? _ Hnd']; subst.
    destruct (IH fuel display (withLayers ls r) m
                 (writer ++
                  (if mSupportsBatchedCreateLayer c
                   then [SetLayerLifecycleBatchCommandType display layer DESTROY]
                   else [])) c1 Hacc Hreg1 eq_refl Hnd')
      as (c2 & Hrun2 & Hreg2 & Hlog2 & Hflag2).
    { simpl in Hfuel. lia. }
    exists c2. rewrite Hrun2, Hflag1. repeat split.
    + destruct (mSupportsBatchedCreateLayer c); simpl;
        now rewrite <- ?app_assoc, ?app_nil_r.
    + exact Hreg2.
    + rewrite Hlog2, Hlog1, Hflag1.
      destruct (mSupportsBatchedCreateLayer c); simpl;
        now rewrite <- ?app_assoc, ?app_nil_r.
    + congruence.
Qed.

Lemma destroyAllLayers_displays_plan m : forall fuel layerFuel physicalDisplays writer c,
  destroysAccepted ->
  mDisplayResources c = m ->
  uniqueDisplays m ->
  uniqueLayers m ->
  (length m < fuel)%nat ->
  Forall (fun e => (length (layers (snd e)) < layerFuel)%nat) m ->
  exists physicalDisplays' c',
    destroyAllLayers_displays fuel layerFuel physicalDisplays writer c =
      (Some (true, physicalDisplays',
             writer ++ drainRecords (mSupportsBatchedCreateLayer c) m), c') /\
    mDisplayResources c' = [] /\
    mComposerClient c' =
      mComposerClient c ++ drainTransactions (mSupportsBatchedCreateLayer c) m.
Proof.
  induction m as [|[display r] m IH];
    intros fuel layerFuel phys writer c Hacc Hreg Hud Hul Hfuel Hlf;
    (destruct fuel as [|fuel]; [simpl in Hfuel; lia|]).
  - simpl. rewrite Hreg. exists phys, c. now rewrite !app_nil_r.
  - cbn [destroyAllLayers_displays]. rewrite Hreg.
    inversion Hud as [|? ? Hfresh Hud']; subst.
    inversion Hul as [|? ? Hnd Hul']; subst.
    inversion Hlf as [|? ? Hlen Hlf']; subst.
    cbn [fst snd] in *.
    destruct (destroyAllLayers_layers_plan (layers r) layerFuel display r m writer c
                Hacc Hreg eq_refl Hnd Hlen)
      as (c1 & Hrun & Hreg1 & Hlog1 & Hflag1).
    rewrite Hrun.
    assert (Hfind : UMap.find display (mDisplayResources c1) = Some (withLayers [] r))
      by (rewrite Hreg1; simpl; now rewrite Z.eqb_refl).
    assert (Herase : UMap.erase display (mDisplayResources c1) = m).
    { rewrite Hreg1. unfold UMap.erase. simpl. rewrite Z.eqb_refl. simpl.
      apply UMap_erase_absent. now apply UMap_find_None. }
    unfold resourceOf. rewrite Hfind. cbn [isVirtual withLayers].
    destruct (isVirtual r) eqn:Ev.
    + rewrite destroyVirtualDisplay_eq. cbv zeta.
      rewrite (proj2 Hacc). cbn [isOk negb]. rewrite (proj2 Hacc). cbn [negb].
      destruct (IH fuel layerFuel phys
                  (writer ++
                   (if mSupportsBatchedCreateLayer c
                    then map (fun layer =>
                                SetLayerLifecycleBatchCommandType display layer DESTROY)
                             (layers r)
                    else []))
                  (set_mDisplayResources (UMap.erase display (mDisplayResources c1))
                     (sent (TDestroyVirtualDisplay display) c1)))
        as (phys' & c2 & Hrun2 & Hreg2 & Hlog2); auto.
      { simpl in Hfuel. lia. }
      exists phys', c2. rewrite Hrun2. cbn in Hlog2 |- *.
      rewrite Hflag1, Hlog1 in *. rewrite Ev.
      repeat split; [| assumption |].
      * destruct (mSupportsBatchedCreateLayer c); cbn;
          now rewrite <- ?app_assoc, ?app_nil_r.
      * rewrite Hlog2.
        destruct (mSupportsBatchedCreateLayer c); cbn;
          now rewrite <- ?app_assoc, ?app_nil_r.
    + destruct (IH fuel layerFuel
                  (fst (UMap.insert display (withLayers [] r) phys))
                  (writer ++
                   (if mSupportsBatchedCreateLayer c
                    then map (fun layer =>
                                SetLayerLifecycleBatchCommandType display layer DESTROY)
                             (layers r)
                    else []))
                  (set_mDisplayResources (UMap.erase display (mDisplayResources c1)) c1))
        as (phys' & c2 & Hrun2 & Hreg2 & Hlog2); auto.
      { simpl in Hfuel. lia. }
      exists phys', c2.
      replace (mkDisplayResource false []) with (withLayers [] r)
        by (unfold withLayers; now rewrite Ev).
      rewrite Hrun2. cbn in Hlog2 |- *.
      rewrite Hflag1, Hlog1 in *. rewrite Ev.
      repeat split; [| assumption |].
      * destruct (mSupportsBatchedCreateLayer c); cbn;
          now rewrite <- ?app_assoc, ?app_nil_r.
      * rewrite Hlog2.
        destruct (mSupportsBatchedCreateLayer c); cbn;
          now rewrite <- ?app_assoc, ?app_nil_r.
Qed.

(** X11. What a successful drain sends, and in which order.  Let the
    service accept every destroy call, and let the registry hold every
    display id and, per display, every layer id once.  Then
    [destroyAllLayers], given fuel beyond the number of displays and
    beyond every display's number of layers, answers [true] and has
    taken the displays in registry order: for each display first one
    destroy per layer it owns, in the order the display lists them (a
    [destroyLayer] call in unbatched mode, a destroy record on the writer
    in batched mode), and only then, if the display is virtual, its
    [destroyVirtualDisplay] call.  A physical display gets no destroy
    call of its own, and nothing else is sent or recorded. *)
Theorem destroyAllLayers_drains_in_order
  (fuel : nat) (writer : ComposerClientWriter) (c : VtsComposerClient) :
  destroysAccepted ->
  uniqueDisplays (mDisplayResources c) ->
  uniqueLayers (mDisplayResources c) ->
  (length (mDisplayResources c) < fuel)%nat ->
  Forall (fun e => (length (layers (snd e)) < fuel)%nat) (mDisplayResources c) ->
  exists c',
    destroyAllLayers fuel writer c =
      (Some (true,
             writer ++
             drainRecords (mSupportsBatchedCreateLayer c) (mDisplayResources c)),
       c') /\
    mComposerClient c' =
      mComposerClient c ++
      drainTransactions (mSupportsBatchedCreateLayer c) (mDisplayResources c) /\
    mDisplayResources c' = [].
Proof.
  intros Hacc Hud Hul Hfuel Hlf. unfold destroyAllLayers.
  destruct (destroyAllLayers_displays_plan (mDisplayResources c) fuel fuel []
              writer c Hacc eq_refl Hud Hul Hfuel Hlf)
    as (phys & c1 & Hrun & Hreg & Hlog).
  rewrite Hrun. eexists. split; [reflexivity|]. split; [exact Hlog | reflexivity].
Qed.

Lemma destroyAllLayers_layers_keys fuel : forall display writer c r c',
  destroyAllLayers_layers fuel display writer c = (r, c') ->
  UMap.keys (mDisplayResources c') = UMap.keys (mDisplayResources c).
Proof.
  induction fuel as [|fuel IH]; intros display writer c r c'; simpl.
  - unfold ret. now intros [= _ <-].
  - destruct (USet.begin (layers (resourceOf display c))) as [layer|];
      [|now intros [= _ <-]].
    pose proof (destroyLayer_registry display layer writer c) as Hdl.
    destruct (destroyLayer display layer writer c) as [[status w1] c1].
    cbn [fst snd] in *.
    assert (Hk : UMap.keys (mDisplayResources c1) = UMap.keys (mDisplayResources c)).
    { rewrite Hdl. destruct (isOk status); [apply UMap_update_keys | reflexivity]. }
    destruct (isOk status); cbn [negb].
    + intros Hrun. rewrite (IH _ _ _ _ _ Hrun). exact Hk.
    + now intros [= _ <-].
Qed.

Lemma erase_keys_incl display (m : UMap.t DisplayResource) :
  incl (UMap.keys (UMap.erase display m)) (UMap.keys m).
Proof.
  rewrite UMap_erase_keys. intros k Hk. now apply filter_In in Hk.
Qed.

Lemma destroyAllLayers_displays_failure fuel layerFuel :
  forall physicalDisplays writer c physicalDisplays' writer' c',
  destroyAllLayers_displays fuel layerFuel physicalDisplays writer c =
    (Some (false, physicalDisplays', writer'), c') ->
  mDisplayResources c' <> [] /\
  incl (UMap.keys (mDisplayResources c')) (UMap.keys (mDisplayResources c)).
Proof.
  induction fuel as [|fuel IH]; intros phys writer c phys' writer' c'; simpl.
  - unfold ret. discriminate.
  - destruct (mDisplayResources c) as [|[display r] m] eqn:Hreg;
      [discriminate|].
    pose proof (destroyAllLayers_layers_keys layerFuel display writer c) as Hkeys.
    destruct (destroyAllLayers_layers layerFuel display writer c)
      as [[[[|] w1]|] c1]; [| |discriminate];
      specialize (Hkeys _ _ eq_refl); rewrite Hreg in Hkeys.
    + destruct (isVirtual (resourceOf display c1)).
      * rewrite destroyVirtualDisplay_eq. cbv zeta.
        destruct (isOk (remote_destroyVirtualDisplay (mComposerClient c1) display))
          eqn:E; cbn [isOk negb]; rewrite E; cbn [negb].
        -- intros Hrun. destruct (IH _ _ _ _ _ _ Hrun) as [Hne Hincl].
           split; [assumption|].
           cbn [mDisplayResources set_mDisplayResources] in Hincl.
           intros k Hk. rewrite <- Hkeys.
           apply (erase_keys_incl display). now apply Hincl.
        -- intros [= _ _ <-]. cbn [sent mDisplayResources set_mComposerClient].
           split.
           ++ intros Hnil. rewrite Hnil in Hkeys. discriminate.
           ++ rewrite Hkeys. apply incl_refl.
      * intros Hrun. destruct (IH _ _ _ _ _ _ Hrun) as [Hne Hincl].
        split; [assumption|].
        cbn [mDisplayResources set_mDisplayResources] in Hincl.
        intros k Hk. rewrite <- Hkeys.
        apply (erase_keys_incl display). now apply Hincl.
    + intros [= _ _ <-]. split.
      * intros Hnil. rewrite Hnil in Hkeys. discriminate.
      * rewrite Hkeys. apply incl_refl.
Qed.

(** X12. A drain that fails does not finish the cleanup.  When
    [destroyAllLayers] answers [false], the registry it leaves is not
    empty, and every display id in it was registered before the drain. *)
Theorem destroyAllLayers_failure_keeps_registry
  (fuel : nat) (writer writer' : ComposerClientWriter) (c c' : VtsComposerClient) :
  destroyAllLayers fuel writer c = (Some (false, writer'), c') ->
  mDisplayResources c' <> [] /\
  incl (UMap.keys (mDisplayResources c')) (UMap.keys (mDisplayResources c)).
Proof.
  unfold destroyAllLayers.
  pose proof (destroyAllLayers_displays_failure fuel fuel [] writer c) as H.
  destruct (destroyAllLayers_displays fuel fuel [] writer c)
    as [[[[[|] phys] w1]|] c1]; try discriminate.
  intros [= <- <-]. exact (H _ _ _ eq_refl).
Qed.

Lemma Forall_layers_update (P : Z -> Prop) display
  (f : DisplayResource -> DisplayResource) (m : UMap.t DisplayResource) :
  Forall (fun e => Forall P (layers (snd e))) m ->
  (forall r, Forall P (layers r) -> Forall P (layers (f r))) ->
  Forall (fun e => Forall P (layers (snd e))) (UMap.update display f m).
Proof.
  intros Hall Hf. apply UMap_update_Forall; [assumption|].
  intros v Hv. simpl. apply Hf.
  apply UMap_find_Some_In in Hv. rewrite Forall_forall in Hall.
  exact (Hall _ Hv).
Qed.

Lemma Forall_layers_weaken (P Q : Z -> Prop) (m : UMap.t DisplayResource) :
  (forall l, P l -> Q l) ->
  Forall (fun e => Forall P (layers (snd e))) m ->
  Forall (fun e => Forall Q (layers (snd e))) m.
Proof.
  intros HPQ. apply Forall_impl. intros e. apply Forall_impl. exact HPQ.
Qed.

(** X13. Locally generated layer ids never collide.  A freshly
    constructed client keeps every registered layer id below its handle
    counter.  In batched mode, while that holds and the counter is above
    zero and short of the largest [int64_t], [createLayer] succeeds (no
    duplicate-layer error), moves the counter on by one and keeps every
    registered layer id below it; and [destroyLayer] keeps it too. *)
Theorem createLayer_batched_never_collides
  (c : VtsComposerClient) (display layer slots firstLayerHandle : Z)
  (capabilities : list Capability) (writer : ComposerClientWriter) :
  layersBelowCounter (construct firstLayerHandle capabilities) /\
  (mSupportsBatchedCreateLayer c = true ->
   layersBelowCounter c ->
   0 < mNextLayerHandle c < INT64_MAX ->
   fst (fst (fst (createLayer display slots writer c))) = StatusOk /\
   mNextLayerHandle (snd (createLayer display slots writer c)) =
     mNextLayerHandle c + 1 /\
   layersBelowCounter (snd (createLayer display slots writer c))) /\
  (mSupportsBatchedCreateLayer c = true ->
   layersBelowCounter c ->
   layersBelowCounter (snd (destroyLayer display layer writer c))).
Proof.
  split; [constructor|]. split.
  - intros Hb Hinv Hn.
    assert (Hwrap : wrap_int64 (mNextLayerHandle c + 1) = mNextLayerHandle c + 1).
    { apply wrap_int64_in_range. unfold INT64_MIN, INT64_MAX in *. lia. }
    rewrite (createLayer_batched _ _ _ _ Hb), Hwrap. cbn [fst snd].
    set (n := mNextLayerHandle c) in *.
    set (c0 := set_mNextLayerHandle (n + 1) c).
    assert (Hfresh : ~ In n (layersOf display (mDisplayResources c))).
    { unfold layersOf.
      destruct (UMap.find display (mDisplayResources c)) as [r|] eqn:E; [|intros []].
      intros Hin. apply UMap_find_Some_In in E.
      unfold layersBelowCounter in Hinv. rewrite Forall_forall in Hinv.
      specialize (Hinv _ E). simpl in Hinv. rewrite Forall_forall in Hinv.
      specialize (Hinv _ Hin). fold n in Hinv. lia. }
    assert (Hinv0 : Forall (fun e => Forall (fun l => l < n + 1) (layers (snd e)))
                           (mDisplayResources c)).
    { apply (Forall_layers_weaken (fun l => l < n)); [intros; lia | exact Hinv]. }
    destruct (addLayer_frame display n c0) as [_ [Hnext _]].
    unfold layersBelowCounter. rewrite Hnext. cbn [c0 mNextLayerHandle set_mNextLayerHandle].
    unfold addLayerToDisplayResources.
    cbn [c0 mDisplayResources set_mNextLayerHandle].
    unfold layersOf in Hfresh.
    destruct (UMap.find display (mDisplayResources c)) as [r|] eqn:E.
    + unfold insertLayerAt. rewrite (USet_insert_absent _ _ Hfresh). cbn.
      repeat split.
      apply Forall_layers_update; [assumption|]. intros r0 _. cbn.
      apply Forall_app. split.
      * apply UMap_find_Some_In in E. rewrite Forall_forall in Hinv0.
        exact (Hinv0 _ E).
      * constructor; [lia | constructor].
    + unfold UMap.insert. rewrite E. cbn [fst]. unfold insertLayerAt. cbn.
      repeat split.
      apply Forall_layers_update.
      * apply Forall_app. split; [assumption|].
        constructor; [constructor | constructor].
      * intros r0 _. cbn. constructor; [lia | constructor].
  - intros Hb Hinv. rewrite (destroyLayer_batched_eq _ _ _ _ Hb). cbn [snd].
    unfold layersBelowCounter. rewrite removeLayer_registry.
    assert (Hn : mNextLayerHandle
                   (snd (removeLayerFromDisplayResources display layer c)) =
                 mNextLayerHandle c).
    { unfold removeLayerFromDisplayResources.
      destruct (UMap.find display (mDisplayResources c)); reflexivity. }
    rewrite Hn. apply Forall_layers_update; [exact Hinv|].
    intros r Hr. cbn. unfold USet.erase.
    rewrite Forall_forall in *. intros l Hl. apply filter_In in Hl. now apply Hr.
Qed.

End Drain.

(* ===================================================================== *)
(** ** Discovery: what it returns and what it registers *)
(* ===================================================================== *)

Lemma queries_ret {A : Type} (a : A) (Q : A -> Prop) : Q a -> queries (ret a) Q.
Proof. intros H c. split; [exact H | reflexivity]. Qed.

Lemma queries_bind {A B : Type} (m : M A) (k : A -> M B)
  (P : A -> Prop) (Q : B -> Prop) :
  queries m P -> (forall a, P a -> queries (k a) Q) -> queries (bind m k) Q.
Proof.
  intros Hm Hk c. unfold bind. destruct (Hm c) as [Ha Hreg].
  destruct (m c) as [a c1]. cbn [fst snd] in *.
  destruct (Hk a Ha c1) as [Hb Hreg']. split; [assumption | congruence].
Qed.

Lemma queries_weaken {A : Type} (m : M A) (P Q : A -> Prop) :
  queries m P -> (forall a, P a -> Q a) -> queries m Q.
Proof. intros Hm HPQ c. destruct (Hm c). split; auto. Qed.

Lemma queries_transact t : queries (transact t) (fun _ => True).
Proof. intros c. split; [exact I | reflexivity]. Qed.

Section DiscoveryResults.
Context {svc : IComposerClient}.

Lemma queries_supported : queries getDisplayConfigurationSupported (fun _ => True).
Proof. intros c. split; [exact I | reflexivity]. Qed.

Lemma queries_getDisplayAttribute display config attribute :
  queries (getDisplayAttribute display config attribute) (fun _ => True).
Proof. intros c. split; [exact I | reflexivity]. Qed.

Lemma queries_getActiveConfig display :
  queries (getActiveConfig display) (fun _ => True).
Proof. intros c. split; [exact I | reflexivity]. Qed.

Lemma queries_getDisplayConfigurations display :
  queries (getDisplayConfigurations display) (fun _ => True).
Proof. intros c. split; [exact I | reflexivity]. Qed.

Lemma queries_getDisplayConfigs display :
  queries (getDisplayConfigs display) (fun _ => True).
Proof.
  intros c. rewrite getDisplayConfigs_eq. cbv zeta.
  destruct (3 <=? _); split; try exact I; reflexivity.
Qed.

Lemma addDisplayConfigs_id configs : forall vtsDisplay,
  mDisplayId (addDisplayConfigs vtsDisplay configs) = mDisplayId vtsDisplay.
Proof.
  unfold addDisplayConfigs.
  induction configs as [|config configs IH]; intros vtsDisplay; simpl;
    [reflexivity|].
  now rewrite IH.
Qed.

Lemma queries_addDisplayConfigLegacy vtsDisplay config :
  queries (addDisplayConfigLegacy vtsDisplay config)
          (fun r => mDisplayId (snd r) = mDisplayId vtsDisplay).
Proof.
  intros c. rewrite addDisplayConfigLegacy_eq. cbv zeta.
  destruct (isOk _ && isOk _); split; reflexivity.
Qed.

(** What [updateDisplayProperties] can return: success with only the
    dimensions changed, or [EX_BAD_CONFIG] with the record untouched. *)
Lemma updateDisplayProperties_result vtsDisplay config c :
  let r := fst (updateDisplayProperties vtsDisplay config c) in
  (fst r = StatusOk /\
   mDisplayId (snd r) = mDisplayId vtsDisplay /\
   mDisplayConfigs (snd r) = mDisplayConfigs vtsDisplay) \/
  (fst r = ServiceSpecificError EX_BAD_CONFIG /\ snd r = vtsDisplay).
Proof.
  rewrite updateDisplayProperties_eq. cbv zeta.
  destruct (3 <=? _); cbn [fst snd].
  - destruct (isOk _); [destruct (List.find _ _)|]; cbn; auto.
  - destruct (isOk _ && isOk _); cbn; auto.
Qed.

Lemma queries_updateDisplayProperties vtsDisplay config :
  queries (updateDisplayProperties vtsDisplay config)
          (fun r => mDisplayId (snd r) = mDisplayId vtsDisplay).
Proof.
  intros c. split.
  - destruct (updateDisplayProperties_result vtsDisplay config c)
      as [(_ & H & _) | (_ & H)]; [exact H | now rewrite H].
  - rewrite updateDisplayProperties_eq. cbv zeta.
    destruct (3 <=? _); reflexivity.
Qed.

Lemma queries_legacyConfigs configs : forall vtsDisplay,
  queries (getDisplays_legacyConfigs vtsDisplay configs)
          (resolvedAs (mDisplayId vtsDisplay)).
Proof.
  induction configs as [|config configs IH]; intros vtsDisplay; simpl.
  - now apply queries_ret.
  - eapply queries_bind; [apply queries_addDisplayConfigLegacy|].
    intros r Hr. cbv beta in Hr.
    destruct (isOk (fst r)) eqn:E; cbn [negb].
    + rewrite <- Hr. apply IH.
    + now apply queries_ret.
Qed.

(** Before [getDisplays] registers the display, its body has only
    queried. *)
Lemma getDisplays_display_run display c :
  let r := fst (getDisplays_display display c) in
  resolvedAs display r /\
  mDisplayResources (snd (getDisplays_display display c)) =
    match r with
    | inl _ => mDisplayResources c
    | inr _ => fst (UMap.insert display (newDisplayResource false)
                                (mDisplayResources c))
    end.
Proof.
  set (resolve :=
         supported <- getDisplayConfigurationSupported ;;
         (if supported
          then
            r <- getDisplayConfigurations display ;;
            if negb (isOk (fst r))
            then ret (inl (fst r))
            else ret (inr (addDisplayConfigs (newVtsDisplay display) (snd r)))
          else
            r <- getDisplayConfigs display ;;
            if negb (isOk (fst r))
            then ret (inl (fst r))
            else getDisplays_legacyConfigs (newVtsDisplay display) (snd r))).
  assert (Hresolve : queries resolve (resolvedAs display)).
  { subst resolve.
    eapply queries_bind; [apply queries_supported|]. intros [|] _.
    - eapply queries_bind; [apply queries_getDisplayConfigurations|].
      intros r _. destruct (isOk (fst r)) eqn:E; cbn [negb];
        apply queries_ret; cbn; [apply addDisplayConfigs_id | assumption].
    - eapply queries_bind; [apply queries_getDisplayConfigs|].
      intros r _. destruct (isOk (fst r)) eqn:E; cbn [negb].
      + apply (queries_legacyConfigs (snd r) (newVtsDisplay display)).
      + now apply queries_ret. }
  assert (Heq : getDisplays_display display c =
                bind resolve
                  (fun resolved =>
                     match resolved with
                     | inl status => ret (inl status)
                     | inr vtsDisplay1 =>
                         activeConfig <- getActiveConfig display ;;
                         if negb (isOk (fst activeConfig))
                         then ret (inl (fst activeConfig))
                         else
                           u <- updateDisplayProperties vtsDisplay1 (snd activeConfig) ;;
                           if negb (isOk (fst u))
                           then ret (inl (fst u))
                           else
                             _ <- addDisplayToDisplayResources display false ;;
                             ret (inr (snd u))
                     end) c).
  { subst resolve. unfold getDisplays_display, bind.
    destruct (getDisplayConfigurationSupported c) as [[|] c1];
      match goal with |- context [let (_, _) := ?x in _] => destruct x end;
      reflexivity. }
  cbv zeta. rewrite Heq. clear Heq.
  match goal with |- context [bind resolve ?k c] =>
    destruct (bind resolve k c) as [r c'] eqn:Hrun end.
  cbn [fst snd]. unfold bind at 1 in Hrun. destruct (Hresolve c) as [Hres Hreg].
  destruct (resolve c) as [[status|vd1] c1]; cbn [fst snd] in *.
  - unfold ret in Hrun. cbv beta in Hrun. injection Hrun as <- <-. split; assumption.
  - unfold bind at 1 in Hrun.
    destruct (queries_getActiveConfig display c1) as [_ Hreg2].
    destruct (getActiveConfig display c1) as [active c2]. cbn [fst snd] in *.
    destruct (isOk (fst active)) eqn:Eactive; cbn [negb] in Hrun.
    + unfold bind at 1 in Hrun.
      destruct (queries_updateDisplayProperties vd1 (snd active) c2) as [Hid Hreg3].
      destruct (updateDisplayProperties vd1 (snd active) c2) as [u c3].
      cbn [fst snd] in *.
      destruct (isOk (fst u)) eqn:Eu; cbn [negb] in Hrun.
      * unfold bind, ret in Hrun.
        pose proof (addDisplay_registry display false c3) as Hadd.
        destruct (addDisplayToDisplayResources display false c3) as [s c4].
        cbn [fst snd] in *. cbv beta in Hrun. injection Hrun as <- <-. cbn.
        split; [congruence|].
        rewrite Hadd. congruence.
      * unfold ret in Hrun. cbv beta in Hrun. injection Hrun as <- <-. cbn.
        split; [assumption | congruence].
    + unfold ret in Hrun. cbv beta in Hrun. injection Hrun as <- <-. cbn.
      split; [assumption | congruence].
Qed.

Lemma getDisplays_displays_run displays : forall vtsDisplays c status returned c',
  getDisplays_displays displays vtsDisplays c = ((status, returned), c') ->
  exists resolved remaining,
    returned = vtsDisplays ++ resolved /\
    displays = map mDisplayId resolved ++ remaining /\
    (status = StatusOk /\ remaining = [] \/
     isOk status = false /\ remaining <> []) /\
    mDisplayResources c' =
      registerDiscovered (map mDisplayId resolved) (mDisplayResources c).
Proof.
  induction displays as [|display displays IH];
    intros acc c status returned c'; cbn [getDisplays_displays].
  - unfold ret. intros [= <- <- <-]. exists [], []. cbn. rewrite app_nil_r.
    repeat split; auto.
  - unfold bind.
    destruct (getDisplays_display_run display c) as [Hres Hreg].
    cbv zeta in Hres, Hreg.
    destruct (getDisplays_display display c) as [[s|vd] c1];
      cbn [fst snd] in *.
    + unfold ret. intros [= <- <- <-].
      exists [], (display :: displays). cbn. rewrite app_nil_r.
      repeat split; auto. right. split; [exact Hres | discriminate].
    + intros Hrun.
      destruct (IH _ _ _ _ _ Hrun) as (resolved & remaining & H1 & H2 & H3 & H4).
      exists (vd :: resolved), remaining. repeat split.
      * rewrite H1, <- app_assoc. reflexivity.
      * cbn. cbn in Hres. now rewrite Hres, H2.
      * exact H3.
      * rewrite H4, Hreg. cbn. cbn in Hres. now rewrite Hres.
Qed.

(** X14. Discovery acts on the first poll that finds a display: the empty
    polls before it cost nothing and later polls are never read.  It
    returns the records of the displays it resolved, in poll order, one
    per display and with that display's id.  With status success these
    are all the displays of the poll; with a failed status they are
    exactly the displays before the one that failed: partial results are
    returned, not dropped. *)
Theorem getDisplays_returns_resolved_prefix
  (c : VtsComposerClient) (empties : nat) (display : Z) (displays : list Z)
  (later : list (list Z)) :
  getDisplays (repeat [] empties ++ (display :: displays) :: later) c =
    getDisplays [display :: displays] c /\
  exists status vtsDisplays c' remaining,
    getDisplays (repeat [] empties ++ (display :: displays) :: later) c =
      (Some (status, vtsDisplays), c') /\
    display :: displays = map mDisplayId vtsDisplays ++ remaining /\
    (status = StatusOk /\ remaining = [] \/
     isOk status = false /\ remaining <> []).
Proof.
  induction empties as [|n IH]; [|exact IH].
  split; [reflexivity|].
  cbn [repeat app getDisplays]. unfold bind, ret.
  destruct (getDisplays_displays (display :: displays) [] c)
    as [[status vds] c'] eqn:Hrun.
  destruct (getDisplays_displays_run _ _ _ _ _ _ Hrun)
    as (resolved & remaining & H1 & H2 & H3 & _).
  cbn [app] in H1. subst vds.
  exists status, resolved, c', remaining. auto.
Qed.

(** X15. Discovery registers what it resolved and nothing else.  The
    registry after [getDisplays] is the registry before with the displays
    of the returned records inserted in order, each as a non-virtual
    entry without layers; a display that was registered already keeps
    the entry it had. *)
Theorem getDisplays_registers_resolved
  (c : VtsComposerClient) (polls : list (list Z)) :
  let result := getDisplays polls c in
  match fst result with
  | Some (_, vtsDisplays) =>
      mDisplayResources (snd result) =
        registerDiscovered (map mDisplayId vtsDisplays) (mDisplayResources c)
  | None => snd result = c
  end /\
  (forall display resource,
     UMap.find display (mDisplayResources c) = Some resource ->
     UMap.find display (mDisplayResources (snd result)) = Some resource).
Proof.
  cbv zeta.
  assert (Hmain : match fst (getDisplays polls c) with
                  | Some (_, vtsDisplays) =>
                      mDisplayResources (snd (getDisplays polls c)) =
                        registerDiscovered (map mDisplayId vtsDisplays)
                                           (mDisplayResources c)
                  | None => snd (getDisplays polls c) = c
                  end).
  { induction polls as [|displays polls IH]; cbn [getDisplays]; [reflexivity|].
    destruct displays as [|display displays]; [exact IH|].
    unfold bind, ret.
    destruct (getDisplays_displays (display :: displays) [] c)
      as [[status vds] c'] eqn:Hrun.
    destruct (getDisplays_displays_run _ _ _ _ _ _ Hrun)
      as (resolved & remaining & H1 & _ & _ & H4).
    cbn [fst snd app] in *. now subst vds. }
  split; [exact Hmain|].
  intros display resource Hfind.
  assert (Hkeep : forall ds m,
             UMap.find display m = Some resource ->
             UMap.find display (registerDiscovered ds m) = Some resource).
  { induction ds as [|d ds IHds]; intros m Hm; cbn; [assumption|].
    apply IHds. unfold UMap.insert.
    destruct (UMap.find d m) eqn:E; cbn [fst]; [assumption|].
    clear - Hm. induction m as [|[k v] m IHm]; cbn in *; [discriminate|].
    destruct (k =? display); [assumption | now apply IHm]. }
  destruct (fst (getDisplays polls c)) as [[status vds]|].
  - rewrite Hmain. now apply Hkeep.
  - now rewrite Hmain.
Qed.

(** X16. [updateDisplayProperties] returns success or [EX_BAD_CONFIG]
    and nothing else.  On success only the display record's width and
    height can have changed; on [EX_BAD_CONFIG] the record is exactly as
    it was.  Either way the registry is untouched. *)
Theorem updateDisplayProperties_outcomes
  (c : VtsComposerClient) (vtsDisplay : VtsDisplay) (config : Z) :
  let result := updateDisplayProperties vtsDisplay config c in
  ((fst (fst result) = StatusOk /\
    mDisplayId (snd (fst result)) = mDisplayId vtsDisplay /\
    mDisplayConfigs (snd (fst result)) = mDisplayConfigs vtsDisplay) \/
   (fst (fst result) = ServiceSpecificError EX_BAD_CONFIG /\
    snd (fst result) = vtsDisplay)) /\
  mDisplayResources (snd result) = mDisplayResources c.
Proof.
  cbv zeta. split.
  - apply updateDisplayProperties_result.
  - apply queries_updateDisplayProperties.
Qed.

End DiscoveryResults.

(* ===================================================================== *)
(** ** Further worked examples *)
(* ===================================================================== *)

Lemma legacyService_accepts_destroys : destroysAccepted (svc := legacyService).
Proof. split; intros; reflexivity. Qed.

Lemma exampleRegistry_unique :
  uniqueDisplays exampleRegistry /\ uniqueLayers exampleRegistry.
Proof.
  split.
  - unfold uniqueDisplays. cbn.
    repeat constructor; cbn; intuition discriminate.
  - unfold uniqueLayers.
    repeat constructor; cbn; intuition discriminate.
Qed.

Lemma createLayer_unbatched_witness :
  let c := exampleClient false exampleRegistry in
  let result := createLayer (svc := legacyService) 5 2 [] c in
  mNextLayerHandle (snd result) = 1 /\
  fst result = (StatusOk, 1000, []) /\
  In 1000 (layersOf 5 (mDisplayResources (snd result))).
Proof.
  pose proof (createLayer_unbatched (svc := legacyService)
                (exampleClient false exampleRegistry) 5 2 [] eq_refl)
    as (H1 & _ & H3).
  cbv zeta. split; [exact H1|].
  destruct (H3 eq_refl) as [H4 H5]. split; [|exact H5].
  rewrite H4. reflexivity.
Defined.

Lemma addLayer_unknown_display_witness :
  let c := exampleClient false exampleRegistry in
  fst (addLayerToDisplayResources (svc := legacyService) 7 70 c) = StatusOk /\
  mDisplayResources (snd (addLayerToDisplayResources (svc := legacyService) 7 70 c)) =
    exampleRegistry ++ [(7, mkDisplayResource false [70])].
Proof.
  apply (addLayer_unknown_display (svc := legacyService)
           (exampleClient false exampleRegistry) 7 70).
  cbn. intuition discriminate.
Defined.

Lemma registry_round_trips_witness :
  let c := exampleClient false exampleRegistry in
  mDisplayResources
    (snd (eraseDisplayResource 7
            (snd (addDisplayToDisplayResources (svc := legacyService) 7 true c)))) =
    exampleRegistry /\
  mDisplayResources
    (snd (removeLayerFromDisplayResources 5 52
            (snd (addLayerToDisplayResources (svc := legacyService) 5 52 c)))) =
    exampleRegistry.
Proof.
  pose proof (registry_round_trips (svc := legacyService)
                (exampleClient false exampleRegistry) 7 52 true) as [H1 _].
  pose proof (registry_round_trips (svc := legacyService)
                (exampleClient false exampleRegistry) 5 52 true) as [_ H2].
  cbv zeta. split.
  - apply H1. cbn. intuition discriminate.
  - apply H2.
    + cbn. now left.
    + cbn. intuition discriminate.
Defined.

Lemma createVirtualDisplay_outcomes_witness :
  let c := exampleClient false exampleRegistry in
  let result := createVirtualDisplay (svc := legacyService) 640 480 1 2 c in
  fst (fst result) = StatusOk /\
  mDisplayResources (snd result) =
    exampleRegistry ++ [(100, mkDisplayResource true [])].
Proof.
  pose proof (createVirtualDisplay_outcomes (svc := legacyService)
                (exampleClient false exampleRegistry) 640 480 1 2)
    as (_ & _ & H & _).
  apply H; [reflexivity|]. cbn. intuition discriminate.
Defined.

Lemma virtual_display_round_trip_witness :
  let c := exampleClient false exampleRegistry in
  let created := createVirtualDisplay (svc := legacyService) 640 480 1 2 c in
  let destroyed :=
    destroyVirtualDisplay (svc := legacyService)
      (vd_display (snd (fst created))) (snd created) in
  mDisplayResources (snd destroyed) = exampleRegistry.
Proof.
  apply (virtual_display_round_trip (svc := legacyService)
           (exampleClient false exampleRegistry) 640 480 1 2);
    [cbn; intuition discriminate | reflexivity | reflexivity].
Defined.

Lemma getInvalidDisplayId_largest_free_witness :
  exists id,
    getInvalidDisplayId 3 [INT64_MAX; 5] = Some id /\
    0 <= id <= INT64_MAX /\
    (0 < id -> ~ In id [INT64_MAX; 5]) /\
    (forall j, id < j <= INT64_MAX -> In j [INT64_MAX; 5]) /\
    (Z.of_nat (length [INT64_MAX; 5]) < INT64_MAX -> 0 < id).
Proof.
  apply (getInvalidDisplayId_largest_free 3 [INT64_MAX; 5]). cbn. lia.
Defined.

Lemma destroyAllLayers_drains_in_order_witness :
  exists c',
    destroyAllLayers (svc := legacyService) 4 []
      (exampleClient false exampleRegistry) = (Some (true, []), c') /\
    mComposerClient c' =
      [TDestroyLayer 5 50; TDestroyLayer 5 51; TDestroyLayer 9 90;
       TDestroyVirtualDisplay 9] /\
    mDisplayResources c' = [].
Proof.
  apply (destroyAllLayers_drains_in_order (svc := legacyService) 4 []
           (exampleClient false exampleRegistry)
           legacyService_accepts_destroys
           (proj1 exampleRegistry_unique) (proj2 exampleRegistry_unique)).
  - cbn. lia.
  - repeat constructor; cbn; lia.
Defined.

Lemma destroyAllLayers_failure_keeps_registry_witness :
  let c := exampleClient false exampleRegistry in
  let c' := snd (destroyAllLayers (svc := failingDestroyService) 4 [] c) in
  mDisplayResources c' <> [] /\
  incl (UMap.keys (mDisplayResources c')) (UMap.keys (mDisplayResources c)).
Proof.
  exact (destroyAllLayers_failure_keeps_registry (svc := failingDestroyService)
           4 [] [] (exampleClient false exampleRegistry)
           (snd (destroyAllLayers (svc := failingDestroyService) 4 []
                   (exampleClient false exampleRegistry)))
           eq_refl).
Defined.

Lemma createLayer_batched_never_collides_witness :
  let c := exampleClient true [(5, mkDisplayResource false [])] in
  fst (fst (fst (createLayer (svc := legacyService) 5 2 [] c))) = StatusOk /\
  mNextLayerHandle (snd (createLayer (svc := legacyService) 5 2 [] c)) = 1 + 1 /\
  layersBelowCounter (snd (createLayer (svc := legacyService) 5 2 [] c)).
Proof.
  apply (proj1 (proj2 (createLayer_batched_never_collides (svc := legacyService)
                         (exampleClient true [(5, mkDisplayResource false [])])
                         5 0 2 1 [] []))).
  - reflexivity.
  - repeat constructor.
  - split; reflexivity.
Defined.

Lemma destroyVirtualDisplay_outcomes_witness :
  let c := exampleClient false exampleRegistry in
  let result := destroyVirtualDisplay (svc := legacyService) 9 c in
  fst result = StatusOk /\
  UMap.find 9 (mDisplayResources (snd result)) = None /\
  UMap.find 5 (mDisplayResources (snd result)) =
    Some (mkDisplayResource false [50; 51]) /\
  mDisplayResources
    (snd (destroyVirtualDisplay (svc := failingDestroyService) 9 c)) =
    exampleRegistry.
Proof.
  pose proof (destroyVirtualDisplay_outcomes (svc := legacyService)
                (exampleClient false exampleRegistry) 9) as (H1 & _ & H3).
  pose proof (destroyVirtualDisplay_outcomes (svc := failingDestroyService)
                (exampleClient false exampleRegistry) 9) as (_ & H2 & _).
  cbv zeta. split; [exact H1|].
  destruct (H3 eq_refl) as [H4 H5]. split; [exact H4|]. split.
  - rewrite (H5 5); [reflexivity | discriminate].
  - apply H2. reflexivity.
Defined.

Lemma setPeakRefreshRateConfig_select_fastest_witness :
  let displayConfigs :=
    [(0, mkDisplayConfig 16666666 7 None); (1, mkDisplayConfig 8333333 7 None);
     (2, mkDisplayConfig 4166666 9 None)] in
  let peak :=
    setPeakRefreshRateConfig_select displayConfigs
      (mkDisplayConfig 16666666 7 None) 0 in
  snd peak = 1 /\
  configGroup (fst peak) = 7 /\
  vsyncPeriod (fst peak) <= 8333333 /\
  setPeakRefreshRateConfig_select displayConfigs
    (mkDisplayConfig 4166666 9 None) 2 = (mkDisplayConfig 4166666 9 None, 2).
Proof.
  cbv zeta.
  pose proof (setPeakRefreshRateConfig_select_fastest
                [(0, mkDisplayConfig 16666666 7 None);
                 (1, mkDisplayConfig 8333333 7 None);
                 (2, mkDisplayConfig 4166666 9 None)]
                (mkDisplayConfig 16666666 7 None) 0) as (Hg & _ & Hmin & _).
  pose proof (setPeakRefreshRateConfig_select_fastest
                [(0, mkDisplayConfig 16666666 7 None);
                 (1, mkDisplayConfig 8333333 7 None);
                 (2, mkDisplayConfig 4166666 9 None)]
                (mkDisplayConfig 4166666 9 None) 2) as (_ & _ & _ & _ & Hkeep).
  split; [reflexivity|]. split; [exact Hg|]. split.
  - apply (Hmin 1 (mkDisplayConfig 8333333 7 None)); [right; now left | reflexivity].
  - apply Hkeep. intros config displayConfig Hin Hsame.
    cbn in Hin. destruct Hin as [H | [H | [H | []]]];
      injection H as <- <-; cbn in *; lia.
Defined.
